(** * Workload scoring: a shallow embedding of
    [WorkloadScoring.workload_scoring]

    Source: [src/projects/workload_scoring/lib.py].

    The embedding follows the Python text statement by statement.

    - Numbers.  CPython's [float] and NumPy's [float64] are IEEE 754 binary64
      values; they are modelled by [spec_float] with [prec = 53] and
      [emax = 1024], so that every rounding of the source is computed bit for
      bit.  The three numeric classes that meet in the source ([int],
      [float], [numpy.float64]) are kept apart in [num], because [round] and
      [/] dispatch on them.
    - Exceptions.  Fallible steps return [result]; [Raise e] aborts the call
      and leaves the object untouched, as an uncaught Python exception does.
    - Tables.  The loaded table is a list of records with the three fixed
      columns of [read_table] ([id], [created], [updated]) and the selected
      dimension columns; dates are proleptic Gregorian ordinals
      ([datetime.date.toordinal]), whose order is the order of the ISO
      strings the source compares.
    - Object state.  [self.raw_df] and [self.out_df] are the two fields of
      [WorkloadScoring]; the method is a function from a state to an outcome
      and a state. *)

From Stdlib Require Import ZArith List Lia Bool String Ascii.
From Stdlib Require Import SpecFloat.
Import ListNotations.
Open Scope Z_scope.

(** ** Exceptions and the error monad *)

Inductive exn : Type :=
| KeyError
| ValueError
| ZeroDivisionError
| OverflowError
| UnboundLocalError
| ConfigurationError.

Inductive result (A : Type) : Type :=
| Ok (a : A)
| Raise (e : exn).
Arguments Ok {A} a.
Arguments Raise {A} e.

Definition bind {A B : Type} (r : result A) (k : A -> result B) : result B :=
  match r with
  | Ok a => k a
  | Raise e => Raise e
  end.

Notation "x <- c ;; k" := (bind c (fun x => k))
  (at level 61, c at next level, right associativity).
Notation "' p <- c ;; k" := (bind c (fun p => k))
  (at level 61, p pattern, c at next level, right associativity).

(** ** Binary64 arithmetic *)

Module F.

Definition prec : Z := 53.
Definition emax : Z := 1024.
Definition float : Type := spec_float.

Definition zero : float := S754_zero false.
Definition nan : float := S754_nan.

(** Conversion of a Python [int]; exact below [2^53]. *)
Definition of_Z (z : Z) : float := binary_normalize prec emax z 0 false.

Definition add : float -> float -> float := SFadd prec emax.
Definition sub : float -> float -> float := SFsub prec emax.
Definition mul : float -> float -> float := SFmul prec emax.
Definition div : float -> float -> float := SFdiv prec emax.
Definition sqrt : float -> float := SFsqrt prec emax.
Definition eqb : float -> float -> bool := SFeqb.

Definition is_zero (x : float) : bool :=
  match x with
  | S754_zero _ => true
  | _ => false
  end.

Definition is_finite (x : float) : bool :=
  match x with
  | S754_zero _ | S754_finite _ _ _ => true
  | _ => false
  end.

(** Nearest integer to [n / d], ties to even ([0 <= n], [0 < d]). *)
Definition rne_div (n d : Z) : Z :=
  let q := n / d in
  let r := n mod d in
  match 2 * r ?= d with
  | Lt => q
  | Gt => q + 1
  | Eq => if Z.even q then q else q + 1
  end.

(** C's [rint] in the default rounding mode: the nearest integral value,
    ties to even, keeping the sign of a zero result. *)
Definition rint (x : float) : float :=
  match x with
  | S754_finite s m e =>
      if 0 <=? e then x
      else
        let q := rne_div (Zpos m) (2 ^ (- e)) in
        if q =? 0 then S754_zero s else of_Z (cond_Zopp s q)
  | _ => x
  end.

(** [int(x)] on a float: truncation toward zero; [nan] and the infinities
    have no integer. *)
Definition trunc (x : float) : result Z :=
  match x with
  | S754_zero _ => Ok 0
  | S754_finite s m e =>
      Ok (cond_Zopp s (if 0 <=? e then Zpos m * 2 ^ e else Zpos m / 2 ^ (- e)))
  | S754_infinity _ => Raise OverflowError
  | S754_nan => Raise ValueError
  end.

(** [numpy.round(x, 2)], which [round(x, 2)] calls on a [numpy.float64]:
    scale by [10 ** 2], [rint], scale back. *)
Definition np_round2 (x : float) : float :=
  div (rint (mul x (of_Z 100))) (of_Z 100).

(** [float.__round__(x, 2)]: the exact value of [x] is rounded to two
    decimals, ties to even, and the decimal result is converted back to the
    nearest double.  From [2^53 / 100] on, doubles are spaced by more than
    [0.01] and the nearest double to the rounded decimal is [x] itself. *)
Definition py_round2 (x : float) : float :=
  match x with
  | S754_finite s m e =>
      if 0 <=? e then x
      else
        let q := rne_div (Zpos m * 100) (2 ^ (- e)) in
        if q =? 0 then S754_zero s
        else if 2 ^ prec <=? q then x
        else div (of_Z (cond_Zopp s q)) (of_Z 100)
  | _ => x
  end.

(** [math.sqrt] on a float: a domain error below zero. *)
Definition math_sqrt (x : float) : result float :=
  match x with
  | S754_finite true _ _ | S754_infinity true => Raise ValueError
  | _ => Ok (sqrt x)
  end.

(** A decimal literal with two places, [h / 100], as the nearest double. *)
Definition of_hundredths (h : Z) : float := div (of_Z h) (of_Z 100).

End F.

(** ** Python numbers *)

Inductive num : Type :=
| PyInt (z : Z)
| PyFloat (f : F.float)
| NpFloat (f : F.float).

Definition is_np (a : num) : bool :=
  match a with
  | NpFloat _ => true
  | _ => false
  end.

(** The double a number denotes when it takes part in float arithmetic. *)
Definition as_float (a : num) : F.float :=
  match a with
  | PyInt z => F.of_Z z
  | PyFloat f | NpFloat f => f
  end.

(** [round(a, 2)]: an [int] is returned unchanged, a [float] goes through
    [float.__round__], a [numpy.float64] through [numpy.round]. *)
Definition round2 (a : num) : num :=
  match a with
  | PyInt z => PyInt z
  | PyFloat f => PyFloat (F.py_round2 f)
  | NpFloat f => NpFloat (F.np_round2 f)
  end.

(** [a + b] and [a - b]: exact on two [int]s, NumPy's as soon as one operand
    is a [numpy.float64]. *)
Definition num_add (a b : num) : num :=
  match a, b with
  | PyInt x, PyInt y => PyInt (x + y)
  | _, _ =>
      (if is_np a || is_np b then NpFloat else PyFloat)
        (F.add (as_float a) (as_float b))
  end.

Definition num_sub (a b : num) : num :=
  match a, b with
  | PyInt x, PyInt y => PyInt (x - y)
  | _, _ =>
      (if is_np a || is_np b then NpFloat else PyFloat)
        (F.sub (as_float a) (as_float b))
  end.

(** [a / b]: Python raises on a zero divisor; NumPy only warns and returns
    an infinity or [nan].  The quotient of two [int]s is the correctly
    rounded one, which is the quotient of their doubles while both are
    below [2^53]. *)
Definition num_truediv (a b : num) : result num :=
  if is_np a || is_np b then Ok (NpFloat (F.div (as_float a) (as_float b)))
  else if F.is_zero (as_float b) then Raise ZeroDivisionError
  else Ok (PyFloat (F.div (as_float a) (as_float b))).

(** [a ** 2] on a [numpy.float64]. *)
Definition np_square (a : F.float) : F.float := F.mul a a.

(** [math.sqrt(a)]: the argument is converted to a C double first. *)
Definition mt_sqrt (a : num) : result F.float :=
  match a with
  | PyInt z =>
      match F.of_Z z with
      | S754_infinity _ => Raise OverflowError
      | f => F.math_sqrt f
      end
  | PyFloat f | NpFloat f => F.math_sqrt f
  end.

(** [int(a)]. *)
Definition py_int (a : num) : result Z :=
  match a with
  | PyInt z => Ok z
  | PyFloat f | NpFloat f => F.trunc f
  end.

(** ** Tables *)

(** A cell of the loaded table.  [VNaN] is a missing value: it is never
    [==] to anything, and [unique] keeps a single copy of it. *)
Inductive value : Type :=
| VInt (z : Z)
| VStr (s : string)
| VDate (d : Z)
| VNaN.

Definition value_eq_dec (a b : value) : {a = b} + {a <> b}.
Proof.
  decide equality; first [apply Z.eq_dec | apply string_dec].
Defined.

Definition value_same (a b : value) : bool :=
  if value_eq_dec a b then true else false.

(** Elementwise [==] of a column against a scalar. *)
Definition py_eq (a b : value) : bool :=
  match a, b with
  | VNaN, _ | _, VNaN => false
  | _, _ => value_same a b
  end.

(** One row of [raw_df]: the base columns of [read_table]'s query and the
    cells of the selected dimension columns. *)
Record record : Type := mk_record {
  id : Z;
  created : Z;
  updated : Z;
  dims : list value
}.

Record DataFrame : Type := mk_df {
  dim_names : list string;
  records : list record
}.

Fixpoint index_of (name : string) (names : list string) : option nat :=
  match names with
  | [] => None
  | n :: rest =>
      if String.eqb name n then Some O
      else option_map S (index_of name rest)
  end.

(** [df[column]]: a [KeyError] for a name that is not a column. *)
Definition get_column (df : DataFrame) (column : string)
    : result (list value) :=
  if String.eqb column "id" then Ok (map (fun r => VInt (id r)) (records df))
  else if String.eqb column "created" then
    Ok (map (fun r => VDate (created r)) (records df))
  else if String.eqb column "updated" then
    Ok (map (fun r => VDate (updated r)) (records df))
  else
    match index_of column (dim_names df) with
    | Some j => Ok (map (fun r => nth j (dims r) VNaN) (records df))
    | None => Raise KeyError
    end.

(** [Series.unique()]: distinct values in order of first appearance, found
    with a table of the values seen so far. *)
Fixpoint unique_from (seen : list value) (l : list value) : list value :=
  match l with
  | [] => []
  | x :: rest =>
      if existsb (value_same x) seen then unique_from seen rest
      else x :: unique_from (x :: seen) rest
  end.

Definition unique (l : list value) : list value := unique_from [] l.

(** [len(np.unique(ids))]. *)
Fixpoint distinct_ids (l : list Z) : list Z :=
  match l with
  | [] => []
  | x :: rest =>
      if existsb (Z.eqb x) rest then distinct_ids rest
      else x :: distinct_ids rest
  end.

Definition count_unique (l : list Z) : Z :=
  Z.of_nat (List.length (distinct_ids l)).

(** [itertools.product] over the pools, as its documentation defines it:
    [result = [[]]], then for each pool
    [result = [x + [y] for x in result for y in pool]]. *)
Definition product (pools : list (list value)) : list (list value) :=
  fold_left
    (fun result pool => flat_map (fun x => map (fun y => x ++ [y]) pool) result)
    pools [[]].

(** The boolean mask of [__get_dataframe_slice]: it starts as the Python
    scalar [True] and becomes a series at the first [&]. *)
Inductive mask : Type :=
| MTrue
| MSeries (bs : list bool).

Fixpoint zip_and (a b : list bool) : list bool :=
  match a, b with
  | x :: a', y :: b' => (x && y) :: zip_and a' b'
  | _, _ => []
  end.

Definition mask_and (m : mask) (series : list bool) : mask :=
  match m with
  | MTrue => MSeries series
  | MSeries bs => MSeries (zip_and bs series)
  end.

Fixpoint select {A : Type} (l : list A) (bs : list bool) : list A :=
  match l, bs with
  | x :: l', b :: bs' => if b then x :: select l' bs' else select l' bs'
  | _, _ => []
  end.

(** [df[mask]]: a boolean series selects rows; the scalar [True] is looked
    up as a column label and is not one. *)
Definition getitem_mask (df : DataFrame) (m : mask) : result DataFrame :=
  match m with
  | MTrue => Raise KeyError
  | MSeries bs => Ok (mk_df (dim_names df) (select (records df) bs))
  end.

Fixpoint slice_mask (raw : DataFrame) (columns : list string) (i : nat)
    (values : list value) (m : mask) : result mask :=
  match columns with
  | [] => Ok m
  | col :: rest =>
      series <- get_column raw col ;;
      v <- match nth_error values i with
           | Some v => Ok v
           | None => Raise KeyError
           end ;;
      slice_mask raw rest (S i) values
        (mask_and m (map (fun c => py_eq c v) series))
  end.

Definition get_dataframe_slice (raw : DataFrame) (columns : list string)
    (values : list value) : result DataFrame :=
  m <- slice_mask raw columns 0 values MTrue ;;
  getitem_mask raw m.

(** ** Dates *)

(** [datetime.date] covers the years 1 to 9999. *)
Definition min_ordinal : Z := 1.
Definition max_ordinal : Z := 3652059.

Definition date_ok (d : Z) : bool := (min_ordinal <=? d) && (d <=? max_ordinal).

(** [datetime.strptime(str(end_date), '%Y-%m-%d').date()]: only a calendar
    date parses. *)
Definition strptime_date (d : Z) : result Z :=
  if date_ok d then Ok d else Raise ValueError.

(** [dt.timedelta(days=n)]. *)
Definition timedelta (n : Z) : result Z :=
  if Z.abs n <=? 999999999 then Ok n else Raise OverflowError.

Definition date_add (d delta : Z) : result Z :=
  if date_ok (d + delta) then Ok (d + delta) else Raise OverflowError.

Definition date_sub (d delta : Z) : result Z :=
  if date_ok (d - delta) then Ok (d - delta) else Raise OverflowError.

(** ** The score classifier *)

Definition calc_workload_score
    (left_board right_board current_num_of_tasks : Z) : Z :=
  if (left_board =? 0) && (current_num_of_tasks =? 0) && (right_board =? 0)
  then 0
  else if (current_num_of_tasks >=? 0)
          && (current_num_of_tasks <? left_board)
  then 0
  else if (current_num_of_tasks >=? left_board)
          && (current_num_of_tasks <=? right_board)
  then 1
  else 2.

(** ** The output dictionary *)

(** A cell of the output table: a computed number or a dimension value. *)
Inductive cell : Type :=
| CNum (n : num)
| CVal (v : value).

(** The [dict] named [data]: keys in insertion order. *)
Definition dict : Type := list (string * list cell).

(** [data[k] = v]. *)
Fixpoint dict_set (d : dict) (k : string) (v : list cell) : dict :=
  match d with
  | [] => [(k, v)]
  | (k', v') :: rest =>
      if String.eqb k k' then (k', v) :: rest
      else (k', v') :: dict_set rest k v
  end.

(** [data[k].append(x)]. *)
Fixpoint dict_append (d : dict) (k : string) (x : cell) : result dict :=
  match d with
  | [] => Raise KeyError
  | (k', l) :: rest =>
      if String.eqb k k' then Ok ((k', l ++ [x]) :: rest)
      else
        rest' <- dict_append rest k x ;;
        Ok ((k', l) :: rest')
  end.

Definition same_lengths (d : dict) : bool :=
  match d with
  | [] => true
  | (_, l) :: rest =>
      forallb (fun kv => Nat.eqb (List.length (snd kv)) (List.length l)) rest
  end.

(** [pd.DataFrame(data=data)]: all columns must have one length. *)
Definition frame_of_dict (d : dict) : result dict :=
  if same_lengths d then Ok d else Raise ValueError.

(** ** Baseline statistics (lines 201 to 213) *)

Definition sum_Z (l : list Z) : Z := fold_left Z.add l 0.

(** [np.mean] of a list of [int]s: the float64 sum over the count.  Sums of
    integers are exact in float64 below [2^53]; the mean of the empty list
    is [nan]. *)
Definition np_mean (l : list Z) : F.float :=
  F.div (F.of_Z (sum_Z l)) (F.of_Z (Z.of_nat (List.length l))).

(** [a ** 2]: CPython raises when a finite [float] overflows, NumPy
    returns the infinity. *)
Definition num_pow2 (a : num) : result num :=
  match a with
  | PyInt z => Ok (PyInt (z * z))
  | PyFloat f =>
      let r := F.mul f f in
      if F.is_finite f && negb (F.is_finite r) then Raise OverflowError
      else Ok (PyFloat r)
  | NpFloat f => Ok (NpFloat (F.mul f f))
  end.

(** The loop of lines 205 to 208. *)
Fixpoint squared_deviations (avg : num) (num_tasks_per_week : list Z)
    (x_values : list num) : result (list num) :=
  match num_tasks_per_week with
  | [] => Ok x_values
  | n :: rest =>
      p <- num_pow2 (num_sub (PyInt n) avg) ;;
      squared_deviations avg rest (x_values ++ [round2 p])
  end.

(** The builtin [sum]: left to right from the [int] [0]. *)
Definition py_sum (l : list num) : num := fold_left num_add l (PyInt 0).

Record Stats : Type := mk_stats {
  st_avg : num;
  st_var : num;
  st_std : num;
  st_ste : num
}.

Definition baseline_stats (num_tasks_per_week : list Z) (num_of_intervals : Z)
    : result Stats :=
  let avg_num_of_task_per_week :=
    round2 (NpFloat (np_mean num_tasks_per_week)) in
  x_values <-
    squared_deviations avg_num_of_task_per_week num_tasks_per_week [] ;;
  let x_sum := round2 (py_sum x_values) in
  q <- num_truediv x_sum (PyInt (num_of_intervals - 1)) ;;
  let var := round2 q in
  s <- mt_sqrt var ;;
  let std := round2 (PyFloat s) in
  r <- mt_sqrt (PyInt num_of_intervals) ;;
  q' <- num_truediv std (PyFloat r) ;;
  let ste := round2 q' in
  Ok (mk_stats avg_num_of_task_per_week var std ste).

(** Lines 215 and 216. *)
Definition borders (s : Stats) : result (Z * Z) :=
  left_border <- py_int (num_sub (st_avg s) (st_ste s)) ;;
  right_border <- py_int (num_add (st_avg s) (st_ste s)) ;;
  Ok (left_border, right_border).

(** ** Windows (lines 176 to 199) *)

(** [range(0, n)]. *)
Definition py_range (n : Z) : list Z := map Z.of_nat (seq 0 (Z.to_nat n)).

Definition in_window (fst_cur_date snd_cur_date : Z) (r : record) : bool :=
  (fst_cur_date <=? updated r) && (updated r <=? snd_cur_date).

Fixpoint count_windows (df_slice : list record) (delta num_of_intervals : Z)
    (indices : list Z) (fst_cur_date snd_cur_date : Z)
    (num_tasks_per_week : list Z) (num_tasks_per_current_week : option Z)
    : result (list Z * option Z) :=
  match indices with
  | [] => Ok (num_tasks_per_week, num_tasks_per_current_week)
  | i :: rest =>
      let df_interval :=
        filter (in_window fst_cur_date snd_cur_date) df_slice in
      fst_cur_date' <- date_add fst_cur_date delta ;;
      snd_cur_date' <- date_add snd_cur_date delta ;;
      let num_of_tasks := count_unique (map id df_interval) in
      if negb (i =? num_of_intervals - 1) then
        count_windows df_slice delta num_of_intervals rest
          fst_cur_date' snd_cur_date'
          (num_tasks_per_week ++ [num_of_tasks]) num_tasks_per_current_week
      else
        count_windows df_slice delta num_of_intervals rest
          fst_cur_date' snd_cur_date'
          num_tasks_per_week (Some num_of_tasks)
  end.

(** [int(num_of_all_days / num_of_interval_days)]: the true quotient of two
    [int]s, truncated toward zero.  Both operands have passed [timedelta],
    so they are below [10^9] and the double quotient truncates to the
    integer quotient. *)
Definition num_intervals (num_of_all_days num_of_interval_days : Z)
    : result Z :=
  if num_of_interval_days =? 0 then Raise ZeroDivisionError
  else Ok (Z.quot num_of_all_days num_of_interval_days).

(** ** One partition (the body of the loop of line 173) *)

Fixpoint append_values (data : dict) (columns_list : list string) (i : nat)
    (values : list value) : result dict :=
  match columns_list with
  | [] => Ok data
  | column :: rest =>
      v <- match nth_error values i with
           | Some v => Ok v
           | None => Raise KeyError
           end ;;
      data' <- dict_append data column (CVal v) ;;
      append_values data' rest (S i) values
  end.

(** The local variables that survive from one partition to the next:
    [data] and [num_tasks_per_current_week]. *)
Definition locals : Type := (dict * option Z)%type.

(** Lines 176 to 218: the score of one slice, with the current count and
    the statistics it was computed from. *)
Definition score_slice (df_slice : DataFrame)
    (num_of_all_days num_of_interval_days end_date : Z)
    (num_tasks_per_current_week : option Z) : result (Z * Z * Stats) :=
  end_date <- strptime_date end_date ;;
  all_days <- timedelta num_of_all_days ;;
  fst_cur_date <- date_sub end_date all_days ;;
  delta <- timedelta num_of_interval_days ;;
  snd_cur_date <- date_add fst_cur_date delta ;;
  num_of_intervals <- num_intervals num_of_all_days num_of_interval_days ;;
  '(num_tasks_per_week, num_tasks_per_current_week) <-
    count_windows (records df_slice) delta num_of_intervals
      (py_range num_of_intervals) fst_cur_date snd_cur_date
      [] num_tasks_per_current_week ;;
  s <- baseline_stats num_tasks_per_week num_of_intervals ;;
  '(left_border, right_border) <- borders s ;;
  current <- match num_tasks_per_current_week with
             | Some c => Ok c
             | None => Raise UnboundLocalError
             end ;;
  Ok (calc_workload_score left_border right_border current, current, s).

Definition partition_step (raw : DataFrame) (columns_list : list string)
    (num_of_all_days num_of_interval_days end_date : Z)
    (st : locals) (values : list value) : result locals :=
  let '(data, num_tasks_per_current_week) := st in
  df_slice <- get_dataframe_slice raw columns_list values ;;
  '(score_value, current, s) <-
    score_slice df_slice num_of_all_days num_of_interval_days end_date
      num_tasks_per_current_week ;;
  data <- dict_append data "score_value" (CNum (PyInt score_value)) ;;
  data <- dict_append data "count_last_period" (CNum (PyInt current)) ;;
  data <- dict_append data "count_sem_calc_period" (CNum (st_ste s)) ;;
  data <- dict_append data "count_mean_calc_period" (CNum (st_avg s)) ;;
  data <- append_values data columns_list 0 values ;;
  Ok (data, Some current).

Fixpoint partitions_loop (raw : DataFrame) (columns_list : list string)
    (num_of_all_days num_of_interval_days end_date : Z)
    (cartesian_product : list (list value)) (st : locals) : result locals :=
  match cartesian_product with
  | [] => Ok st
  | values :: rest =>
      st' <- partition_step raw columns_list num_of_all_days
               num_of_interval_days end_date st values ;;
      partitions_loop raw columns_list num_of_all_days num_of_interval_days
        end_date rest st'
  end.

(** ** The method *)

(** Lines 165 to 169. *)
Fixpoint setup_columns (raw : DataFrame) (columns_list : list string)
    (data : dict) (col_unique_vals : list (list value))
    : result (dict * list (list value)) :=
  match columns_list with
  | [] => Ok (data, col_unique_vals)
  | column :: rest =>
      let data := dict_set data column [] in
      series <- get_column raw column ;;
      setup_columns raw rest data (col_unique_vals ++ [unique series])
  end.

Definition initial_data : dict :=
  [("score_value", []); ("count_last_period", []);
   ("count_sem_calc_period", []); ("count_mean_calc_period", [])]%string.

(** The part of the method after the guard of line 155: the table it
    assigns to [self.out_df]. *)
Definition scoring_table (raw : DataFrame) (columns_list : list string)
    (num_of_all_days num_of_interval_days end_date : Z) : result dict :=
  '(data, col_unique_vals) <- setup_columns raw columns_list initial_data [] ;;
  let cartesian_product := product col_unique_vals in
  '(data, _) <-
    partitions_loop raw columns_list num_of_all_days num_of_interval_days
      end_date cartesian_product (data, None) ;;
  frame_of_dict data.

Record WorkloadScoring : Type := mk_ws {
  raw_df : option DataFrame;
  out_df : option dict
}.

(** How a call ends: it returns a value ([None] or a string) or an
    exception escapes. *)
Inductive outcome : Type :=
| Returns (v : option string)
| Raises (e : exn).

Definition workload_scoring (columns_list : list string)
    (num_of_all_days num_of_interval_days end_date : Z)
    (self : WorkloadScoring) : outcome * WorkloadScoring :=
  match raw_df self with
  | None => (Returns (Some "load data"%string), self)
  | Some raw =>
      match scoring_table raw columns_list num_of_all_days
              num_of_interval_days end_date with
      | Ok df => (Returns None, mk_ws (raw_df self) (Some df))
      | Raise e => (Raises e, self)
      end
  end.

(** ** Definitions used to state the properties *)

(** The object as [__init__] leaves it. *)
Definition fresh_object : WorkloadScoring := mk_ws None None.

(** The mathematical floor of a double, to compare with [F.trunc]. *)
Definition float_floor (x : F.float) : result Z :=
  match x with
  | S754_zero _ => Ok 0
  | S754_finite s m e =>
      Ok (if 0 <=? e then cond_Zopp s (Zpos m * 2 ^ e)
          else cond_Zopp s (Zpos m) / 2 ^ (- e))
  | S754_infinity _ => Raise OverflowError
  | S754_nan => Raise ValueError
  end.

(** [x] is not below zero. *)
Definition float_nonneg (x : F.float) : bool :=
  match x with
  | S754_zero _ | S754_finite false _ _ | S754_infinity false => true
  | _ => false
  end.

(** The bounds and the count of window [i] (counted from [0], oldest
    first) of an analysis period. *)
Definition window_start (end_date num_of_all_days num_of_interval_days i : Z)
    : Z :=
  end_date - num_of_all_days + i * num_of_interval_days.

Definition window_end (end_date num_of_all_days num_of_interval_days i : Z)
    : Z :=
  end_date - num_of_all_days + (i + 1) * num_of_interval_days.

Definition window_count (df_slice : list record) (lo hi : Z) : Z :=
  count_unique (map id (filter (in_window lo hi) df_slice)).

(** The window counts of a slice: the baseline series is made of the
    windows [0] to [m - 2], the current count is that of window [m - 1]. *)
Definition baseline_counts (df_slice : list record)
    (end_date num_of_all_days num_of_interval_days m : Z) : list Z :=
  map (fun i =>
         window_count df_slice
           (window_start end_date num_of_all_days num_of_interval_days i)
           (window_end end_date num_of_all_days num_of_interval_days i))
      (py_range (m - 1)).

Definition current_count (df_slice : list record)
    (end_date num_of_all_days num_of_interval_days m : Z) : Z :=
  window_count df_slice
    (window_start end_date num_of_all_days num_of_interval_days (m - 1))
    (window_end end_date num_of_all_days num_of_interval_days (m - 1)).

(** An analysis period the date arithmetic of the loop accepts: at least
    one window, and every date the loop computes, including the two it
    computes after the last window, is a calendar date. *)
Definition period_in_range (end_date num_of_all_days num_of_interval_days : Z)
    : Prop :=
  0 < num_of_interval_days <= num_of_all_days /\
  num_of_all_days <= 999999999 /\
  date_ok end_date = true /\
  date_ok (end_date - num_of_all_days) = true /\
  date_ok
    (end_date - num_of_all_days
     + (num_of_all_days / num_of_interval_days + 1) * num_of_interval_days)
  = true.

(** The day counts fit a [timedelta] and the dates the method computes up
    to the end of the first window's iteration are calendar dates. *)
Definition first_dates_in_range
    (end_date num_of_all_days num_of_interval_days : Z) : Prop :=
  date_ok end_date = true /\
  Z.abs num_of_all_days <= 999999999 /\
  Z.abs num_of_interval_days <= 999999999 /\
  date_ok (end_date - num_of_all_days) = true /\
  date_ok (end_date - num_of_all_days + num_of_interval_days) = true /\
  date_ok (end_date - num_of_all_days + 2 * num_of_interval_days) = true.

(** A period counted backwards: both day counts are negative, their
    quotient is at least 2, and the dates the loop computes, which run from
    [end_date - num_of_all_days] down, are calendar dates. *)
Definition reversed_period
    (end_date num_of_all_days num_of_interval_days : Z) : Prop :=
  num_of_interval_days < 0 /\
  - 999999999 <= num_of_all_days <= 2 * num_of_interval_days /\
  date_ok (end_date - num_of_all_days) = true /\
  date_ok
    (end_date - num_of_all_days
     + (Z.quot num_of_all_days num_of_interval_days + 1)
       * num_of_interval_days)
  = true.

(** The names [df[column]] accepts. *)
Definition column_names (df : DataFrame) : list string :=
  ["id"; "created"; "updated"]%string ++ dim_names df.

(** A configuration the method accepts: at least one dimension, every
    dimension a column of the loaded table, a period of at least two
    windows whose dates are calendar dates, and fewer than [2 ^ 63]
    records. *)
Definition valid_configuration (raw : DataFrame) (columns_list : list string)
    (num_of_all_days num_of_interval_days end_date : Z) : Prop :=
  columns_list <> [] /\
  (forall c, In c columns_list -> In c (column_names raw)) /\
  period_in_range end_date num_of_all_days num_of_interval_days /\
  2 * num_of_interval_days <= num_of_all_days /\
  Z.of_nat (List.length (records raw)) < 2 ^ 63.

(** [data[k]]. *)
Fixpoint dict_get (d : dict) (k : string) : option (list cell) :=
  match d with
  | [] => None
  | (k', v) :: rest => if String.eqb k k' then Some v else dict_get rest k
  end.

(** The rows of a table, restricted to the listed columns. *)
Definition frame_column (df : dict) (column : string) : list cell :=
  match dict_get df column with
  | Some l => l
  | None => []
  end.

Definition frame_height (df : dict) : nat :=
  match df with
  | [] => O
  | (_, l) :: _ => List.length l
  end.

Definition frame_rows (df : dict) (columns : list string) : list (list cell) :=
  map (fun k => map (fun c => nth k (frame_column df c) (CVal VNaN)) columns)
      (seq 0 (frame_height df)).

(** Distinct values in order of first appearance, said directly: the head,
    then the first appearances of the tail that differ from it. *)
Fixpoint first_occurrences (l : list value) : list value :=
  match l with
  | [] => []
  | x :: rest =>
      x :: filter (fun y => negb (value_same y x)) (first_occurrences rest)
  end.

(** Lexicographic enumeration of a Cartesian product: the first pool is the
    outermost loop and varies slowest, the last pool varies fastest. *)
Fixpoint lex_product (pools : list (list value)) : list (list value) :=
  match pools with
  | [] => [[]]
  | pool :: rest => flat_map (fun x => map (cons x) (lex_product rest)) pool
  end.

(** The cells of a column of the loaded table ([[]] for a name that is not
    a column). *)
Definition column_values (raw : DataFrame) (column : string) : list value :=
  match get_column raw column with
  | Ok l => l
  | Raise _ => []
  end.

(** The four statistics columns of the output table. *)
Definition stat_names : list string :=
  ["score_value"; "count_last_period"; "count_sem_calc_period";
   "count_mean_calc_period"]%string.

(** The variance the source computes over a series, with the divisor left
    open: every squared deviation, their sum and the quotient are rounded to
    two decimals. *)
Definition rounded_mean (series : list Z) : F.float :=
  F.np_round2 (np_mean series).

Definition rounded_variance (divisor : Z) (series : list Z) : F.float :=
  let mean := rounded_mean series in
  let squares :=
    map (fun x => F.np_round2 (np_square (F.sub (F.of_Z x) mean))) series in
  F.np_round2
    (F.div (F.np_round2 (fold_left F.add squares (F.of_Z 0))) (F.of_Z divisor)).

(** Binary64 instances of the format parameters. *)
Abbreviation emin := (SpecFloat.emin F.prec F.emax).
Abbreviation fexp := (SpecFloat.fexp F.prec F.emax).
Abbreviation bra := (binary_round_aux F.prec F.emax).

(** The sign of a float; [nan] has every sign. *)
Definition has_sign (s : bool) (x : F.float) : Prop :=
  match x with
  | S754_zero s' | S754_infinity s' | S754_finite s' _ _ => s' = s
  | S754_nan => True
  end.

(** A float above zero: finite or the infinity. *)
Definition positive_float (x : F.float) : Prop :=
  match x with
  | S754_finite false _ _ | S754_infinity false => True
  | _ => False
  end.

(** [x] is finite, below [2 ^ K] in absolute value, and its exponent is
    one of the format. *)
Definition finite_below (K : Z) (x : F.float) : Prop :=
  match x with
  | S754_zero _ => True
  | S754_finite _ m e => Zpos (digits2_pos m) + e <= K /\ emin <= e
  | _ => False
  end.

(** [x] is finite and at least 1 in absolute value. *)
Definition at_least_one (x : F.float) : Prop :=
  match x with
  | S754_finite _ m e => 1 <= Zpos (digits2_pos m) + e
  | _ => False
  end.

(** [x] is not negative and is at most [B] units of [2 ^ emin]. *)
Definition value_below (B : Z) (x : F.float) : Prop :=
  match x with
  | S754_zero _ => True
  | S754_finite false m e => emin <= e /\ Zpos m * 2 ^ (e - emin) <= B
  | _ => False
  end.

(** The three guarded rules of the decision table. *)
Definition rule1 (left_board right_board current : Z) : Prop :=
  left_board = 0 /\ current = 0 /\ right_board = 0.

Definition rule2 (left_board current : Z) : Prop :=
  0 <= current < left_board.

Definition rule3 (left_board right_board current : Z) : Prop :=
  left_board <= current <= right_board.

(** The count of the window the loop reaches after [j] further steps. *)
Definition step_count (df_slice : list record) (delta : Z)
    (fst_cur_date snd_cur_date : Z) (j : nat) : Z :=
  window_count df_slice (fst_cur_date + Z.of_nat j * delta)
    (snd_cur_date + Z.of_nat j * delta).

(** What the partition loop has built after the tuples [tuples], whose
    slices scored [rows]: the head column is [score_value], the four
    statistics columns hold the rows' numbers, and column [j] of the
    dimensions holds component [j] of every tuple. *)
Definition table_inv (raw : DataFrame) (columns_list : list string)
    (num_of_all_days num_of_interval_days end_date : Z)
    (data : dict) (tuples : list (list value))
    (rows : list (Z * Z * Stats)) : Prop :=
  hd_error (map fst data) = Some "score_value"%string /\
  dict_get data "score_value"
    = Some (map (fun r => CNum (PyInt (fst (fst r)))) rows) /\
  dict_get data "count_last_period"
    = Some (map (fun r => CNum (PyInt (snd (fst r)))) rows) /\
  dict_get data "count_sem_calc_period"
    = Some (map (fun r => CNum (st_ste (snd r))) rows) /\
  dict_get data "count_mean_calc_period"
    = Some (map (fun r => CNum (st_avg (snd r))) rows) /\
  (forall j c, nth_error columns_list j = Some c ->
     dict_get data c = Some (map (fun t => CVal (nth j t VNaN)) tuples)) /\
  Forall2
    (fun t r => exists df_slice prev,
       get_dataframe_slice raw columns_list t = Ok df_slice /\
       score_slice df_slice num_of_all_days num_of_interval_days end_date prev
         = Ok r)
    tuples rows.

(** A result that is not the given exception. *)
Definition never_raises {A : Type} (e : exn) (r : result A) : Prop :=
  r <> Raise e.

(** The cell of record [r] in column [column]: what [df[column]] holds in
    the row of [r] ([VNaN] for a name that is not a column). *)
Definition record_cell (df : DataFrame) (column : string) (r : record)
    : value :=
  if String.eqb column "id" then VInt (id r)
  else if String.eqb column "created" then VDate (created r)
  else if String.eqb column "updated" then VDate (updated r)
  else
    match index_of column (dim_names df) with
    | Some j => nth j (dims r) VNaN
    | None => VNaN
    end.

(** The tuple of a record over the listed columns. *)
Definition record_tuple (df : DataFrame) (columns : list string) (r : record)
    : list value :=
  map (fun c => record_cell df c r) columns.

(** A record matches a tuple when the cell of each listed column [==] the
    component of the tuple at the column's position. *)
Fixpoint row_matches (df : DataFrame) (columns : list string)
    (values : list value) (r : record) : bool :=
  match columns, values with
  | c :: cs, v :: vs => py_eq (record_cell df c r) v && row_matches df cs vs r
  | _, _ => true
  end.

(** The value of a finite double in units of [2 ^ emin] ([0] for the
    others). *)
Definition float_units (x : F.float) : Z :=
  match x with
  | S754_finite s m e => cond_Zopp s (Zpos m * 2 ^ (e - emin))
  | _ => 0
  end.

(** The mantissa of a finite double has at most [prec] bits. *)
Definition mantissa_fits (x : F.float) : Prop :=
  match x with
  | S754_finite _ m _ => Zpos (digits2_pos m) <= F.prec
  | _ => True
  end.

(** ** The methods that talk to BigQuery *)

(** What a call into a library may raise: a Python built-in exception, or
    an exception class of the library itself, kept by name. *)
Inductive raised : Type :=
| Builtin (e : exn)
| Library (name : string).

Inductive io_result (A : Type) : Type :=
| Done (a : A)
| Failed (e : raised).
Arguments Done {A} a.
Arguments Failed {A} e.

(** The libraries behind the class, as the class uses them: each field is
    one call the source makes, with the arguments the source passes.
    [read_gbq] answers the query of [read_table] with a table;
    [read_gbq_dtypes] answers the [limit 0] query of [write_table] with the
    [dtypes] of its result, a column name with a dtype name each; [astype]
    is [Series.astype]; [to_gbq] is the upload with [if_exists='append']. *)
Record Libraries : Type := mk_libraries {
  from_service_account_info : list (string * string) -> io_result unit;
  read_gbq : string -> string -> io_result DataFrame;
  read_gbq_dtypes : string -> string -> io_result (list (string * string));
  astype : list cell -> string -> io_result (list cell);
  to_gbq : dict -> string -> string -> io_result unit
}.

(** A request sent to BigQuery. *)
Inductive request : Type :=
| ReadGbq (sql project : string)
| ToGbq (frame : dict) (project destination_table : string).

(** The object with the attributes the methods read: the two tables and
    [project_id].  The attribute [credentials] is written by [__init__] and
    read by no method. *)
Record Client : Type := mk_client {
  frames : WorkloadScoring;
  project_id : string
}.

Inductive io_outcome : Type :=
| IoReturns (v : option string)
| IoRaises (e : raised).

(** [d[k]] on a [dict] of strings. *)
Fixpoint assoc (d : list (string * string)) (k : string) : option string :=
  match d with
  | [] => None
  | (k', v) :: rest => if String.eqb k k' then Some v else assoc rest k
  end.

(** [sep.join(l)]. *)
Definition join (sep : string) (l : list string) : string :=
  String.concat sep l.

(** [__init__] (lines 77 to 82). *)
Definition init (env : Libraries) (credentials : list (string * string))
    : io_result Client :=
  match assoc credentials "project_id"%string with
  | None => Failed (Builtin KeyError)
  | Some project =>
      match from_service_account_info env credentials with
      | Failed e => Failed e
      | Done _ => Done (mk_client (mk_ws None None) project)
      end
  end.

(** [f"'{x}'"] for a [str]. *)
Definition quoted (x : string) : string := ("'" ++ x ++ "'")%string.

(** The loop of lines 306 to 309 over [columns.items()]. *)
Fixpoint where_loop (items : list (string * list string))
    (where_statement : list string) : list string :=
  match items with
  | [] => where_statement
  | (c, v) :: rest =>
      if (0 <? Z.of_nat (List.length v)) then
        let val_enum := join ", "%string (map quoted v) in
        where_loop rest
          (where_statement ++ [(c ++ " in (" ++ val_enum ++ ")")%string])
      else where_loop rest where_statement
  end.

(** Lines 298 to 318: the query text.  [columns] is a [dict] from column
    names to lists of [str] values, or [None]. *)
Definition bigquery_sql (dataset_id table_id : string)
    (columns : option (list (string * list string))) : string :=
  let where_statement : list string := [] in
  let from_statement :=
    ("from `" ++ dataset_id ++ "." ++ table_id ++ "`")%string in
  let select_statement :=
    ("select id, date(cast(created_at as datetime)) as created, "
     ++ "date(cast(updated_at as datetime)) as updated")%string in
  let '(select_statement, where_statement) :=
    match columns with
    | Some items =>
        ((select_statement ++ ", " ++ join ", " (map fst items))%string,
         where_loop items where_statement)
    | None => (select_statement, where_statement)
    end in
  let where_statement :=
    if (0 <? Z.of_nat (List.length where_statement))
    then ("where " ++ join ", " where_statement)%string
    else ""%string in
  join " "%string
    [select_statement; from_statement; where_statement;
     "ORDER BY updated"%string].

(** [read_table]: the request it sends, how it ends and the object it
    leaves. *)
Definition read_table (env : Libraries) (dataset_id table_id : string)
    (columns : option (list (string * list string))) (self : Client)
    : io_outcome * list request * Client :=
  let sql := bigquery_sql dataset_id table_id columns in
  match read_gbq env sql (project_id self) with
  | Done table =>
      (IoReturns None, [ReadGbq sql (project_id self)],
       mk_client (mk_ws (Some table) (out_df (frames self)))
         (project_id self))
  | Failed e => (IoRaises e, [ReadGbq sql (project_id self)], self)
  end.

(** The loop of lines 382 and 383. *)
Fixpoint convert_columns (env : Libraries) (out : dict)
    (column2type : list (string * string)) (columns : list string)
    (insert_df : dict) : io_result dict :=
  match columns with
  | [] => Done insert_df
  | col :: rest =>
      match dict_get out col with
      | None => Failed (Builtin KeyError)
      | Some series =>
          match assoc column2type col with
          | None => Failed (Builtin KeyError)
          | Some type =>
              match astype env series type with
              | Failed e => Failed e
              | Done converted =>
                  convert_columns env out column2type rest
                    (dict_set insert_df col converted)
              end
          end
      end
  end.

(** [write_table]: how it ends and the requests it sends, in order.  It
    assigns no attribute. *)
Definition write_table (env : Libraries)
    (dataset_id table_id dev_name : string) (columns : option (list string))
    (self : Client) : io_outcome * list request :=
  match out_df (frames self) with
  | None => (IoReturns (Some "calc workload scoring"%string), [])
  | Some out =>
      let destination_table := (dataset_id ++ "." ++ table_id)%string in
      let insert_df : dict := [] in
      let columns :=
        match columns with
        | None => map fst out
        | Some columns => columns
        end in
      let sql :=
        ("select " ++ join ", " columns ++ " from `" ++ destination_table
         ++ "` limit 0")%string in
      let query := ReadGbq sql (project_id self) in
      match read_gbq_dtypes env sql (project_id self) with
      | Failed e => (IoRaises e, [query])
      | Done column2type =>
          match convert_columns env out column2type columns insert_df with
          | Failed e => (IoRaises e, [query])
          | Done insert_df =>
              let developer :=
                repeat (CVal (VStr dev_name)) (frame_height insert_df) in
              match astype env developer "str"%string with
              | Failed e => (IoRaises e, [query])
              | Done developer =>
                  let insert_df :=
                    dict_set insert_df "developer" developer in
                  let upload :=
                    ToGbq insert_df (project_id self) destination_table in
                  match to_gbq env insert_df (project_id self)
                          destination_table with
                  | Failed e => (IoRaises e, [query; upload])
                  | Done _ => (IoReturns None, [query; upload])
                  end
              end
          end
      end
  end.

(** [workload_scoring] on the object: it reads and writes the tables
    only. *)
Definition client_scoring (columns_list : list string)
    (num_of_all_days num_of_interval_days end_date : Z) (self : Client)
    : outcome * Client :=
  let '(result, tables) :=
    workload_scoring columns_list num_of_all_days num_of_interval_days
      end_date (frames self) in
  (result, mk_client tables (project_id self)).

(** The condition [read_table] writes for a column with values. *)
Definition in_condition (item : string * list string) : string :=
  (fst item ++ " in (" ++ join ", " (map quoted (snd item)) ++ ")")%string.

Definition has_values (item : string * list string) : bool :=
  match snd item with
  | [] => false
  | _ => true
  end.

(** ** Example inputs *)

(** 2017-04-01, the default [end_date]. *)
Definition april_first_2017 : Z := 736420.

(** The statistics of the baseline series [2, 4, 3] over four windows. *)
Definition stats_2_4_3 : Stats :=
  mk_stats (NpFloat (F.of_Z 3)) (NpFloat (F.of_hundredths 67))
    (PyFloat (F.of_hundredths 82)) (PyFloat (F.of_hundredths 41)).

(** One assignee whose four weekly windows before 2017-04-01 hold 2, 4, 3
    and 2 tasks, none of them on a window boundary. *)
Definition one_assignee : DataFrame :=
  let task (i back : Z) :=
    mk_record i (april_first_2017 - 40) (april_first_2017 - back) [VStr "a"] in
  mk_df ["assignee"%string]
    [task 1 27; task 2 26;
     task 3 20; task 4 19; task 5 18; task 6 17;
     task 7 13; task 8 12; task 9 11;
     task 10 6; task 11 5].

(** A baseline series of 161 windows with a single busy one. *)
Definition one_busy_window : list Z := 4 :: repeat 0 160.

Definition stats_one_busy_window : Stats :=
  mk_stats (NpFloat (F.of_hundredths 2)) (NpFloat (F.of_hundredths 10))
    (PyFloat (F.of_hundredths 32)) (PyFloat (F.of_hundredths 3)).

(** The all-zero statistics. *)
Definition zero_stats : Stats :=
  mk_stats (NpFloat F.zero) (NpFloat F.zero) (PyFloat F.zero) (PyFloat F.zero).

(** Two dimensions whose values first appear as [b, a] and [us, ru]; the
    combinations [(b, ru)] and [(a, us)] have no record. *)
Definition two_dimensions : DataFrame :=
  let task (i back : Z) (a c : string) :=
    mk_record i (april_first_2017 - 40) (april_first_2017 - back)
      [VStr a; VStr c] in
  mk_df ["assignee"; "country"]%string
    [task 1 25 "b" "us"; task 2 18 "a" "ru"; task 3 10 "b" "us";
     task 4 3 "a" "ru"; task 5 2 "b" "us"]%string.

Definition two_dimensions_columns : list string :=
  ["assignee"; "country"]%string.


(** A loaded table without rows. *)
Definition no_rows : DataFrame := mk_df ["assignee"%string] [].

Definition empty_output : dict :=
  [("score_value", []); ("count_last_period", []);
   ("count_sem_calc_period", []); ("count_mean_calc_period", []);
   ("assignee", [])]%string.

(** A task updated on the boundary shared by the second and third weekly
    windows before 2017-04-01. *)
Definition boundary_task : record :=
  mk_record 7 0 (april_first_2017 - 14) [VStr "a"].

(** The table the method builds from [two_dimensions] with the default
    period. *)
Definition two_dimensions_output : dict :=
  Eval vm_compute in
    match scoring_table two_dimensions two_dimensions_columns 28 7
            april_first_2017 with
    | Ok df => df
    | Raise _ => []
    end.

(** A slice whose only task was updated long before the analysed period. *)
Definition old_task_only : DataFrame :=
  mk_df ["assignee"%string]
    [mk_record 1 0 (april_first_2017 - 100) [VStr "a"]].

(** Libraries that answer every request: the query of [read_table] with
    the table [two_dimensions], the schema query with two columns, and
    conversions that change nothing. *)
Definition answering_libraries : Libraries :=
  mk_libraries
    (fun _ => Done tt)
    (fun _ _ => Done two_dimensions)
    (fun _ _ => Done [("assignee", "object"); ("score_value", "int64")]%string)
    (fun series _ => Done series)
    (fun _ _ _ => Done tt).

(** Service-account credentials with the one field the class reads. *)
Definition example_credentials : list (string * string) :=
  [("type", "service_account"); ("project_id", "school")]%string.

(** An object holding the output table of [two_dimensions]. *)
Definition scored_client : Client :=
  mk_client (mk_ws (Some two_dimensions) (Some two_dimensions_output))
    "school"%string.

(** A table in which the second task has no assignee. *)
Definition missing_assignee : DataFrame :=
  mk_df ["assignee"%string]
    [mk_record 1 (april_first_2017 - 40) (april_first_2017 - 3) [VStr "a"];
     mk_record 2 (april_first_2017 - 40) (april_first_2017 - 2) [VNaN]].

Definition missing_assignee_output : dict :=
  Eval vm_compute in
    match scoring_table missing_assignee ["assignee"%string] 28 7
            april_first_2017 with
    | Ok df => df
    | Raise _ => []
    end.

(** * Properties *)

(** ** The error monad *)

Lemma bind_Ok {A B : Type} (c : result A) (k : A -> result B) (b : B) :
  bind c k = Ok b -> exists a, c = Ok a /\ k a = Ok b.
Proof.
  destruct c as [a | e]; simpl; intros H; [eauto | discriminate].
Qed.

Ltac inv_bind H :=
  let x := fresh "x" in
  let Hx := fresh "Hx" in
  apply bind_Ok in H; destruct H as (x & Hx & H).

(** ** The score classifier *)

Section Classifier.

Variables left_board right_board current : Z.

Lemma score_rule1 :
  rule1 left_board right_board current ->
  calc_workload_score left_board right_board current = 0.
Proof.
  unfold rule1, calc_workload_score. intros (-> & -> & ->). reflexivity.
Qed.

Lemma score_rule2 :
  ~ rule1 left_board right_board current -> rule2 left_board current ->
  calc_workload_score left_board right_board current = 0.
Proof.
  unfold rule1, rule2, calc_workload_score. intros _ H.
  destruct ((left_board =? 0) && (current =? 0) && (right_board =? 0));
    [reflexivity |].
  replace (current >=? 0) with true by (symmetry; apply Z.geb_le; lia).
  replace (current <? left_board) with true by (symmetry; apply Z.ltb_lt; lia).
  reflexivity.
Qed.

Lemma score_rule3 :
  ~ rule1 left_board right_board current -> ~ rule2 left_board current ->
  rule3 left_board right_board current ->
  calc_workload_score left_board right_board current = 1.
Proof.
  unfold rule1, rule2, rule3, calc_workload_score. intros H1 H2 H3.
  destruct (Z.eqb_spec left_board 0), (Z.eqb_spec current 0),
    (Z.eqb_spec right_board 0); simpl; try lia;
  rewrite Z.geb_leb; destruct (Z.leb_spec 0 current),
    (Z.ltb_spec current left_board); simpl; try lia;
  rewrite Z.geb_leb; destruct (Z.leb_spec left_board current),
    (Z.leb_spec current right_board); simpl; lia.
Qed.

Lemma score_rule4 :
  ~ rule1 left_board right_board current -> ~ rule2 left_board current ->
  ~ rule3 left_board right_board current ->
  calc_workload_score left_board right_board current = 2.
Proof.
  unfold rule1, rule2, rule3, calc_workload_score. intros H1 H2 H3.
  destruct (Z.eqb_spec left_board 0), (Z.eqb_spec current 0),
    (Z.eqb_spec right_board 0); simpl; try lia;
  rewrite Z.geb_leb; destruct (Z.leb_spec 0 current),
    (Z.ltb_spec current left_board); simpl; try lia;
  rewrite Z.geb_leb; destruct (Z.leb_spec left_board current),
    (Z.leb_spec current right_board); simpl; lia.
Qed.

Lemma score_range :
  calc_workload_score left_board right_board current = 0 \/
  calc_workload_score left_board right_board current = 1 \/
  calc_workload_score left_board right_board current = 2.
Proof.
  unfold calc_workload_score.
  destruct ((left_board =? 0) && (current =? 0) && (right_board =? 0)); auto.
  destruct ((current >=? 0) && (current <? left_board)); auto.
  destruct ((current >=? left_board) && (current <=? right_board)); auto.
Qed.

End Classifier.

(** ** Truncation against floor *)

Lemma trunc_is_floor_nonneg (x : F.float) :
  float_nonneg x = true -> F.trunc x = float_floor x.
Proof.
  destruct x as [s | s | | s m e]; simpl; try reflexivity; try discriminate.
  destruct s; [discriminate | intros _].
  destruct (0 <=? e); reflexivity.
Qed.

Lemma borders_trunc (s : Stats) (l r : Z) :
  borders s = Ok (l, r) ->
  py_int (num_sub (st_avg s) (st_ste s)) = Ok l /\
  py_int (num_add (st_avg s) (st_ste s)) = Ok r.
Proof.
  unfold borders. intros H.
  inv_bind H. inv_bind H. injection H as <- <-. auto.
Qed.

(** ** Binary64 facts *)

Lemma digits2_pos_size p : digits2_pos p = Pos.size p.
Proof. induction p; simpl; congruence. Qed.

Lemma digits_log2 p : Zpos (digits2_pos p) = Z.log2 (Zpos p) + 1.
Proof.
  rewrite digits2_pos_size. destruct p; simpl; try reflexivity; lia.
Qed.

Lemma digits_bounds p :
  2 ^ (Zpos (digits2_pos p) - 1) <= Zpos p < 2 ^ Zpos (digits2_pos p).
Proof.
  rewrite digits_log2.
  replace (Z.log2 (Zpos p) + 1 - 1) with (Z.log2 (Zpos p)) by lia.
  replace (Z.log2 (Zpos p) + 1) with (Z.succ (Z.log2 (Zpos p))) by lia.
  apply Z.log2_spec. lia.
Qed.

Lemma shr_1_m mrs : 0 <= shr_m mrs -> shr_m (shr_1 mrs) = shr_m mrs / 2.
Proof.
  destruct mrs as [m r s]. simpl. intros H.
  destruct m as [| p | p]; [reflexivity | | lia].
  destruct p as [p | p |]; simpl shr_m.
  - rewrite Pos2Z.inj_xI. symmetry.
    replace (2 * Zpos p + 1) with (1 + Zpos p * 2) by lia.
    rewrite Z.div_add by lia. reflexivity.
  - rewrite Pos2Z.inj_xO. symmetry. rewrite Z.mul_comm. apply Z.div_mul. lia.
  - reflexivity.
Qed.

Lemma iter_shr_m n : forall mrs,
  0 <= shr_m mrs -> shr_m (iter_pos shr_1 n mrs) = shr_m mrs / 2 ^ Zpos n.
Proof.
  assert (nonneg : forall mrs, 0 <= shr_m mrs -> 0 <= shr_m (shr_1 mrs)).
  { intros mrs H. rewrite shr_1_m by assumption. apply Z.div_pos; lia. }
  assert (pow_pos : forall k, 0 < 2 ^ Zpos k).
  { intros k. apply Z.pow_pos_nonneg; lia. }
  induction n as [n IH | n IH |]; intros mrs H; simpl iter_pos.
  - rewrite IH, IH, shr_1_m; auto.
    + replace (Zpos n~1) with (1 + Zpos n + Zpos n) by lia.
      rewrite !Z.pow_add_r by lia.
      rewrite !Z.div_div; try lia; try (specialize (pow_pos n); lia).
      f_equal. rewrite Z.pow_1_r. ring.
    + rewrite IH by auto. apply Z.div_pos; [auto | apply pow_pos].
  - rewrite IH, IH; auto.
    + replace (Zpos n~0) with (Zpos n + Zpos n) by lia.
      rewrite !Z.pow_add_r by lia.
      rewrite !Z.div_div; try lia; try (specialize (pow_pos n); lia).
    + rewrite IH by auto. apply Z.div_pos; [auto | apply pow_pos].
  - rewrite shr_1_m by assumption. reflexivity.
Qed.

Lemma shr_record_of_loc_m m l : shr_m (shr_record_of_loc m l) = m.
Proof. destruct l as [| []]; reflexivity. Qed.

(** One normalisation step on a positive mantissa above the smallest
    exponent keeps the mantissa positive and does not lower the exponent. *)
Lemma shr_fexp_pos p e l :
  emin <= e ->
  exists p', shr_m (fst (shr_fexp F.prec F.emax (Zpos p) e l)) = Zpos p' /\
             e <= snd (shr_fexp F.prec F.emax (Zpos p) e l) /\
             Zpos (digits2_pos p') + snd (shr_fexp F.prec F.emax (Zpos p) e l)
               = Zpos (digits2_pos p) + e /\
             (snd (shr_fexp F.prec F.emax (Zpos p) e l) = e \/
              snd (shr_fexp F.prec F.emax (Zpos p) e l)
                = Zpos (digits2_pos p) + e - F.prec).
Proof.
  intros He. unfold shr_fexp, shr. simpl Zdigits2.
  set (d := Zpos (digits2_pos p)).
  destruct (fexp (d + e) - e) as [| k | k] eqn:Hk; simpl fst; simpl snd.
  - exists p. rewrite shr_record_of_loc_m. repeat split; lia.
  - assert (Hk' : Zpos k = d - F.prec).
    { unfold SpecFloat.fexp in Hk. lia. }
    rewrite iter_shr_m by (rewrite shr_record_of_loc_m; lia).
    rewrite shr_record_of_loc_m.
    pose proof (digits_bounds p) as Hd. fold d in Hd.
    assert (Hq : 2 ^ (d - 1 - Zpos k) <= Zpos p / 2 ^ Zpos k
                 < 2 ^ (d - Zpos k)).
    { unfold F.prec in *.
      split.
      - apply Z.div_le_lower_bound; [lia |].
        rewrite <- Z.pow_add_r by lia.
        replace (Zpos k + (d - 1 - Zpos k)) with (d - 1) by lia. lia.
      - apply Z.div_lt_upper_bound; [lia |].
        rewrite <- Z.pow_add_r by lia.
        replace (Zpos k + (d - Zpos k)) with d by lia. lia. }
    assert (Hpos : 0 < Zpos p / 2 ^ Zpos k).
    { assert (0 < 2 ^ (d - 1 - Zpos k)) by (apply Z.pow_pos_nonneg; unfold
        F.prec in *; lia). lia. }
    destruct (Zpos p / 2 ^ Zpos k) as [| p' | p'] eqn:Hp'; try lia.
    exists p'. repeat split; try lia.
    rewrite (digits_log2 p').
    assert (Z.log2 (Zpos p') = d - 1 - Zpos k).
    { apply Z.log2_unique; [unfold F.prec in *; lia |].
      replace (Z.succ (d - 1 - Zpos k)) with (d - Zpos k) by lia. lia. }
    lia.
  - exists p. rewrite shr_record_of_loc_m. repeat split; lia.
Qed.

Lemma round_nearest_even_pos p l :
  exists p', round_nearest_even (Zpos p) l = Zpos p' /\
             Zpos (digits2_pos p') <= Zpos (digits2_pos p) + 1.
Proof.
  assert (Hsucc : Zpos (digits2_pos (p + 1)) <= Zpos (digits2_pos p) + 1).
  { pose proof (digits_bounds p) as Hp.
    rewrite (digits_log2 (p + 1)).
    assert (Z.log2 (Zpos (p + 1)) < Zpos (digits2_pos p) + 1); [| lia].
    apply Z.log2_lt_pow2; [lia |].
    rewrite Z.pow_add_r by lia. lia. }
  unfold round_nearest_even.
  destruct l as [| []]; try (exists p; split; [reflexivity | lia]).
  - destruct (Z.even (Zpos p)); [exists p; split; [reflexivity | lia] |].
    exists (p + 1)%positive. split; [reflexivity | exact Hsucc].
  - exists (p + 1)%positive. split; [reflexivity | exact Hsucc].
Qed.

(** Rounding a positive mantissa above the smallest exponent gives a
    nonzero number of the requested sign: finite when the magnitude allows
    it, the infinity otherwise. *)
Lemma bra_pos s p e l :
  emin <= e ->
  match bra s (Zpos p) e l with
  | S754_finite s' m' e' =>
      s' = s /\ e <= e' /\
      Zpos (digits2_pos m') + e' <= Zpos (digits2_pos p) + e + 1
  | S754_infinity s' =>
      s' = s /\ (F.emax - F.prec < e \/ F.emax < Zpos (digits2_pos p) + e + 1)
  | _ => False
  end.
Proof.
  intros He. unfold binary_round_aux.
  destruct (shr_fexp_pos p e l He) as (p1 & Hm1 & He1 & Hd1 & Hc1).
  destruct (shr_fexp F.prec F.emax (Zpos p) e l) as [mrs1 e1].
  simpl fst in *; simpl snd in *. rewrite Hm1.
  destruct (round_nearest_even_pos p1 (loc_of_shr_record mrs1)) as
    (p2 & -> & Hd2).
  assert (He1' : emin <= e1) by lia.
  destruct (shr_fexp_pos p2 e1 loc_Exact He1') as (p3 & Hm3 & He3 & Hd3 & Hc3).
  destruct (shr_fexp F.prec F.emax (Zpos p2) e1 loc_Exact) as [mrs3 e3].
  simpl fst in *; simpl snd in *. rewrite Hm3.
  destruct (Z.leb_spec e3 (F.emax - F.prec)).
  - repeat split; lia.
  - split; [reflexivity |]. unfold F.prec, F.emax in *. lia.
Qed.

Lemma bra_sign s m e l : has_sign s (bra s m e l).
Proof.
  unfold binary_round_aux.
  destruct (shr_fexp F.prec F.emax m e l) as [mrs1 e1].
  destruct (shr_fexp F.prec F.emax _ e1 loc_Exact) as [mrs3 e3].
  destruct (shr_m mrs3); [reflexivity | | exact I].
  destruct (e3 <=? F.emax - F.prec); reflexivity.
Qed.

Lemma binary_round_sign s m e : has_sign s (binary_round F.prec F.emax s m e).
Proof.
  unfold binary_round. destruct (shl_align _ _ _). apply bra_sign.
Qed.

Lemma of_Z_sign z : 0 <= z -> has_sign false (F.of_Z z).
Proof.
  intros Hz. unfold F.of_Z, binary_normalize.
  destruct z; [reflexivity | apply binary_round_sign | lia].
Qed.

Lemma digits_iter_xO k : forall p,
  Zpos (digits2_pos (Pos.iter xO p k)) = Zpos (digits2_pos p) + Zpos k.
Proof.
  induction k using Pos.peano_ind; intros p.
  - simpl. lia.
  - rewrite Pos.iter_succ. simpl digits2_pos. rewrite Pos2Z.inj_succ, IHk. lia.
Qed.

(** Rounding a nonzero integer never gives zero or [nan]: the result is
    finite, or the infinity when the integer has more than [emax] bits. *)
Lemma binary_round_int s p :
  match binary_round F.prec F.emax s p 0 with
  | S754_finite s' m e =>
      s' = s /\ emin <= e /\
      Zpos (digits2_pos m) + e <= Zpos (digits2_pos p) + 1
  | S754_infinity s' => s' = s /\ F.emax < Zpos (digits2_pos p) + 1
  | _ => False
  end.
Proof.
  unfold binary_round.
  destruct (shl_align p 0 (fexp (Zpos (digits2_pos p) + 0))) as [mz ez] eqn:Hal.
  assert (Hz : emin <= ez <= 0 /\
               Zpos (digits2_pos mz) + ez = Zpos (digits2_pos p)).
  { unfold shl_align in Hal.
    destruct (fexp (Zpos (digits2_pos p) + 0) - 0) as [| k | k] eqn:Hk;
      injection Hal as <- <-.
    - unfold SpecFloat.emin, F.emax, F.prec. lia.
    - unfold SpecFloat.emin, F.emax, F.prec. lia.
    - rewrite digits_iter_xO.
      unfold SpecFloat.fexp, SpecFloat.emin, F.emax, F.prec in *. lia. }
  pose proof (bra_pos s mz ez loc_Exact (proj1 (proj1 Hz))) as H.
  destruct (bra s (Zpos mz) ez loc_Exact) as [| s' | | s' m' e'];
    try contradiction.
  - destruct H as (-> & H). split; [reflexivity |].
    unfold F.emax, F.prec in *. lia.
  - destruct H as (-> & He & Hm). split; [reflexivity | lia].
Qed.

(** A positive [int] below [2^1023] converts to a positive finite double. *)
Lemma of_Z_pos p :
  Zpos p < 2 ^ 1023 ->
  exists m e, F.of_Z (Zpos p) = S754_finite false m e /\ emin <= e /\
              Zpos (digits2_pos m) + e <= Zpos (digits2_pos p) + 1.
Proof.
  intros Hp. unfold F.of_Z, binary_normalize.
  assert (Hd : Zpos (digits2_pos p) <= 1023).
  { rewrite digits_log2.
    assert (Z.log2 (Zpos p) < 1023); [apply Z.log2_lt_pow2; lia | lia]. }
  pose proof (binary_round_int false p) as H.
  destruct (binary_round F.prec F.emax false p 0) as [| s' | | s' m e];
    try contradiction.
  - unfold F.emax in H. lia.
  - destruct H as (-> & He & Hm). exists m, e. auto.
Qed.

(** A nonzero [int] never converts to a zero. *)
Lemma of_Z_nonzero z : z <> 0 -> F.is_zero (F.of_Z z) = false.
Proof.
  intros Hz. unfold F.of_Z, binary_normalize.
  destruct z as [| p | p]; [congruence | |].
  - pose proof (binary_round_int false p) as H.
    destruct (binary_round F.prec F.emax false p 0); try contradiction;
      reflexivity.
  - pose proof (binary_round_int true p) as H.
    destruct (binary_round F.prec F.emax true p 0); try contradiction;
      reflexivity.
Qed.

(** A negative [int] converts to a float below zero. *)
Lemma of_Z_neg p :
  match F.of_Z (Zneg p) with
  | S754_finite true _ _ | S754_infinity true => True
  | _ => False
  end.
Proof.
  unfold F.of_Z, binary_normalize.
  pose proof (binary_round_int true p) as H.
  destruct (binary_round F.prec F.emax true p 0) as [| s' | | s' m e];
    try contradiction; destruct H as (-> & _); exact I.
Qed.

Lemma of_Z_neg_finite p :
  Zpos p < 2 ^ 1023 -> exists m e, F.of_Z (Zneg p) = S754_finite true m e.
Proof.
  intros Hp. unfold F.of_Z, binary_normalize.
  assert (Hd : Zpos (digits2_pos p) <= 1023).
  { rewrite digits_log2.
    assert (Z.log2 (Zpos p) < 1023); [apply Z.log2_lt_pow2; lia | lia]. }
  pose proof (binary_round_int true p) as H.
  destruct (binary_round F.prec F.emax true p 0) as [| s' | | s' m e];
    try contradiction.
  - unfold F.emax in H. lia.
  - destruct H as (-> & _). eauto.
Qed.

Lemma sqrt_pos m e :
  emin <= e ->
  match F.sqrt (S754_finite false m e) with
  | S754_finite s' _ e' => s' = false /\ emin <= e'
  | S754_infinity s' => s' = false
  | _ => False
  end.
Proof.
  intros He. unfold F.sqrt, SFsqrt, SFsqrt_core_binary.
  set (d := Zdigits2 (Zpos m)).
  set (e' := Z.min (fexp (Z.div2 (d + e + 1))) (Z.div2 e)).
  assert (He' : emin <= e' /\ 2 * e' <= e).
  { unfold e'. rewrite !Z.div2_div.
    pose proof (Z.div_mod e 2 ltac:(lia)) as Hdm.
    pose proof (Z.mod_pos_bound e 2 ltac:(lia)) as Hmb.
    unfold SpecFloat.fexp, SpecFloat.emin, F.emax, F.prec in *. lia. }
  set (m' := match e - 2 * e' with
             | Z0 => Zpos m
             | Zpos _ => Z.shiftl (Zpos m) (e - 2 * e')
             | Zneg _ => 0
             end).
  assert (Hm' : 0 < m').
  { unfold m'. destruct (e - 2 * e') as [| k | k] eqn:Hk; [lia | | lia].
    rewrite Z.shiftl_mul_pow2 by lia.
    apply Z.mul_pos_pos; [lia | apply Z.pow_pos_nonneg; lia]. }
  pose proof (Z.sqrtrem_spec m' ltac:(lia)) as Hs.
  destruct (Z.sqrtrem m') as [q r].
  assert (Hq : 0 < q) by nia.
  destruct q as [| q | q]; try lia.
  match goal with |- context [bra false (Zpos q) e' ?l] =>
    pose proof (bra_pos false q e' l (proj1 He')) as H;
    destruct (bra false (Zpos q) e' l) end; try contradiction.
  - tauto.
  - destruct H as (-> & H1 & _). split; [reflexivity | lia].
Qed.

Lemma mul_sign sx sy x y :
  has_sign sx x -> has_sign sy y -> has_sign (xorb sx sy) (F.mul x y).
Proof.
  destruct x, y; simpl; intros; subst; auto. apply bra_sign.
Qed.

Lemma square_sign x : has_sign false (np_square x).
Proof.
  unfold np_square.
  destruct x as [s | s | | s m e]; simpl; try (destruct s; reflexivity); auto.
  replace false with (xorb s s) by (destruct s; reflexivity). apply bra_sign.
Qed.

Lemma div_sign sx sy x y :
  has_sign sx x -> has_sign sy y -> has_sign (xorb sx sy) (F.div x y).
Proof.
  destruct x, y; simpl; intros; subst; auto.
  destruct (SFdiv_core_binary _ _ _ _ _ _) as [[mz ez] lz]. apply bra_sign.
Qed.

Lemma add_sign x y :
  has_sign false x -> has_sign false y -> has_sign false (F.add x y).
Proof.
  destruct x, y; simpl; intros; subst; auto; try reflexivity.
  unfold binary_normalize. simpl cond_Zopp.
  match goal with |- context [Zpos ?a + Zpos ?b] =>
    change (Zpos a + Zpos b) with (Zpos (a + b)) end.
  apply binary_round_sign.
Qed.

Lemma rne_div_nonneg n d : 0 <= n -> 0 < d -> 0 <= F.rne_div n d.
Proof.
  intros Hn Hd. unfold F.rne_div.
  pose proof (Z.div_pos n d Hn Hd).
  destruct (2 * (n mod d) ?= d); [destruct (Z.even (n / d)) | |]; lia.
Qed.

Lemma of_Z_cond_sign s q : 0 < q -> has_sign s (F.of_Z (cond_Zopp s q)).
Proof.
  intros Hq. destruct q as [| q | q]; try lia.
  destruct s; simpl; apply binary_round_sign.
Qed.

Lemma rint_sign s x : has_sign s x -> has_sign s (F.rint x).
Proof.
  destruct x as [s' | s' | | s' m e]; simpl; auto. intros ->.
  destruct (Z.leb_spec 0 e); [reflexivity |].
  pose proof (rne_div_nonneg (Zpos m) (2 ^ (- e)) ltac:(lia)) as Hq.
  destruct (Z.eqb_spec (F.rne_div (Zpos m) (2 ^ (- e))) 0); [reflexivity |].
  apply of_Z_cond_sign.
  assert (0 < 2 ^ (- e)) by (apply Z.pow_pos_nonneg; lia). lia.
Qed.

Lemma np_round2_sign s x : has_sign s x -> has_sign s (F.np_round2 x).
Proof.
  intros H. unfold F.np_round2.
  replace s with (xorb (xorb s false) false) by (destruct s; reflexivity).
  apply div_sign; [| reflexivity].
  apply rint_sign. apply mul_sign; [assumption | reflexivity].
Qed.

(** [math.sqrt] accepts every float that is not below zero. *)
Lemma math_sqrt_sign x : has_sign false x -> F.math_sqrt x = Ok (F.sqrt x).
Proof.
  destruct x as [s | s | | s m e]; simpl; try reflexivity; intros ->;
      reflexivity.
Qed.

Lemma squared_deviations_np (a : F.float) (hist : list Z) : forall acc,
  squared_deviations (NpFloat a) hist acc =
  Ok (acc ++
      map (fun h => NpFloat (F.np_round2 (np_square (F.sub (F.of_Z h) a))))
        hist).
Proof.
  induction hist as [| h hist IH]; intros acc; simpl.
  - rewrite app_nil_r. reflexivity.
  - rewrite IH, <- app_assoc. reflexivity.
Qed.

Lemma fold_num_add_np (fs : list F.float) : forall a,
  fold_left num_add (map NpFloat fs) (NpFloat a) = NpFloat
    (fold_left F.add fs a).
Proof.
  induction fs as [| f fs IH]; intros a; simpl; [reflexivity | apply IH].
Qed.

Lemma py_sum_np (fs : list F.float) :
  fs <> [] ->
  py_sum (map NpFloat fs) = NpFloat (fold_left F.add fs (F.of_Z 0)).
Proof.
  destruct fs as [| f fs]; [congruence | intros _].
  unfold py_sum. simpl. apply fold_num_add_np.
Qed.

Lemma fold_add_sign (fs : list F.float) : forall a,
  has_sign false a -> Forall (has_sign false) fs ->
  has_sign false (fold_left F.add fs a).
Proof.
  induction fs as [| f fs IH]; intros a Ha Hfs; simpl; [assumption |].
  inversion Hfs; subst. apply IH; [apply add_sign |]; assumption.
Qed.

Lemma rounded_variance_sign (divisor : Z) (series : list Z) :
  0 < divisor -> has_sign false (rounded_variance divisor series).
Proof.
  intros Hd. unfold rounded_variance.
  apply np_round2_sign.
  change false with (xorb false false). apply div_sign.
  - apply np_round2_sign. apply fold_add_sign; [reflexivity |].
    apply Forall_forall. intros f Hf. apply in_map_iff in Hf.
    destruct Hf as (x & <- & _). apply np_round2_sign, square_sign.
  - apply of_Z_sign. lia.
Qed.

Lemma positive_float_nonzero r : positive_float r -> F.is_zero r = false.
Proof. destruct r as [| | | []]; simpl; tauto. Qed.

Lemma mt_sqrt_int (n : Z) :
  0 < n <= 999999999 ->
  exists r, mt_sqrt (PyInt n) = Ok r /\ positive_float r.
Proof.
  intros Hn. destruct n as [| p | p]; try lia.
  destruct (of_Z_pos p ltac:(lia)) as (m & e & Hof & He & _).
  unfold mt_sqrt. rewrite Hof. simpl F.math_sqrt.
  exists (F.sqrt (S754_finite false m e)). split; [reflexivity |].
  pose proof (sqrt_pos m e He) as H. unfold positive_float.
  destruct (F.sqrt (S754_finite false m e)) as [| s' | | s' m' e'];
    try contradiction.
  - subst. exact I.
  - destruct H as [-> _]. exact I.
Qed.

(** The statistics of a non-empty baseline series, for every window count
    the date arithmetic admits: no step raises, the mean and every stage of
    the variance are rounded to two decimals, and the variance divides by
    [num_of_intervals - 1]. *)
Lemma baseline_stats_total (series : list Z) (num_of_intervals : Z) :
  series <> [] ->
  2 <= num_of_intervals <= 999999999 ->
  exists r,
    mt_sqrt (PyInt num_of_intervals) = Ok r /\ positive_float r /\
    baseline_stats series num_of_intervals =
    Ok (mk_stats
          (NpFloat (rounded_mean series))
          (NpFloat (rounded_variance (num_of_intervals - 1) series))
          (PyFloat
             (F.py_round2
                (F.sqrt (rounded_variance (num_of_intervals - 1) series))))
          (PyFloat
             (F.py_round2
                (F.div
                   (F.py_round2
                      (F.sqrt
                         (rounded_variance (num_of_intervals - 1) series)))
                   r)))).
Proof.
  intros Hne Hm.
  destruct (mt_sqrt_int num_of_intervals ltac:(lia)) as (r & Hr & Hp).
  pose proof (positive_float_nonzero r Hp) as Hz.
  exists r. split; [assumption |]. split; [assumption |].
  unfold baseline_stats.
  change (round2 (NpFloat (np_mean series))) with
    (NpFloat (rounded_mean series)).
  rewrite squared_deviations_np. cbn [bind app].
  rewrite <- (map_map
                (fun h =>
                   F.np_round2
                     (np_square (F.sub (F.of_Z h) (rounded_mean series))))
                NpFloat).
  rewrite py_sum_np by (destruct series; [congruence | discriminate]).
  cbn [round2 num_truediv is_np orb bind as_float].
  change (F.np_round2
            (F.div (F.np_round2 (fold_left F.add (map _ series) (F.of_Z 0)))
               (F.of_Z (num_of_intervals - 1))))
    with (rounded_variance (num_of_intervals - 1) series).
  unfold mt_sqrt at 1.
  rewrite math_sqrt_sign by (apply rounded_variance_sign; lia).
  cbn [bind]. rewrite Hr. cbn [bind]. rewrite Hz. reflexivity.
Qed.

(** ** Magnitudes *)

Lemma finite_below_mono K K' x :
  K <= K' -> finite_below K x -> finite_below K' x.
Proof. destruct x; cbn [finite_below]; auto. lia. Qed.

Lemma Zdigits2_nonneg m : 0 <= Zdigits2 m.
Proof. destruct m; simpl; lia. Qed.

Lemma Zdigits2_spec m :
  0 < m -> 2 ^ (Zdigits2 m - 1) <= m < 2 ^ Zdigits2 m.
Proof.
  destruct m as [| p | p]; try lia. intros _. apply digits_bounds.
Qed.

Lemma Zdigits2_le m k : 0 <= m -> 0 <= k -> m < 2 ^ k -> Zdigits2 m <= k.
Proof.
  intros Hm Hk Hlt. destruct m as [| p | p]; simpl; try lia.
  rewrite digits_log2.
  assert (Z.log2 (Zpos p) < k); [apply Z.log2_lt_pow2; lia | lia].
Qed.

Lemma Zdigits2_ge m k : 0 <= k -> 2 ^ k <= m -> k + 1 <= Zdigits2 m.
Proof.
  intros Hk Hle.
  assert (0 < 2 ^ k) by (apply Z.pow_pos_nonneg; lia).
  destruct m as [| p | p]; simpl; try lia.
  rewrite digits_log2.
  assert (k <= Z.log2 (Zpos p)); [apply Z.log2_le_pow2; lia | lia].
Qed.

Lemma Zdigits2_succ m : 0 <= m -> Zdigits2 (m + 1) <= Zdigits2 m + 1.
Proof.
  intros Hm. destruct (Z.eq_dec m 0) as [-> | Hne]; [simpl; lia |].
  pose proof (Zdigits2_spec m ltac:(lia)) as Hs.
  pose proof (Zdigits2_nonneg m).
  apply Zdigits2_le; try lia.
  rewrite Z.pow_add_r by lia. lia.
Qed.

Lemma Zdigits2_div_pow2 m k :
  0 <= m -> 0 <= k -> Zdigits2 (m / 2 ^ k) <= Z.max (Zdigits2 m - k) 0.
Proof.
  intros Hm Hk.
  assert (Hp : 0 < 2 ^ k) by (apply Z.pow_pos_nonneg; lia).
  destruct (Z.eq_dec m 0) as [-> | Hne].
  { rewrite Z.div_0_l by lia. simpl. lia. }
  pose proof (Zdigits2_spec m ltac:(lia)) as Hs.
  pose proof (Zdigits2_nonneg m) as Hn.
  apply Zdigits2_le; try lia.
  - apply Z.div_pos; lia.
  - apply Z.div_lt_upper_bound; [lia |].
    destruct (Z.le_gt_cases k (Zdigits2 m)).
    + rewrite Z.max_l by lia. rewrite <- Z.pow_add_r by lia.
      replace (k + (Zdigits2 m - k)) with (Zdigits2 m) by lia. lia.
    + rewrite Z.max_r by lia. rewrite Z.pow_0_r, Z.mul_1_r.
      apply Z.lt_trans with (2 ^ Zdigits2 m); [lia |].
      apply Z.pow_lt_mono_r; lia.
Qed.

Lemma round_nearest_even_bounds m l :
  0 <= m -> m <= round_nearest_even m l <= m + 1.
Proof.
  intros Hm. unfold round_nearest_even.
  destruct l as [| []]; try lia. destruct (Z.even m); lia.
Qed.

(** The first normalisation and the rounding, on any mantissa. *)
Lemma shr_fexp_round m e l :
  0 <= m ->
  let '(mrs, e1) := shr_fexp F.prec F.emax m e l in
  let m2 := round_nearest_even (shr_m mrs) (loc_of_shr_record mrs) in
  0 <= m2 /\ emin <= e1 /\
  e1 <= Z.max e (Z.max (Zdigits2 m + e - F.prec) emin) /\
  Zdigits2 m2 + e1 <= Z.max (Zdigits2 m + e) emin + 1.
Proof.
  intros Hm. unfold shr_fexp, shr.
  pose proof (Zdigits2_nonneg m) as Hd.
  destruct (fexp (Zdigits2 m + e) - e) as [| k | k] eqn:Hk.
  - rewrite shr_record_of_loc_m.
    pose proof (round_nearest_even_bounds m
                  (loc_of_shr_record (shr_record_of_loc m l)) Hm) as Hr.
    pose proof (Zdigits2_succ m Hm) as Hs.
    assert (Zdigits2
      (round_nearest_even m (loc_of_shr_record (shr_record_of_loc m l)))
            <= Zdigits2 m + 1).
    { destruct (Z.eq_dec (round_nearest_even m
                  (loc_of_shr_record (shr_record_of_loc m l))) m) as [-> | Hne];
        [lia |].
      replace (round_nearest_even m _) with (m + 1) by lia. exact Hs. }
    unfold SpecFloat.fexp, SpecFloat.emin, F.prec, F.emax in *. lia.
  - set (mrs := iter_pos shr_1 k (shr_record_of_loc m l)).
    assert (Hm1 : shr_m mrs = m / 2 ^ Zpos k).
    { unfold mrs. rewrite iter_shr_m by (rewrite shr_record_of_loc_m; lia).
      rewrite shr_record_of_loc_m. reflexivity. }
    rewrite Hm1.
    assert (Hq : 0 <= m / 2 ^ Zpos k).
    { apply Z.div_pos; [lia | apply Z.pow_pos_nonneg; lia]. }
    pose proof (round_nearest_even_bounds _ (loc_of_shr_record mrs) Hq) as Hr.
    pose proof (Zdigits2_div_pow2 m (Zpos k) Hm ltac:(lia)) as Hdiv.
    pose proof (Zdigits2_succ _ Hq) as Hs.
    assert (Zdigits2
      (round_nearest_even (m / 2 ^ Zpos k) (loc_of_shr_record mrs))
            <= Zdigits2 (m / 2 ^ Zpos k) + 1).
    { destruct (Z.eq_dec (round_nearest_even (m / 2 ^ Zpos k)
                            (loc_of_shr_record mrs)) (m / 2 ^ Zpos k))
        as [-> | Hne]; [lia |].
      replace (round_nearest_even (m / 2 ^ Zpos k) _) with (m / 2 ^ Zpos k + 1)
        by lia. exact Hs. }
    unfold SpecFloat.fexp, SpecFloat.emin, F.prec, F.emax in *. lia.
  - rewrite shr_record_of_loc_m.
    pose proof (round_nearest_even_bounds m
                  (loc_of_shr_record (shr_record_of_loc m l)) Hm) as Hr.
    pose proof (Zdigits2_succ m Hm) as Hs.
    assert (Zdigits2
      (round_nearest_even m (loc_of_shr_record (shr_record_of_loc m l)))
            <= Zdigits2 m + 1).
    { destruct (Z.eq_dec (round_nearest_even m
                  (loc_of_shr_record (shr_record_of_loc m l))) m) as [-> | Hne];
        [lia |].
      replace (round_nearest_even m _) with (m + 1) by lia. exact Hs. }
    unfold SpecFloat.fexp, SpecFloat.emin, F.prec, F.emax in *. lia.
Qed.

(** Rounding keeps a number finite while its magnitude stays below the
    largest exponent. *)
Lemma bra_bounded s m e l K :
  0 <= m -> Zdigits2 m + e <= K -> emin <= K -> K + 1 <= F.emax ->
  e <= F.emax - F.prec ->
  finite_below (K + 1) (bra s m e l) /\ has_sign s (bra s m e l).
Proof.
  intros Hm Hmag Hmin Hmax He.
  split; [| apply bra_sign].
  unfold binary_round_aux.
  pose proof (shr_fexp_round m e l Hm) as H1.
  destruct (shr_fexp F.prec F.emax m e l) as [mrs1 e1].
  cbv zeta in H1. destruct H1 as (Hm2 & He1 & He1' & Hd2).
  set (m2 := round_nearest_even (shr_m mrs1) (loc_of_shr_record mrs1)) in *.
  destruct m2 as [| p2 | p2] eqn:E; [| | lia].
  - assert (Hz : shr_fexp F.prec F.emax 0 e1 loc_Exact
                 = (shr_record_of_loc 0 loc_Exact, e1)).
    { unfold shr_fexp, shr. simpl Zdigits2.
      destruct (fexp (0 + e1) - e1) eqn:Hk; try reflexivity.
      exfalso.
      unfold SpecFloat.fexp, SpecFloat.emin, F.prec, F.emax in *. lia. }
    rewrite Hz. simpl. exact I.
  - destruct (shr_fexp_pos p2 e1 loc_Exact He1) as (p3 & Hm3 & He3 & Hd3 & Hc3).
    destruct (shr_fexp F.prec F.emax (Zpos p2) e1 loc_Exact) as [mrs3 e3].
    simpl fst in *; simpl snd in *. rewrite Hm3.
    simpl Zdigits2 in Hd2.
    assert (e3 <= F.emax - F.prec).
    { unfold SpecFloat.emin, F.prec, F.emax in *. lia. }
    destruct (Z.leb_spec e3 (F.emax - F.prec)); [| lia].
    cbn [finite_below]. unfold SpecFloat.emin, F.prec, F.emax in *. lia.
Qed.

Ltac fexp_lia :=
  unfold SpecFloat.fexp, SpecFloat.emin, F.prec, F.emax in *; lia.

Lemma shl_align_spec p e e' mz ez :
  shl_align p e e' = (mz, ez) ->
  ez <= e /\ Zpos (digits2_pos mz) + ez = Zpos (digits2_pos p) + e /\
  (ez = e \/ ez = e').
Proof.
  unfold shl_align. destruct (e' - e) as [| k | k] eqn:Hk; intros H;
    injection H as <- <-; try lia.
  rewrite digits_iter_xO. lia.
Qed.

Lemma binary_round_bounded s p e K :
  Zpos (digits2_pos p) + e <= K -> emin <= K -> K + 1 <= F.emax ->
  e <= F.emax - F.prec ->
  finite_below (K + 1) (binary_round F.prec F.emax s p e) /\
  has_sign s (binary_round F.prec F.emax s p e).
Proof.
  intros Hmag Hmin Hmax He. unfold binary_round.
  destruct (shl_align p e (fexp (Zpos (digits2_pos p) + e))) as [mz ez] eqn:Hal.
  apply shl_align_spec in Hal. destruct Hal as (Hez & Hd & _).
  apply bra_bounded; simpl Zdigits2; lia.
Qed.

Lemma of_Z_bounded z N :
  0 <= N -> N + 2 <= F.emax -> Z.abs z < 2 ^ N ->
  finite_below (N + 1) (F.of_Z z).
Proof.
  intros HN Hmax Hz. unfold F.of_Z, binary_normalize.
  destruct z as [| p | p]; [exact I | |];
    apply binary_round_bounded; try fexp_lia;
    rewrite Z.add_0_r;
    change (Zpos (digits2_pos p)) with (Zdigits2 (Zpos p));
    apply Zdigits2_le; lia.
Qed.

Lemma mul_bounded Kx Ky x y :
  finite_below Kx x -> finite_below Ky y -> emin <= Kx + Ky -> Kx + Ky <= 900 ->
  finite_below (Kx + Ky + 1) (F.mul x y).
Proof.
  destruct x as [sx | sx | | sx mx ex], y as [sy | sy | | sy my ey];
    unfold F.mul, SFmul, finite_below; try tauto.
  intros [Hx Hxe] [Hy Hye] Hmin Hmax.
  apply bra_bounded; try fexp_lia.
  apply Z.le_trans with
    (Zpos (digits2_pos mx) + Zpos (digits2_pos my) + (ex + ey));
    [| lia].
  apply Z.add_le_mono_r.
  pose proof (digits_bounds mx) as Bx. pose proof (digits_bounds my) as By.
  apply Zdigits2_le; try lia.
  rewrite Z.pow_add_r by lia. rewrite Pos2Z.inj_mul. nia.
Qed.

Lemma shl_align_fst_digits m e ez :
  ez <= e ->
  Zpos (digits2_pos (fst (shl_align m e ez))) + ez = Zpos (digits2_pos m) + e.
Proof.
  intros Hle. unfold shl_align.
  destruct (ez - e) as [| k | k] eqn:Hk; simpl fst; try lia.
  rewrite digits_iter_xO. lia.
Qed.

Lemma binary_normalize_bounded z e K :
  Zdigits2 (Z.abs z) + e <= K -> emin <= K -> K + 1 <= F.emax ->
  e <= F.emax - F.prec ->
  finite_below (K + 1) (binary_normalize F.prec F.emax z e false).
Proof.
  intros Hmag Hmin Hmax He. unfold binary_normalize.
  destruct z as [| p | p]; [exact I | |];
    apply binary_round_bounded; cbn [Z.abs Zdigits2] in Hmag; lia.
Qed.

Lemma add_sub_digits sx sy mx my ex ey K (op : Z -> Z -> Z) :
  (forall a b, Z.abs (op a b) <= Z.abs a + Z.abs b) ->
  Zpos (digits2_pos mx) + ex <= K -> Zpos (digits2_pos my) + ey <= K ->
  Zdigits2
    (Z.abs (op (cond_Zopp sx (Zpos (fst (shl_align mx ex (Z.min ex ey)))))
               (cond_Zopp sy (Zpos (fst (shl_align my ey (Z.min ex ey)))))))
  + Z.min ex ey <= K + 1.
Proof.
  intros Hop Hx Hy.
  set (ez := Z.min ex ey).
  pose proof (shl_align_fst_digits mx ex ez ltac:(unfold ez; lia)) as Dx.
  pose proof (shl_align_fst_digits my ey ez ltac:(unfold ez; lia)) as Dy.
  set (ax := fst (shl_align mx ex ez)) in *.
  set (ay := fst (shl_align my ey ez)) in *.
  pose proof (digits_bounds ax) as Bx. pose proof (digits_bounds ay) as By.
  specialize (Hop (cond_Zopp sx (Zpos ax)) (cond_Zopp sy (Zpos ay))).
  assert (Hax : Z.abs (cond_Zopp sx (Zpos ax)) = Zpos ax) by
    (destruct sx; simpl; lia).
  assert (Hay : Z.abs (cond_Zopp sy (Zpos ay)) = Zpos ay) by
    (destruct sy; simpl; lia).
  rewrite Hax, Hay in Hop.
  assert (Hk : 0 <= K + 1 - ez) by lia.
  assert (Zdigits2
    (Z.abs (op (cond_Zopp sx (Zpos ax)) (cond_Zopp sy (Zpos ay))))
          <= K + 1 - ez); [| lia].
  apply Zdigits2_le; try lia.
  assert (P1 : 2 ^ Zpos (digits2_pos ax) <= 2 ^ (K - ez))
    by (apply Z.pow_le_mono_r; lia).
  assert (P2 : 2 ^ Zpos (digits2_pos ay) <= 2 ^ (K - ez))
    by (apply Z.pow_le_mono_r; lia).
  replace (K + 1 - ez) with (K - ez + 1) by lia.
  rewrite Z.pow_add_r by lia. lia.
Qed.

Lemma add_bounded K x y :
  finite_below K x -> finite_below K y -> emin <= K -> K <= 900 ->
  finite_below (K + 2) (F.add x y).
Proof.
  destruct x as [sx | sx | | sx mx ex], y as [sy | sy | | sy my ey];
    unfold F.add, SFadd; cbn [finite_below]; try tauto;
    intros Hx Hy Hmin Hmax; try lia.
  - destruct sx, sy; exact I.
  - destruct Hx as [Hx Hxe], Hy as [Hy Hye].
    replace (K + 2) with (K + 1 + 1) by lia.
    apply binary_normalize_bounded; try fexp_lia.
    apply (add_sub_digits sx sy mx my ex ey K Z.add); [lia | lia | lia].
Qed.

Lemma sub_bounded K x y :
  finite_below K x -> finite_below K y -> emin <= K -> K <= 900 ->
  finite_below (K + 2) (F.sub x y).
Proof.
  destruct x as [sx | sx | | sx mx ex], y as [sy | sy | | sy my ey];
    unfold F.sub, SFsub; cbn [finite_below]; try tauto;
    intros Hx Hy Hmin Hmax; try lia.
  - destruct sx, sy; exact I.
  - destruct Hx as [Hx Hxe], Hy as [Hy Hye].
    replace (K + 2) with (K + 1 + 1) by lia.
    apply binary_normalize_bounded; try fexp_lia.
    apply (add_sub_digits sx sy mx my ex ey K Z.sub); [lia | lia | lia].
Qed.

Lemma digits_succ_ge p : Zpos (digits2_pos p) <= Zpos (digits2_pos (p + 1)).
Proof.
  pose proof (digits_bounds p) as Hp.
  change (Zpos (digits2_pos (p + 1))) with (Zdigits2 (Zpos (p + 1))).
  assert (Zpos (digits2_pos p) - 1 + 1 <= Zdigits2 (Zpos (p + 1))); [| lia].
  apply Zdigits2_ge; lia.
Qed.

Lemma round_nearest_even_digits p l :
  exists p', round_nearest_even (Zpos p) l = Zpos p' /\
             Zpos (digits2_pos p) <= Zpos (digits2_pos p').
Proof.
  unfold round_nearest_even.
  destruct l as [| []]; try (exists p; split; [reflexivity | lia]).
  - destruct (Z.even (Zpos p)); [exists p; split; [reflexivity | lia] |].
    exists (p + 1)%positive. split; [reflexivity | apply digits_succ_ge].
  - exists (p + 1)%positive. split; [reflexivity | apply digits_succ_ge].
Qed.

(** Rounding does not lower the magnitude. *)
Lemma bra_pos_lower s p e l :
  emin <= e ->
  match bra s (Zpos p) e l with
  | S754_finite _ m' e' =>
      Zpos (digits2_pos p) + e <= Zpos (digits2_pos m') + e'
  | _ => True
  end.
Proof.
  intros He. unfold binary_round_aux.
  destruct (shr_fexp_pos p e l He) as (p1 & Hm1 & He1 & Hd1 & Hc1).
  destruct (shr_fexp F.prec F.emax (Zpos p) e l) as [mrs1 e1].
  simpl fst in *; simpl snd in *. rewrite Hm1.
  destruct (round_nearest_even_digits p1 (loc_of_shr_record mrs1))
    as (p2 & -> & Hd2).
  assert (He1' : emin <= e1) by lia.
  destruct (shr_fexp_pos p2 e1 loc_Exact He1') as (p3 & Hm3 & He3 & Hd3 & Hc3).
  destruct (shr_fexp F.prec F.emax (Zpos p2) e1 loc_Exact) as [mrs3 e3].
  simpl fst in *; simpl snd in *. rewrite Hm3.
  destruct (e3 <=? F.emax - F.prec); [lia | exact I].
Qed.

Lemma of_Z_large z :
  0 < Z.abs z < 2 ^ 1000 ->
  at_least_one (F.of_Z z) /\ has_sign (z <? 0) (F.of_Z z).
Proof.
  intros Hz.
  assert (H : forall s p, Zpos p < 2 ^ 1000 ->
            at_least_one (binary_round F.prec F.emax s p 0) /\
            has_sign s (binary_round F.prec F.emax s p 0)).
  { intros s p Hp.
    destruct (binary_round_bounded s p 0 1000) as [Hb Hs]; try fexp_lia.
    { rewrite Z.add_0_r. change (Zpos (digits2_pos p)) with (Zdigits2 (Zpos p)).
      apply Zdigits2_le; lia. }
    split; [| exact Hs].
    unfold binary_round in *.
    destruct (shl_align p 0 (fexp (Zpos (digits2_pos p) + 0))) as [mz ez]
      eqn:Hal.
    apply shl_align_spec in Hal. destruct Hal as (Hez & Hd & Hc).
    assert (Hmin : emin <= ez) by (destruct Hc; fexp_lia).
    pose proof (bra_pos s mz ez loc_Exact Hmin) as Hpos.
    pose proof (bra_pos_lower s mz ez loc_Exact Hmin) as Hlow.
    destruct (bra s (Zpos mz) ez loc_Exact); try contradiction.
    cbn [at_least_one]. pose proof (digits_bounds p). 
    assert (1 <= Zpos (digits2_pos p)) by lia. lia. }
  unfold F.of_Z, binary_normalize.
  destruct z as [| p | p]; [simpl in Hz; lia | |]; apply H; simpl in Hz; lia.
Qed.

Lemma div_bounded K x y :
  finite_below K x -> at_least_one y -> emin <= K -> K <= 900 ->
  finite_below (K + 1) (F.div x y).
Proof.
  destruct x as [sx | sx | | sx mx ex], y as [sy | sy | | sy my ey];
    unfold F.div, SFdiv; cbn [finite_below at_least_one]; try tauto.
  intros [Hx Hxe] Hy Hmin Hmax.
  unfold SFdiv_core_binary. cbn [Zdigits2].
  set (d1 := Zpos (digits2_pos mx)) in *.
  set (d2 := Zpos (digits2_pos my)) in *.
  set (e' := Z.min (fexp (d1 + ex - (d2 + ey))) (ex - ey)).
  set (sh := ex - ey - e').
  set (m' := match sh with
             | Z0 => Zpos mx
             | Zpos _ => Z.shiftl (Zpos mx) sh
             | Zneg _ => 0
             end).
  assert (Hsh : 0 <= sh) by (unfold sh, e'; lia).
  assert (Hm' : m' = Zpos mx * 2 ^ sh).
  { unfold m'. destruct sh as [| k | k] eqn:E; try lia.
    apply Z.shiftl_mul_pow2. lia. }
  clearbody m'.
  pose proof (Z.div_eucl_eq m' (Zpos my) ltac:(lia)) as Hdiv.
  pose proof (Z.mod_pos_bound m' (Zpos my) ltac:(lia)) as Hmod.
  unfold Z.modulo in Hmod.
  destruct (Z.div_eucl m' (Zpos my)) as [q r].
  pose proof (digits_bounds mx) as Bx. pose proof (digits_bounds my) as By.
  fold d1 in Bx. fold d2 in By.
  assert (Hpow : 0 < 2 ^ sh) by (apply Z.pow_pos_nonneg; lia).
  assert (Hq0 : 0 <= q) by nia.
  assert (Hd1 : 1 <= d1) by (unfold d1; lia).
  assert (Hd2 : 1 <= d2) by (unfold d2; lia).
  assert (Hm'lt : m' < 2 ^ d1 * 2 ^ sh)
    by (rewrite Hm'; apply Z.mul_lt_mono_pos_r; lia).
  assert (He' : e' <= K /\ e' <= F.emax - F.prec) by (unfold e'; fexp_lia).
  apply bra_bounded; try fexp_lia; try lia.
  destruct (Z.le_gt_cases 0 (d1 + sh - d2 + 1)) as [Hn | Hn].
  - assert (Hq : q < 2 ^ (d1 + sh - d2 + 1)).
    { assert (Hlt : Zpos my * q < Zpos my * 2 ^ (d1 + sh - d2 + 1)); [| nia].
      apply Z.le_lt_trans with m'; [nia |].
      apply Z.lt_le_trans with (2 ^ d1 * 2 ^ sh); [exact Hm'lt |].
      apply Z.le_trans with (2 ^ (d2 - 1) * 2 ^ (d1 + sh - d2 + 1));
        [| apply Z.mul_le_mono_nonneg_r;
           [apply Z.pow_nonneg; lia | lia]].
      rewrite <- !Z.pow_add_r by lia.
      apply Z.pow_le_mono_r; lia. }
    pose proof (Zdigits2_le q (d1 + sh - d2 + 1) Hq0 Hn Hq).
    unfold sh in *. lia.
  - assert (Hlt : m' < Zpos my).
    { apply Z.lt_le_trans with (2 ^ d1 * 2 ^ sh); [exact Hm'lt |].
      rewrite <- Z.pow_add_r by lia.
      apply Z.le_trans with (2 ^ (d2 - 1)); [| lia].
      apply Z.pow_le_mono_r; lia. }
    assert (q = 0) by nia. subst q. simpl Zdigits2. lia.
Qed.

Lemma sqrt_core_facts m e :
  emin <= e -> Zpos (digits2_pos m) + e <= 1000 ->
  let d := Zpos (digits2_pos m) in
  let '(q, e', l) := SFsqrt_core_binary F.prec F.emax (Zpos m) e in
  emin <= e' /\ e' <= F.emax - F.prec /\ 0 < q /\
  2 * (Zdigits2 q + e') <= d + e + 2 /\
  (1 <= d + e -> 1 <= Zdigits2 q + e').
Proof.
  intros He Hmag d. unfold SFsqrt_core_binary. cbn [Zdigits2]. fold d.
  fold d in Hmag.
  set (e' := Z.min (fexp (Z.div2 (d + e + 1))) (Z.div2 e)).
  assert (Hd : 1 <= d) by (unfold d; lia).
  assert (He2 : emin <= e' /\ 2 * e' <= e /\ e' <= F.emax - F.prec).
  { unfold e'. rewrite !Z.div2_div.
    pose proof (Z.div_mod e 2 ltac:(lia)).
    pose proof (Z.mod_pos_bound e 2 ltac:(lia)).
    pose proof (Z.div_mod (d + e + 1) 2 ltac:(lia)).
    pose proof (Z.mod_pos_bound (d + e + 1) 2 ltac:(lia)).
    fexp_lia. }
  clearbody e'.
  set (sh := e - 2 * e').
  set (m' := match sh with
             | Z0 => Zpos m
             | Zpos _ => Z.shiftl (Zpos m) sh
             | Zneg _ => 0
             end).
  assert (Hsh : 0 <= sh) by (unfold sh; lia).
  assert (Hm' : m' = Zpos m * 2 ^ sh).
  { unfold m'. destruct sh as [| k | k] eqn:E; try lia.
    apply Z.shiftl_mul_pow2. lia. }
  clearbody m'.
  assert (Hpow : 0 < 2 ^ sh) by (apply Z.pow_pos_nonneg; lia).
  pose proof (digits_bounds m) as Bm. fold d in Bm.
  pose proof (Z.sqrtrem_spec m' ltac:(nia)) as Hs.
  destruct (Z.sqrtrem m') as [q r].
  assert (Hq : 0 < q) by nia.
  split; [lia |]. split; [lia |]. split; [exact Hq |].
  split.
  - (* q * q <= m' < 2 ^ (d + sh) *)
    assert (Hlt : q * q < 2 ^ (d + sh)).
    { rewrite Z.pow_add_r by lia.
      apply Z.le_lt_trans with m'; [lia |].
      rewrite Hm'. apply Z.mul_lt_mono_pos_r; lia. }
    pose proof (Zdigits2_spec q Hq) as Bq.
    pose proof (Zdigits2_nonneg q) as Nq.
    assert (Hdq : 1 <= Zdigits2 q).
    { destruct q; simpl; lia. }
    assert (Hsq : 2 ^ (2 * (Zdigits2 q - 1)) <= q * q).
    { replace (2 * (Zdigits2 q - 1)) with ((Zdigits2 q - 1) + (Zdigits2 q - 1))
      by lia.
      rewrite Z.pow_add_r by lia. nia. }
    assert (2 * (Zdigits2 q - 1) < d + sh).
    { apply (Z.pow_lt_mono_r_iff 2); lia. }
    unfold sh in *. lia.
  - intros Hone.
    destruct (Z.le_gt_cases 0 e') as [Hpos | Hneg].
    + assert (1 <= Zdigits2 q) by (destruct q; simpl; lia). lia.
    + (* q >= 2 ^ (- e') *)
      assert (Hge : 2 ^ (- e') <= q).
      { assert (Hm'ge : 2 ^ (- e') * 2 ^ (- e') <= m').
        { rewrite Hm', <- Z.pow_add_r by lia.
          apply Z.le_trans with (2 ^ (d - 1) * 2 ^ sh);
            [| apply Z.mul_le_mono_nonneg_r; lia].
          rewrite <- Z.pow_add_r by lia.
          apply Z.pow_le_mono_r; unfold sh; lia. }
        assert (0 < 2 ^ (- e')) by (apply Z.pow_pos_nonneg; lia).
        nia. }
      pose proof (Zdigits2_ge q (- e') ltac:(lia) Hge). lia.
Qed.

Lemma sqrt_bounded K x :
  has_sign false x -> finite_below K x -> 1 <= K -> K <= 900 ->
  finite_below (K + 1) (F.sqrt x) /\ has_sign false (F.sqrt x) /\
  (at_least_one x -> at_least_one (F.sqrt x)).
Proof.
  intros Hs Hb HK HK'.
  destruct x as [s | s | | s m e]; cbn [finite_below] in Hb; try contradiction.
  - simpl in Hs. subst. simpl. tauto.
  - simpl in Hs. subst s. destruct Hb as [Hb Hcanon].
    pose proof (sqrt_core_facts m e Hcanon ltac:(lia)) as H.
    unfold F.sqrt, SFsqrt.
    destruct (SFsqrt_core_binary F.prec F.emax (Zpos m) e) as [[q e'] l].
    cbv zeta in H. destruct H as (Hmin & Hmax & Hq & Hmag & Hlow).
    destruct q as [| q | q]; try lia.
    destruct (bra_bounded false (Zpos q) e' l K) as [Hbnd Hsgn];
      try fexp_lia; try lia.
    split; [exact Hbnd |]. split; [exact Hsgn |].
    cbn [at_least_one]. intros Hl. specialize (Hlow Hl).
    pose proof (bra_pos false q e' l Hmin) as Hpos.
    pose proof (bra_pos_lower false q e' l Hmin) as Hlw.
    destruct (bra false (Zpos q) e' l); try contradiction.
    cbn [finite_below at_least_one Zdigits2] in *. lia.
Qed.

(** *** Rounding to an integer and to two decimals *)

Lemma rne_div_upper n d : F.rne_div n d <= n / d + 1.
Proof.
  unfold F.rne_div.
  destruct (2 * (n mod d) ?= d); [destruct (Z.even (n / d)) | |]; lia.
Qed.

Lemma div_pow2_lt m k K :
  0 <= m -> 0 <= k -> 0 <= K -> Zdigits2 m - k <= K -> m / 2 ^ k < 2 ^ K.
Proof.
  intros Hm Hk HK Hd.
  assert (Hq : 0 <= m / 2 ^ k).
  { apply Z.div_pos; [lia | apply Z.pow_pos_nonneg; lia]. }
  pose proof (Zdigits2_div_pow2 m k Hm Hk) as Hdiv.
  destruct (Z.eq_dec (m / 2 ^ k) 0) as [-> | Hne].
  { apply Z.pow_pos_nonneg; lia. }
  pose proof (Zdigits2_spec (m / 2 ^ k) ltac:(lia)) as [_ Hs].
  apply Z.lt_le_trans with (1 := Hs). apply Z.pow_le_mono_r; lia.
Qed.

Lemma rint_bounded K x :
  finite_below K x -> 0 <= K -> K + 3 <= F.emax ->
  finite_below (K + 2) (F.rint x).
Proof.
  intros Hb HK Hmax.
  destruct x as [s | s | | s m e]; cbn [finite_below] in Hb; try contradiction;
    [exact I |].
  unfold F.rint. destruct (Z.leb_spec 0 e) as [He | He].
  - cbn [finite_below]. lia.
  - set (q := F.rne_div (Zpos m) (2 ^ (- e))).
    destruct (Z.eqb_spec q 0) as [| Hq]; [exact I |].
    replace (K + 2) with (K + 1 + 1) by lia.
    apply of_Z_bounded; try lia.
    assert (Hp : 0 < 2 ^ (- e)) by (apply Z.pow_pos_nonneg; lia).
    pose proof (rne_div_nonneg (Zpos m) (2 ^ (- e)) ltac:(lia) Hp) as Hq0.
    pose proof (rne_div_upper (Zpos m) (2 ^ (- e))) as Hq1.
    fold q in Hq0, Hq1.
    pose proof (div_pow2_lt (Zpos m) (- e) K ltac:(lia) ltac:(lia) HK
                  ltac:(cbn [Zdigits2]; lia)) as Hlt.
    replace (Z.abs (cond_Zopp s q)) with q by (destruct s; simpl; lia).
    rewrite Z.pow_add_r by lia. lia.
Qed.

Lemma of_Z_100 : finite_below 8 (F.of_Z 100) /\ at_least_one (F.of_Z 100).
Proof.
  split.
  - apply (of_Z_bounded 100 7); [lia | fexp_lia | reflexivity].
  - apply of_Z_large. split; [reflexivity |]. simpl Z.abs.
    apply Z.lt_trans with (2 ^ 7); [reflexivity |].
    apply Z.pow_lt_mono_r; lia.
Qed.

Lemma np_round2_bounded K x :
  finite_below K x -> 0 <= K -> K <= 800 ->
  finite_below (K + 12) (F.np_round2 x).
Proof.
  intros Hb HK HK'. destruct of_Z_100 as [H1 H2]. unfold F.np_round2.
  replace (K + 12) with (K + 8 + 1 + 2 + 1) by lia.
  apply div_bounded; [| exact H2 | fexp_lia | lia].
  apply rint_bounded; [| lia | fexp_lia].
  apply mul_bounded; [assumption | assumption | fexp_lia | lia].
Qed.

Lemma py_round2_bounded K x :
  finite_below K x -> 54 <= K -> K <= 900 ->
  finite_below (K + 1) (F.py_round2 x).
Proof.
  intros Hb HK HK'. destruct of_Z_100 as [_ H2].
  destruct x as [s | s | | s m e]; cbn [finite_below] in Hb; try contradiction;
    [exact I |].
  unfold F.py_round2. destruct (Z.leb_spec 0 e) as [He | He].
  { cbn [finite_below]. lia. }
  set (q := F.rne_div (Zpos m * 100) (2 ^ (- e))).
  destruct (Z.eqb_spec q 0) as [| Hq]; [exact I |].
  destruct (Z.leb_spec (2 ^ F.prec) q) as [Hbig | Hsmall].
  { cbn [finite_below]. lia. }
  apply div_bounded; [| exact H2 | fexp_lia | lia].
  apply finite_below_mono with (K := 53 + 1); [lia |].
  apply of_Z_bounded; [lia | fexp_lia |].
  assert (Hp : 0 < 2 ^ (- e)) by (apply Z.pow_pos_nonneg; lia).
  pose proof (rne_div_nonneg (Zpos m * 100) (2 ^ (- e)) ltac:(lia) Hp) as Hq0.
  fold q in Hq0.
  replace (Z.abs (cond_Zopp s q)) with q by (destruct s; simpl; lia).
  exact Hsmall.
Qed.

(** *** Values *)

Lemma value_below_mono B B' x : B <= B' -> value_below B x -> value_below B' x.
Proof. destruct x as [| | | [] m e]; cbn [value_below]; auto. lia. Qed.

Lemma shr_1_exact mrs :
  0 <= shr_m mrs -> shr_r mrs = false -> shr_s mrs = false ->
  (2 | shr_m mrs) ->
  shr_r (shr_1 mrs) = false /\ shr_s (shr_1 mrs) = false.
Proof.
  destruct mrs as [m r s]. cbn [shr_m shr_r shr_s].
  intros Hm -> -> [c Hc].
  destruct m as [| [p | p |] | p]; simpl; try lia; auto.
Qed.

Lemma pow2_pos k : 0 <= k -> 0 < 2 ^ k.
Proof. intros. apply Z.pow_pos_nonneg; lia. Qed.

Lemma divide_div_pow2 m a b :
  0 <= a -> 0 <= b -> (2 ^ (a + b) | m) -> (2 ^ a | m) /\ (2 ^ b | m / 2 ^ a).
Proof.
  intros Ha Hb [c Hc]. pose proof (pow2_pos a Ha) as Hp.
  rewrite Z.pow_add_r in Hc by lia.
  split.
  - exists (c * 2 ^ b). lia.
  - exists c. subst m.
    replace (c * (2 ^ a * 2 ^ b)) with (c * 2 ^ b * 2 ^ a) by ring.
    rewrite Z.div_mul by lia. reflexivity.
Qed.

(** Shifting out zero bits only leaves an exact location. *)
Lemma iter_shr_exact k : forall mrs,
  0 <= shr_m mrs -> shr_r mrs = false -> shr_s mrs = false ->
  (2 ^ Zpos k | shr_m mrs) ->
  shr_r (iter_pos shr_1 k mrs) = false /\ shr_s (iter_pos shr_1 k mrs) = false.
Proof.
  induction k as [k IH | k IH |]; intros mrs Hm Hr Hs Hd; simpl iter_pos.
  - replace (Zpos k~1) with (1 + (Zpos k + Zpos k)) in Hd by lia.
    apply divide_div_pow2 in Hd; try lia. destruct Hd as [H1 H2].
    rewrite Z.pow_1_r in H1, H2.
    destruct (shr_1_exact mrs Hm Hr Hs H1) as [Hr1 Hs1].
    assert (Hm1 : 0 <= shr_m (shr_1 mrs)).
    { rewrite shr_1_m by assumption. apply Z.div_pos; lia. }
    rewrite <- shr_1_m in H2 by assumption.
    apply divide_div_pow2 in H2; try lia. destruct H2 as [H3 H4].
    destruct (IH _ Hm1 Hr1 Hs1 H3) as [Hr2 Hs2].
    rewrite <- iter_shr_m in H4 by assumption.
    apply IH; try assumption.
    rewrite iter_shr_m by assumption. apply Z.div_pos;
      [lia | apply pow2_pos; lia].
  - replace (Zpos k~0) with (Zpos k + Zpos k) in Hd by lia.
    apply divide_div_pow2 in Hd; try lia. destruct Hd as [H3 H4].
    destruct (IH _ Hm Hr Hs H3) as [Hr2 Hs2].
    rewrite <- iter_shr_m in H4 by assumption.
    apply IH; try assumption.
    rewrite iter_shr_m by assumption. apply Z.div_pos;
      [lia | apply pow2_pos; lia].
  - apply shr_1_exact; assumption.
Qed.

(** A normalisation step divides the mantissa by the power of two it adds
    to the exponent. *)
Lemma shr_fexp_value m e l :
  0 <= m ->
  let '(mrs, e') := shr_fexp F.prec F.emax m e l in
  e <= e' /\ shr_m mrs = m / 2 ^ (e' - e) /\
  (e' = e \/ e < e' /\ e' = fexp (Zdigits2 m + e)).
Proof.
  intros Hm. unfold shr_fexp, shr.
  destruct (fexp (Zdigits2 m + e) - e) as [| k | k] eqn:Hk.
  - rewrite shr_record_of_loc_m, Z.sub_diag, Z.pow_0_r, Z.div_1_r. lia.
  - rewrite iter_shr_m by (rewrite shr_record_of_loc_m; exact Hm).
    rewrite shr_record_of_loc_m.
    replace (e + Zpos k - e) with (Zpos k) by lia. lia.
  - rewrite shr_record_of_loc_m, Z.sub_diag, Z.pow_0_r, Z.div_1_r. lia.
Qed.

(** Rounding to nearest does not pass a bound that is itself a double:
    [c * 2 ^ j] units with [c] value_below [2 ^ 53]. *)
Lemma shr_round_below p e c j :
  emin <= e -> 0 <= j -> 0 <= c < 2 ^ F.prec ->
  Zpos p * 2 ^ (e - emin) <= c * 2 ^ j ->
  let '(mrs, e1) := shr_fexp F.prec F.emax (Zpos p) e loc_Exact in
  let m2 := round_nearest_even (shr_m mrs) (loc_of_shr_record mrs) in
  emin <= e1 /\ 0 <= m2 /\ m2 * 2 ^ (e1 - emin) <= c * 2 ^ j.
Proof.
  intros He Hj Hc Hle. unfold shr_fexp, shr. cbn [Zdigits2].
  set (d := Zpos (digits2_pos p)).
  destruct (fexp (d + e) - e) as [| k | k] eqn:Hk;
    [cbn [shr_record_of_loc loc_of_shr_record shr_m round_nearest_even]; lia
    | | cbn [shr_record_of_loc loc_of_shr_record shr_m round_nearest_even];
      lia].
  set (mrs := iter_pos shr_1 k (shr_record_of_loc (Zpos p) loc_Exact)).
  assert (Hm1 : shr_m mrs = Zpos p / 2 ^ Zpos k).
  { unfold mrs. rewrite iter_shr_m by (simpl; lia). reflexivity. }
  assert (Hex : (2 ^ Zpos k | Zpos p) -> loc_of_shr_record mrs = loc_Exact).
  { intros Hd.
    destruct (iter_shr_exact k (shr_record_of_loc (Zpos p) loc_Exact))
      as [Hr Hs]; try reflexivity; [simpl; lia | exact Hd |].
    fold mrs in Hr, Hs. destruct mrs as [m r s]. simpl in Hr, Hs. subst.
    reflexivity. }
  cbv zeta. rewrite Hm1.
  set (E := e - emin) in *.
  assert (HE : 0 <= E) by (unfold E; lia).
  assert (Hkd : Zpos k = d - F.prec) by fexp_lia.
  pose proof (digits_bounds p) as Hdb. fold d in Hdb.
  pose proof (pow2_pos (Zpos k) ltac:(lia)) as Pk.
  pose proof (pow2_pos E HE) as PE.
  pose proof (pow2_pos j Hj) as Pj.
  set (m1 := Zpos p / 2 ^ Zpos k).
  assert (Hm1' : 0 <= m1) by (apply Z.div_pos; lia).
  pose proof (round_nearest_even_bounds m1 (loc_of_shr_record mrs) Hm1') as Hr.
  replace (e + Zpos k - emin) with (E + Zpos k) by (unfold E; lia).
  split; [lia |]. split; [lia |].
  destruct (Z.le_gt_cases (E + Zpos k) j) as [Hcase | Hcase].
  - set (C := c * 2 ^ (j - (E + Zpos k))).
    assert (HB : c * 2 ^ j = C * 2 ^ (E + Zpos k)).
    { unfold C. rewrite <- Z.mul_assoc, <- Z.pow_add_r by lia.
      do 2 f_equal. lia. }
    rewrite HB in *.
    assert (Hp : Zpos p <= C * 2 ^ Zpos k).
    { rewrite Z.pow_add_r in Hle by lia.
      apply Z.mul_le_mono_pos_r with (p := 2 ^ E); [exact PE |].
      replace (C * 2 ^ Zpos k * 2 ^ E) with (C * (2 ^ E * 2 ^ Zpos k)) by ring.
      exact Hle. }
    assert (Hq : m1 <= C).
    { unfold m1. apply Z.div_le_upper_bound; [exact Pk |].
      rewrite Z.mul_comm. exact Hp. }
    pose proof (pow2_pos (E + Zpos k) ltac:(lia)) as PEk.
    apply Z.mul_le_mono_nonneg_r; [lia |].
    destruct (Z.eq_dec m1 C) as [Heq | Hne]; [| lia].
    pose proof (Z.div_mod (Zpos p) (2 ^ Zpos k) ltac:(lia)) as Hdm.
    pose proof (Z.mod_pos_bound (Zpos p) (2 ^ Zpos k) Pk) as Hmb.
    fold m1 in Hdm.
    assert (Hz : Zpos p mod 2 ^ Zpos k = 0) by nia.
    rewrite Hex; [simpl; lia |].
    exists m1. rewrite Hdm at 1. rewrite Hz. ring.
  - exfalso.
    assert (P1 : 2 ^ (j + F.prec) <= 2 ^ (d - 1 + E)).
    { apply Z.pow_le_mono_r; lia. }
    rewrite Z.pow_add_r in P1 by (unfold F.prec; lia).
    assert (P2 : 2 ^ (d - 1 + E) <= Zpos p * 2 ^ E).
    { rewrite Z.pow_add_r by lia. apply Z.mul_le_mono_nonneg_r; lia. }
    assert (P3 : c * 2 ^ j < 2 ^ F.prec * 2 ^ j).
    { apply Z.mul_lt_mono_pos_r; lia. }
    lia.
Qed.

Lemma bra_below p e c j :
  emin <= e -> 0 <= j -> j + emin <= 900 -> 0 <= c < 2 ^ F.prec ->
  Zpos p * 2 ^ (e - emin) <= c * 2 ^ j ->
  value_below (c * 2 ^ j) (bra false (Zpos p) e loc_Exact).
Proof.
  intros He Hj Hj' Hc Hle. unfold binary_round_aux.
  pose proof (shr_round_below p e c j He Hj Hc Hle) as H1.
  destruct (shr_fexp F.prec F.emax (Zpos p) e loc_Exact) as [mrs1 e1].
  cbv zeta in H1. destruct H1 as (He1 & Hm2 & Hv2).
  set (m2 := round_nearest_even (shr_m mrs1) (loc_of_shr_record mrs1)) in *.
  pose proof (shr_fexp_value m2 e1 loc_Exact Hm2) as H3.
  destruct (shr_fexp F.prec F.emax m2 e1 loc_Exact) as [mrs3 e3].
  destruct H3 as (He3 & Hm3 & _).
  destruct (shr_m mrs3) as [| p3 | p3] eqn:E3; [exact I | |].
  - pose proof (pow2_pos (e3 - e1) ltac:(lia)) as P31.
    pose proof (pow2_pos (e1 - emin) ltac:(lia)) as P1.
    pose proof (pow2_pos j Hj) as Pj.
    assert (Hv3 : Zpos p3 * 2 ^ (e3 - emin) <= c * 2 ^ j).
    { replace (e3 - emin) with (e3 - e1 + (e1 - emin)) by lia.
      rewrite Z.pow_add_r by lia.
      pose proof (Z.mul_div_le m2 (2 ^ (e3 - e1)) P31) as Hd.
      rewrite <- Hm3 in Hd.
      apply Z.le_trans with (m2 * 2 ^ (e1 - emin)); [| exact Hv2].
      rewrite Z.mul_assoc. apply Z.mul_le_mono_nonneg_r; lia. }
    assert (Hfin : e3 <= F.emax - F.prec).
    { assert (P : 2 ^ (e3 - emin) < 2 ^ (F.prec + j)).
      { rewrite Z.pow_add_r by (unfold F.prec; lia).
        assert (c * 2 ^ j < 2 ^ F.prec * 2 ^ j)
          by (apply Z.mul_lt_mono_pos_r; lia).
        pose proof (pow2_pos (e3 - emin) ltac:(lia)). nia. }
      apply Z.pow_lt_mono_r_iff in P; fexp_lia. }
    destruct (Z.leb_spec e3 (F.emax - F.prec)); [| lia].
    cbn [value_below]. split; [lia | exact Hv3].
  - exfalso.
    assert (0 <= m2 / 2 ^ (e3 - e1)); [| lia].
    apply Z.div_pos; [lia | apply pow2_pos; lia].
Qed.

Lemma iter_xO_value k : forall p, Zpos (Pos.iter xO p k) = Zpos p * 2 ^ Zpos k.
Proof.
  induction k using Pos.peano_ind; intros p.
  - simpl Pos.iter. rewrite Z.pow_1_r. lia.
  - rewrite Pos.iter_succ, Pos2Z.inj_xO, IHk, Pos2Z.inj_succ, Z.pow_succ_r
      by lia.
    ring.
Qed.

Lemma shl_align_value p e e' mz ez :
  shl_align p e e' = (mz, ez) ->
  ez <= e /\ Zpos mz = Zpos p * 2 ^ (e - ez) /\
  (e <= e' /\ ez = e \/ e' < e /\ ez = e').
Proof.
  unfold shl_align. destruct (e' - e) as [| k | k] eqn:Hk; intros H;
    injection H as <- <-.
  - rewrite Z.sub_diag, Z.pow_0_r. lia.
  - rewrite Z.sub_diag, Z.pow_0_r. lia.
  - rewrite iter_xO_value. replace (e - e') with (Zpos k) by lia. lia.
Qed.

Lemma binary_round_below p e c j :
  emin <= e -> 0 <= j -> j + emin <= 900 -> 0 <= c < 2 ^ F.prec ->
  Zpos p * 2 ^ (e - emin) <= c * 2 ^ j ->
  value_below (c * 2 ^ j) (binary_round F.prec F.emax false p e).
Proof.
  intros He Hj Hj' Hc Hle. unfold binary_round.
  destruct (shl_align p e (fexp (Zpos (digits2_pos p) + e))) as [mz ez] eqn:Hal.
  apply shl_align_value in Hal. destruct Hal as (Hez & Hv & Hcase).
  assert (Hmin : emin <= ez) by (destruct Hcase; fexp_lia).
  apply bra_below; try assumption.
  rewrite Hv, <- Z.mul_assoc, <- Z.pow_add_r by lia.
  replace (e - ez + (ez - emin)) with (e - emin) by lia. exact Hle.
Qed.

(** The sum of two doubles that are not negative stays below the sum of
    their bounds, when that sum is a double. *)
Lemma add_below Bx By x y c j :
  value_below Bx x -> value_below By y -> 0 <= Bx -> 0 <= By ->
  Bx + By <= c * 2 ^ j ->
  0 <= j -> j + emin <= 900 -> 0 <= c < 2 ^ F.prec ->
  value_below (c * 2 ^ j) (F.add x y).
Proof.
  intros Hx Hy HBx HBy HB Hj Hj' Hc.
  destruct x as [sx | sx | | [] mx ex], y as [sy | sy | | [] my ey];
    cbn [value_below] in Hx, Hy; try contradiction; unfold F.add, SFadd.
  - destruct sx, sy; exact I.
  - cbn [value_below]. lia.
  - cbn [value_below]. lia.
  - destruct Hx as [Hex Hvx], Hy as [Hey Hvy]. cbv zeta.
    set (ez := Z.min ex ey).
    destruct (shl_align mx ex ez) as [ax ex'] eqn:Ax.
    destruct (shl_align my ey ez) as [ay ey'] eqn:Ay.
    apply shl_align_value in Ax, Ay.
    destruct Ax as (_ & Vx & Cx), Ay as (_ & Vy & Cy).
    assert (ex' = ez) by (unfold ez in *; destruct Cx; lia).
    assert (ey' = ez) by (unfold ez in *; destruct Cy; lia).
    subst ex' ey'. cbn [fst cond_Zopp Z.add binary_normalize].
    apply binary_round_below; try assumption; [unfold ez; lia |].
    rewrite Pos2Z.inj_add, Vx, Vy, Z.mul_add_distr_r.
    rewrite <- !Z.mul_assoc, <- !Z.pow_add_r by (unfold ez; lia).
    replace (ex - ez + (ez - emin)) with (ex - emin) by lia.
    replace (ey - ez + (ez - emin)) with (ey - emin) by lia.
    lia.
Qed.

Lemma bounded_below K x :
  finite_below K x -> has_sign false x -> value_below (2 ^ (K - emin)) x.
Proof.
  destruct x as [s | s | | s m e]; cbn [finite_below value_below has_sign];
    try tauto.
  intros [Hd He] ->. split; [exact He |].
  pose proof (digits_bounds m) as [_ Hm].
  pose proof (pow2_pos (e - emin) ltac:(lia)) as Pe.
  apply Z.le_trans with (2 ^ Zpos (digits2_pos m) * 2 ^ (e - emin)).
  - apply Z.mul_le_mono_nonneg_r; lia.
  - rewrite <- Z.pow_add_r by lia. apply Z.pow_le_mono_r; lia.
Qed.

Lemma below_bounded B M x :
  value_below B x -> B < 2 ^ M -> 0 <= M -> finite_below (M + emin) x.
Proof.
  destruct x as [s | s | | [] m e]; cbn [finite_below value_below]; try tauto.
  intros [He Hv] HB HM. split; [| exact He].
  pose proof (digits_bounds m) as [Hm _].
  pose proof (pow2_pos (e - emin) ltac:(lia)) as Pe.
  assert (P : 2 ^ (Zpos (digits2_pos m) - 1 + (e - emin)) < 2 ^ M).
  { rewrite Z.pow_add_r by lia.
    apply Z.le_lt_trans with (Zpos m * 2 ^ (e - emin)); [| lia].
    apply Z.mul_le_mono_nonneg_r; lia. }
  apply Z.pow_lt_mono_r_iff in P; lia.
Qed.

(** A left-to-right sum of doubles between [0] and [2 ^ j] units grows by
    at most [2 ^ j] units a term. *)
Lemma fold_add_below j (fs : list F.float) : forall i a,
  0 <= j -> j + emin <= 900 -> 0 <= i ->
  i + Z.of_nat (List.length fs) < 2 ^ F.prec ->
  Forall (value_below (2 ^ j)) fs -> value_below (i * 2 ^ j) a ->
  value_below ((i + Z.of_nat (List.length fs)) * 2 ^ j) (fold_left F.add fs a).
Proof.
  induction fs as [| f fs IH]; intros i a Hj Hj' Hi Hlen Hfs Ha.
  - simpl. rewrite Z.add_0_r. exact Ha.
  - inversion Hfs as [| ? ? Hf Hfs']; subst.
    cbn [fold_left List.length] in *.
    replace (i + Z.of_nat (S (List.length fs)))
      with (i + 1 + Z.of_nat (List.length fs)) in * by lia.
    pose proof (pow2_pos j Hj) as Pj.
    apply IH; try assumption; try lia.
    apply (add_below (i * 2 ^ j) (2 ^ j)); try assumption; try lia.
Qed.

Lemma trunc_bounded K x : finite_below K x -> exists z, F.trunc x = Ok z.
Proof.
  destruct x as [s | s | | s m e]; cbn [finite_below]; try tauto; intros _;
    eexists; reflexivity.
Qed.

Lemma sum_Z_bounds (l : list Z) (N : Z) :
  Forall (fun c => 0 <= c < N) l ->
  0 <= sum_Z l <= Z.of_nat (List.length l) * N.
Proof.
  unfold sum_Z.
  assert (H : forall a, Forall (fun c => 0 <= c < N) l ->
            a <= fold_left Z.add l a <= a + Z.of_nat (List.length l) * N).
  { induction l as [| c l IH]; intros a Hl; simpl fold_left.
    - simpl. lia.
    - inversion Hl; subst. specialize (IH (a + c) ltac:(assumption)).
      cbn [List.length]. lia. }
  intros Hl. specialize (H 0 Hl). lia.
Qed.

(** *** The statistics stay finite *)

Section Finite.

Variable series : list Z.
Variable num_of_intervals : Z.
Hypothesis counts : Forall (fun c => 0 <= c < 2 ^ 63) series.
Hypothesis nonempty : series <> [].
Hypothesis short : Z.of_nat (List.length series) < 2 ^ 30.
Hypothesis windows : 2 <= num_of_intervals <= 999999999.

Lemma rounded_mean_bounded : finite_below 107 (rounded_mean series).
Proof.
  unfold rounded_mean, np_mean.
  apply (np_round2_bounded 95); try lia.
  apply (div_bounded 94); try fexp_lia.
  - apply (of_Z_bounded _ 93); [lia | fexp_lia |].
    pose proof (sum_Z_bounds series (2 ^ 63) counts) as Hs.
    rewrite Z.abs_eq by lia.
    change (2 ^ 93) with (2 ^ 30 * 2 ^ 63).
    apply Z.le_lt_trans with (Z.of_nat (List.length series) * 2 ^ 63); [lia |].
    apply Z.mul_lt_mono_pos_r; [reflexivity | exact short].
  - apply of_Z_large.
    assert (0 < Z.of_nat (List.length series)).
    { destruct series; [congruence | simpl; lia]. }
    rewrite Z.abs_eq by lia. split; [lia |].
    apply Z.lt_trans with (2 ^ 30); [exact short |].
    apply Z.pow_lt_mono_r; lia.
Qed.

Lemma square_bounded (c : Z) :
  0 <= c < 2 ^ 63 ->
  finite_below 231
    (F.np_round2 (np_square (F.sub (F.of_Z c) (rounded_mean series)))).
Proof.
  intros Hc.
  apply (np_round2_bounded 219); try lia. unfold np_square.
  assert (H : finite_below 109 (F.sub (F.of_Z c) (rounded_mean series))).
  { apply (sub_bounded 107); try fexp_lia.
    - apply finite_below_mono with (K := 63 + 1); [lia |].
      apply of_Z_bounded; [lia | fexp_lia |]. rewrite Z.abs_eq; lia.
    - exact rounded_mean_bounded. }
  apply (mul_bounded 109 109); try assumption; fexp_lia.
Qed.

Lemma rounded_variance_bounded :
  finite_below 286 (rounded_variance (num_of_intervals - 1) series).
Proof.
  unfold rounded_variance. cbv zeta.
  apply (np_round2_bounded 274); try lia.
  apply (div_bounded 273); try fexp_lia.
  2:{ apply of_Z_large. rewrite Z.abs_eq by lia. split; [lia |].
      apply Z.lt_trans with (2 ^ 30); [lia | apply Z.pow_lt_mono_r; lia]. }
  apply (np_round2_bounded 261); try lia.
  set (squares := map _ series).
  set (j := 231 - emin).
  assert (Hsq : Forall (value_below (2 ^ j)) squares).
  { apply Forall_forall. intros f Hf. apply in_map_iff in Hf.
    destruct Hf as (c & <- & Hin).
    apply bounded_below.
    - apply square_bounded. rewrite Forall_forall in counts. auto.
    - apply np_round2_sign, square_sign. }
  assert (Hlen : List.length squares = List.length series)
    by apply length_map.
  pose proof (fold_add_below j squares 0 (F.of_Z 0)) as Hsum.
  rewrite Hlen in Hsum.
  specialize (Hsum ltac:(fexp_lia) ltac:(fexp_lia) ltac:(lia)).
  specialize (Hsum ltac:(unfold F.prec; lia) Hsq I).
  replace 261 with (30 + j + emin) by (unfold j; lia).
  eapply below_bounded; [exact Hsum | | fexp_lia].
  rewrite Z.add_0_l, Z.pow_add_r by fexp_lia.
  apply Z.mul_lt_mono_pos_r; [apply pow2_pos; fexp_lia | exact short].
Qed.

Lemma sqrt_intervals_large (r : F.float) :
  mt_sqrt (PyInt num_of_intervals) = Ok r -> at_least_one r.
Proof.
  intros Hr.
  assert (Habs : Z.abs num_of_intervals = num_of_intervals)
    by (apply Z.abs_eq; lia).
  destruct (of_Z_large num_of_intervals) as [Hl Hs].
  { rewrite Habs. split; [lia |].
    apply Z.lt_trans with (2 ^ 30); [lia | apply Z.pow_lt_mono_r; lia]. }
  assert (Hb : finite_below 31 (F.of_Z num_of_intervals)).
  { apply (of_Z_bounded _ 30); [lia | fexp_lia | lia]. }
  replace (num_of_intervals <? 0) with false in Hs by
    (symmetry; apply Z.ltb_ge; lia).
  destruct (sqrt_bounded 31 _ Hs Hb ltac:(lia) ltac:(lia)) as (_ & _ & Hlarge).
  unfold mt_sqrt in Hr.
  destruct (F.of_Z num_of_intervals) as [s | s | | s mm ee];
    cbn [at_least_one] in Hl; try contradiction.
  cbn [has_sign] in Hs. subst s. simpl F.math_sqrt in Hr.
  injection Hr as <-. apply Hlarge. exact Hl.
Qed.

(** With counts below [2 ^ 63] no statistic overflows, and both borders
    are integers. *)
Lemma borders_total :
  exists s l r, baseline_stats series num_of_intervals = Ok s /\
                borders s = Ok (l, r).
Proof.
  destruct (baseline_stats_total series num_of_intervals nonempty windows)
    as (r & Hr & _ & Hstats).
  pose proof (sqrt_intervals_large r Hr) as Hlarge.
  pose proof rounded_mean_bounded as Hmean.
  pose proof rounded_variance_bounded as Hvar.
  set (mean := rounded_mean series) in *.
  set (var := rounded_variance (num_of_intervals - 1) series) in *.
  assert (Hsign : has_sign false var)
    by (apply rounded_variance_sign; lia).
  destruct (sqrt_bounded 286 var Hsign Hvar ltac:(lia) ltac:(lia))
    as (Hsq & _ & _).
  pose proof (py_round2_bounded 287 _ Hsq ltac:(lia) ltac:(lia)) as Hstd.
  pose proof (div_bounded 288 _ r Hstd Hlarge ltac:(fexp_lia) ltac:(lia))
    as Hq.
  pose proof (py_round2_bounded 289 _ Hq ltac:(lia) ltac:(lia)) as Hste.
  set (ste := F.py_round2 (F.div (F.py_round2 (F.sqrt var)) r)) in *.
  apply finite_below_mono with (K' := 290) in Hmean; [| lia].
  destruct (trunc_bounded _ _
              (sub_bounded 290 mean ste Hmean Hste ltac:(fexp_lia) ltac:(lia)))
    as [l Hl].
  destruct (trunc_bounded _ _
              (add_bounded 290 mean ste Hmean Hste ltac:(fexp_lia) ltac:(lia)))
    as [r' Hr'].
  eexists. exists l, r'. split; [exact Hstats |].
  unfold borders.
  cbn [st_avg st_ste num_sub num_add is_np orb as_float py_int].
  rewrite Hl. cbn [bind]. rewrite Hr'. reflexivity.
Qed.

End Finite.

(** ** Windows *)

Lemma date_add_ok (d delta : Z) :
  date_ok (d + delta) = true -> date_add d delta = Ok (d + delta).
Proof. unfold date_add. intros ->. reflexivity. Qed.

Lemma date_ok_between (lo hi d : Z) :
  date_ok lo = true -> date_ok hi = true -> lo <= d <= hi -> date_ok d = true.
Proof.
  unfold date_ok. rewrite !andb_true_iff, !Z.leb_le. lia.
Qed.

Section CountWindows.

Variable df_slice : list record.
Variables delta num_of_intervals : Z.

Lemma count_windows_run (len : nat) :
  forall (k : nat) (fst_cur_date snd_cur_date : Z) (hist : list Z)
    (cur : option Z),
  Z.of_nat (k + len) = num_of_intervals ->
  (forall j : nat, (1 <= j <= len)%nat ->
     date_ok (fst_cur_date + Z.of_nat j * delta) = true /\
     date_ok (snd_cur_date + Z.of_nat j * delta) = true) ->
  count_windows df_slice delta num_of_intervals (map Z.of_nat (seq k len))
    fst_cur_date snd_cur_date hist cur =
  Ok (match len with
      | O => (hist, cur)
      | S len' =>
          (hist ++ map (step_count df_slice delta fst_cur_date snd_cur_date)
            (seq 0 len'),
           Some (step_count df_slice delta fst_cur_date snd_cur_date len'))
      end).
Proof.
  induction len as [| len IH]; intros k f s hist cur Hk Hd; [reflexivity |].
  cbn [seq map count_windows].
  destruct (Hd 1%nat ltac:(lia)) as [Hf Hs].
  rewrite Z.mul_1_l in Hf, Hs.
  rewrite (date_add_ok _ _ Hf), (date_add_ok _ _ Hs). cbn [bind].
  assert (Hd' : forall j : nat, (1 <= j <= len)%nat ->
            date_ok (f + delta + Z.of_nat j * delta) = true /\
            date_ok (s + delta + Z.of_nat j * delta) = true).
  { intros j Hj. specialize (Hd (S j) ltac:(lia)).
    rewrite Nat2Z.inj_succ in Hd.
    replace (f + delta + Z.of_nat j * delta)
      with (f + Z.succ (Z.of_nat j) * delta) by lia.
    replace (s + delta + Z.of_nat j * delta)
      with (s + Z.succ (Z.of_nat j) * delta) by lia.
    exact Hd. }
  assert (Hshift : forall n, map
    (step_count df_slice delta (f + delta) (s + delta)) (seq 0 n)
                             = map (step_count df_slice delta f s) (seq 1 n)).
  { intros n. rewrite <- seq_shift, map_map. apply map_ext. intros j.
    unfold step_count. rewrite Nat2Z.inj_succ. f_equal; lia. }
  assert (H0 : step_count df_slice delta f s 0 =
               count_unique (map id (filter (in_window f s) df_slice))).
  { unfold step_count, window_count. simpl Z.of_nat.
    rewrite Z.mul_0_l, !Z.add_0_r. reflexivity. }
  destruct (Z.eqb_spec (Z.of_nat k) (num_of_intervals - 1)) as [Heq | Hneq];
    cbn [negb].
  - assert (len = 0%nat) by lia. subst len. cbn [seq map count_windows].
    rewrite app_nil_r, H0. reflexivity.
  - destruct len as [| len']; [lia |].
    rewrite (IH (S k)) by (first [lia | exact Hd']).
    rewrite Hshift, <- H0, <- app_assoc. cbn [app seq map].
    assert (Hlast : step_count df_slice delta (f + delta) (s + delta) len'
                    = step_count df_slice delta f s (S len')).
    { unfold step_count. rewrite Nat2Z.inj_succ. f_equal; lia. }
    rewrite Hlast. reflexivity.
Qed.

End CountWindows.

Lemma score_slice_eq (df_slice : DataFrame)
    (num_of_all_days num_of_interval_days end_date : Z) (prev : option Z) :
  period_in_range end_date num_of_all_days num_of_interval_days ->
  let m := num_of_all_days / num_of_interval_days in
  let current :=
    current_count (records df_slice) end_date num_of_all_days
      num_of_interval_days m in
  score_slice df_slice num_of_all_days num_of_interval_days end_date prev =
  (s <- baseline_stats
          (baseline_counts (records df_slice) end_date num_of_all_days
             num_of_interval_days m) m ;;
   '(left_border, right_border) <- borders s ;;
   Ok (calc_workload_score left_border right_border current, current, s)).
Proof.
  intros (Hi & Ha & He & Hs & Hl) m current.
  assert (Hm : 1 <= m).
  { unfold m. apply Z.div_le_lower_bound; lia. }
  assert (Hmi : m * num_of_interval_days <= num_of_all_days).
  { unfold m. rewrite Z.mul_comm. apply Z.mul_div_le. lia. }
  unfold score_slice, strptime_date, timedelta, date_sub.
  rewrite He. cbn [bind].
  replace (Z.abs num_of_all_days <=? 999999999) with true
    by (symmetry; apply Z.leb_le; lia).
  cbn [bind]. rewrite Hs. cbn [bind].
  replace (Z.abs num_of_interval_days <=? 999999999) with true
    by (symmetry; apply Z.leb_le; lia).
  cbn [bind].
  assert (Hrange : forall j, 0 <= j <= m + 1 ->
            date_ok (end_date - num_of_all_days + j * num_of_interval_days) =
              true).
  { intros j Hj. apply (date_ok_between _ _ _ Hs Hl). nia. }
  rewrite date_add_ok
    by (specialize (Hrange 1 ltac:(lia)); rewrite Z.mul_1_l in Hrange;
        exact Hrange).
  cbn [bind]. unfold num_intervals.
  destruct (Z.eqb_spec num_of_interval_days 0) as [| _]; [lia |].
  cbn [bind]. rewrite Z.quot_div_nonneg by lia. fold m.
  unfold py_range.
  rewrite (count_windows_run (records df_slice) num_of_interval_days m
             (Z.to_nat m) 0).
  - destruct (Z.to_nat m) as [| len'] eqn:Hlen; [lia |].
    cbn [bind].
    assert (Hb : map (fun j : nat =>
                   window_count (records df_slice)
                     (end_date - num_of_all_days + Z.of_nat j *
                         num_of_interval_days)
                     (end_date - num_of_all_days + num_of_interval_days
                      + Z.of_nat j * num_of_interval_days)) (seq 0 len')
                 = baseline_counts (records df_slice) end_date num_of_all_days
                     num_of_interval_days m).
    { unfold baseline_counts, py_range.
      replace (Z.to_nat (m - 1)) with len' by lia.
      rewrite map_map. apply map_ext. intros j.
      unfold window_start, window_end. f_equal; lia. }
    assert (Hc : window_count (records df_slice)
                   (end_date - num_of_all_days + Z.of_nat len' *
                       num_of_interval_days)
                   (end_date - num_of_all_days + num_of_interval_days
                    + Z.of_nat len' * num_of_interval_days) = current).
    { unfold current, current_count, window_start, window_end.
      replace (m - 1) with (Z.of_nat len') by lia. f_equal; lia. }
    cbn [app]. unfold step_count.
    rewrite Hb, Hc. reflexivity.
  - lia.
  - intros j Hj. split.
    + apply Hrange. lia.
    + replace (end_date - num_of_all_days + num_of_interval_days
               + Z.of_nat j * num_of_interval_days)
        with (end_date - num_of_all_days + (Z.of_nat j + 1) *
            num_of_interval_days)
        by lia.
      apply Hrange. lia.
Qed.

(** ** Distinct values and the Cartesian product *)

Lemma value_same_true (a b : value) : value_same a b = true <-> a = b.
Proof.
  unfold value_same. destruct (value_eq_dec a b); split; congruence.
Qed.

Lemma value_same_refl (a : value) : value_same a a = true.
Proof. apply value_same_true. reflexivity. Qed.

Lemma existsb_same (x : value) (seen : list value) :
  existsb (value_same x) seen = true <-> In x seen.
Proof.
  rewrite existsb_exists. split.
  - intros (y & Hy & Hs). apply value_same_true in Hs. subst. assumption.
  - intros H. exists x. split; [assumption | apply value_same_refl].
Qed.

Lemma filter_twice {A : Type} (f g : A -> bool) (l : list A) :
  filter f (filter g l) = filter (fun x => g x && f x) l.
Proof.
  induction l as [| x l IH]; simpl; [reflexivity |].
  destruct (g x); simpl; [destruct (f x) |]; rewrite IH; reflexivity.
Qed.

Lemma unique_from_first_occurrences (l : list value) : forall seen,
  unique_from seen l =
  filter (fun y => negb (existsb (value_same y) seen)) (first_occurrences l).
Proof.
  induction l as [| x l IH]; intros seen; simpl; [reflexivity |].
  rewrite filter_twice.
  destruct (existsb (value_same x) seen) eqn:Hx; simpl.
  - rewrite IH. apply filter_ext_in. intros y _.
    destruct (value_same y x) eqn:Hyx; simpl; [| reflexivity].
    apply value_same_true in Hyx. subst y. rewrite Hx. reflexivity.
  - f_equal. rewrite IH. apply filter_ext. intros y. simpl.
    rewrite negb_orb. reflexivity.
Qed.

Lemma unique_first_occurrences (l : list value) :
  unique l = first_occurrences l.
Proof.
  unfold unique. rewrite unique_from_first_occurrences.
  simpl. induction (first_occurrences l); simpl; congruence.
Qed.

Lemma first_occurrences_In (l : list value) (v : value) :
  In v (first_occurrences l) <-> In v l.
Proof.
  induction l as [| x l IH]; simpl; [tauto |].
  rewrite filter_In, IH, negb_true_iff.
  destruct (value_eq_dec x v) as [-> | Hne]; [tauto |].
  split; [tauto |]. intros [H | H]; [contradiction |].
  right. split; [assumption |].
  destruct (value_same v x) eqn:E; [| reflexivity].
  apply value_same_true in E. congruence.
Qed.

Lemma first_occurrences_NoDup (l : list value) : NoDup (first_occurrences l).
Proof.
  induction l as [| x l IH]; simpl; constructor.
  - rewrite filter_In, value_same_refl. simpl. intros [_ H]. discriminate.
  - apply NoDup_filter. assumption.
Qed.

Lemma map_flat_map {A B C : Type} (f : B -> C) (g : A -> list B) (l : list A) :
  map f (flat_map g l) = flat_map (fun x => map f (g x)) l.
Proof.
  induction l as [| x l IH]; simpl; [reflexivity |].
  rewrite map_app, IH. reflexivity.
Qed.

Lemma flat_map_flat_map {A B C : Type} (f : B -> list C) (g : A -> list B)
    (l : list A) :
  flat_map f (flat_map g l) = flat_map (fun x => flat_map f (g x)) l.
Proof.
  induction l as [| x l IH]; simpl; [reflexivity |].
  rewrite flat_map_app, IH. reflexivity.
Qed.

Lemma product_fold (pools : list (list value)) : forall acc,
  fold_left
    (fun result pool => flat_map (fun x => map (fun y => x ++ [y]) pool) result)
    pools acc
  = flat_map (fun x => map (app x) (lex_product pools)) acc.
Proof.
  induction pools as [| pool pools IH]; intros acc; simpl.
  - induction acc as [| x acc IHacc]; simpl; [reflexivity |].
    rewrite app_nil_r. congruence.
  - rewrite IH, flat_map_flat_map. apply flat_map_ext. intros x.
    rewrite map_flat_map.
    rewrite (flat_map_concat_map _ pool), (flat_map_concat_map _ (map _ pool)).
    rewrite map_map. f_equal. apply map_ext. intros y.
    rewrite map_map. apply map_ext. intros t.
    rewrite <- app_assoc. reflexivity.
Qed.

Lemma product_lex (pools : list (list value)) :
  product pools = lex_product pools.
Proof.
  unfold product. rewrite product_fold. simpl.
  rewrite app_nil_r, map_id. reflexivity.
Qed.

Lemma lex_product_length (pools : list (list value)) :
  List.length (lex_product pools)
  = fold_right Nat.mul 1%nat (map (@List.length value) pools).
Proof.
  induction pools as [| pool pools IH]; simpl; [reflexivity |].
  rewrite <- IH. clear IH.
  induction pool as [| x pool IHp]; simpl; [reflexivity |].
  rewrite length_app, length_map, IHp. reflexivity.
Qed.

Lemma lex_product_In (pools : list (list value)) : forall t,
  In t (lex_product pools) <-> Forall2 (fun v pool => In v pool) t pools.
Proof.
  induction pools as [| pool pools IH]; intros t; simpl.
  - split.
    + intros [<- | []]. constructor.
    + intros H. inversion H. auto.
  - rewrite in_flat_map. split.
    + intros (x & Hx & Ht). apply in_map_iff in Ht.
      destruct Ht as (t' & <- & Ht'). constructor; [assumption |].
      apply IH. assumption.
    + intros H. inversion H as [| v p t' ps Hv Ht']; subst.
      exists v. split; [assumption |]. apply in_map. apply IH. assumption.
Qed.

Lemma NoDup_map_injective {A B : Type} (f : A -> B) (l : list A) :
  (forall x y, f x = f y -> x = y) -> NoDup l -> NoDup (map f l).
Proof.
  intros Hinj H. induction H as [| x l Hx Hl IH]; simpl; constructor.
  - rewrite in_map_iff. intros (y & Hy & Hin).
    apply Hinj in Hy. subst. contradiction.
  - assumption.
Qed.

Lemma lex_product_NoDup (pools : list (list value)) :
  Forall (@NoDup value) pools -> NoDup (lex_product pools).
Proof.
  induction pools as [| pool pools IH]; intros H; simpl.
  - constructor; [intros [] | constructor].
  - inversion H as [| p ps Hpool Hpools]; subst.
    specialize (IH Hpools).
    induction Hpool as [| x pool Hx Hpool IHp]; simpl; [constructor |].
    apply NoDup_app.
    + apply NoDup_map_injective; [intros a b E; congruence | assumption].
    + apply IHp. constructor; [assumption | assumption].
    + intros t Ht Ht'. apply in_map_iff in Ht. destruct Ht as (t1 & <- & _).
      apply in_flat_map in Ht'. destruct Ht' as (y & Hy & Ht').
      apply in_map_iff in Ht'. destruct Ht' as (t2 & E & _).
      injection E as -> _. contradiction.
Qed.

(** The first pool varies slowest: with [n] tuples over the remaining
    pools, row [k] takes value [k / n] of the first pool and is followed by
    row [k mod n] of the remaining product. *)
Lemma lex_product_nth (pool : list value) (pools : list (list value))
    (k : nat) (d : value) :
  let n := List.length (lex_product pools) in
  (k < List.length pool * n)%nat ->
  nth k (lex_product (pool :: pools)) [] =
  nth (k / n) pool d :: nth (k mod n) (lex_product pools) [].
Proof.
  intros n. simpl lex_product. fold n.
  revert k. induction pool as [| x pool IH]; intros k Hk; simpl in Hk; [lia |].
  simpl flat_map.
  assert (Hn : (0 < n)%nat) by lia.
  destruct (Nat.lt_ge_cases k n) as [Hlt | Hge].
  - rewrite app_nth1 by (rewrite length_map; exact Hlt).
    rewrite Nat.div_small, Nat.mod_small by assumption.
    simpl. 
    rewrite (nth_indep _ [] (x :: [])) by (rewrite length_map; exact Hlt).
    change (x :: []) with ((cons x) []) at 1.
    rewrite map_nth. reflexivity.
  - rewrite app_nth2 by (rewrite length_map; lia).
    rewrite length_map. fold n. rewrite IH by lia.
    replace k with ((k - n) + 1 * n)%nat at 3 4 by lia.
    rewrite Nat.div_add, Nat.Div0.mod_add by lia.
    replace (((k - n) / n + 1))%nat with (S ((k - n) / n)) by lia.
    reflexivity.
Qed.

(** ** The output dictionary *)

Lemma dict_set_get_same (d : dict) (k : string) (v : list cell) :
  dict_get (dict_set d k v) k = Some v.
Proof.
  induction d as [| [k' v'] d IH]; simpl.
  - rewrite String.eqb_refl. reflexivity.
  - destruct (String.eqb k k') eqn:E; simpl; rewrite E;
    [reflexivity | exact IH].
Qed.

Lemma dict_set_get_other (d : dict) (k k' : string) (v : list cell) :
  k' <> k -> dict_get (dict_set d k v) k' = dict_get d k'.
Proof.
  intros Hne. induction d as [| [k0 v0] d IH]; simpl.
  - apply String.eqb_neq in Hne. rewrite Hne. reflexivity.
  - destruct (String.eqb_spec k k0) as [-> | Hk]; simpl.
    + apply String.eqb_neq in Hne. rewrite Hne. reflexivity.
    + destruct (String.eqb k' k0); [reflexivity | exact IH].
Qed.

Lemma dict_set_head (d : dict) (k : string) (v : list cell) :
  d <> [] -> hd_error (map fst (dict_set d k v)) = hd_error (map fst d).
Proof.
  destruct d as [| [k' v'] d]; [congruence | intros _; simpl].
  destruct (String.eqb k k'); reflexivity.
Qed.

Lemma dict_append_keys (d : dict) (k : string) (x : cell) : forall d',
  dict_append d k x = Ok d' -> map fst d' = map fst d.
Proof.
  induction d as [| [k' l] d IH]; intros d' H; simpl in H; [discriminate |].
  destruct (String.eqb k k').
  - injection H as <-. reflexivity.
  - inv_bind H. injection H as <-. simpl. f_equal. apply IH. assumption.
Qed.

Lemma dict_append_get_same (d : dict) (k : string) (x : cell) : forall d',
  dict_append d k x = Ok d' ->
  exists l, dict_get d k = Some l /\ dict_get d' k = Some (l ++ [x]).
Proof.
  induction d as [| [k' l] d IH]; intros d' H; simpl in H; [discriminate |].
  destruct (String.eqb k k') eqn:E.
  - injection H as <-. exists l. simpl. rewrite E. auto.
  - inv_bind H. injection H as <-. simpl. rewrite E. apply IH. assumption.
Qed.

Lemma dict_append_get_other (d : dict) (k k' : string) (x : cell) : forall d',
  dict_append d k x = Ok d' -> k' <> k -> dict_get d' k' = dict_get d k'.
Proof.
  induction d as [| [k0 l] d IH]; intros d' H Hne; simpl in H; [discriminate |].
  destruct (String.eqb_spec k k0) as [-> | Hk].
  - injection H as <-. simpl. apply String.eqb_neq in Hne.
    rewrite Hne. reflexivity.
  - inv_bind H. injection H as <-. simpl.
    destruct (String.eqb k' k0); [reflexivity |]. apply IH; assumption.
Qed.

Lemma frame_height_head (d : dict) (k : string) :
  hd_error (map fst d) = Some k ->
  frame_height d = List.length (frame_column d k).
Proof.
  destruct d as [| [k0 l] d]; simpl; [discriminate |].
  intros H. injection H as ->. unfold frame_column. simpl.
  rewrite String.eqb_refl. reflexivity.
Qed.

(** The loop of lines 225 and 226 appends one value to each listed
    column and touches nothing else. *)
Lemma append_values_spec (columns_list : list string) (values : list value) :
  forall (i : nat) (data data' : dict),
  NoDup columns_list ->
  append_values data columns_list i values = Ok data' ->
  map fst data' = map fst data /\
  (forall k, ~ In k columns_list -> dict_get data' k = dict_get data k) /\
  (forall j c, nth_error columns_list j = Some c ->
     exists l v, dict_get data c = Some l /\
                 nth_error values (i + j) = Some v /\
                 dict_get data' c = Some (l ++ [CVal v])).
Proof.
  induction columns_list as [| column rest IH]; intros i data data' Hnd H.
  - simpl in H. injection H as <-. split; [reflexivity |].
    split; [reflexivity |]. intros [| j] c Hj; discriminate.
  - simpl in H. inv_bind H. inv_bind H. rename x into v, x0 into data1.
    destruct (nth_error values i) as [v' |] eqn:Hv; [| discriminate].
    injection Hx as ->.
    inversion Hnd as [| c0 r0 Hnotin Hnd']; subst.
    destruct (IH (S i) data1 data' Hnd' H) as (Hk & Hother & Hcols).
    split; [rewrite Hk; eapply dict_append_keys; eassumption |].
    split.
    + intros k Hk'. rewrite Hother by (intros Hin; apply Hk'; right; exact Hin).
      eapply dict_append_get_other; [eassumption |].
      intros ->. apply Hk'. left. reflexivity.
    + intros [| j] c Hj; simpl in Hj.
      * injection Hj as <-.
        destruct (dict_append_get_same _ _ _ _ Hx0) as (l & Hl & Hl').
        exists l, v. rewrite Nat.add_0_r. repeat split; try assumption.
        rewrite Hother by assumption. assumption.
      * destruct (Hcols j c Hj) as (l & w & Hl & Hw & Hl').
        exists l, w. replace (i + S j)%nat with (S i + j)%nat by lia.
        repeat split; try assumption.
        rewrite <- Hl. symmetry.
        eapply dict_append_get_other; [eassumption |].
        intros ->. apply Hnotin. eapply nth_error_In. eassumption.
Qed.

Section Table.

Variable raw : DataFrame.
Variable columns_list : list string.
Variables num_of_all_days num_of_interval_days end_date : Z.

Hypothesis columns_distinct : NoDup columns_list.
Hypothesis columns_not_stats : forall c, In c columns_list -> ~ In c stat_names.

Lemma stat_name_not_column (k : string) :
  In k stat_names -> ~ In k columns_list.
Proof. intros Hk Hc. exact (columns_not_stats k Hc Hk). Qed.

Lemma partition_step_inv (data data' : dict) (prev cur : option Z)
    (tuples : list (list value)) (rows : list (Z * Z * Stats))
    (values : list value) :
  table_inv raw columns_list num_of_all_days num_of_interval_days end_date
    data tuples rows ->
  partition_step raw columns_list num_of_all_days num_of_interval_days end_date
    (data, prev) values = Ok (data', cur) ->
  exists r,
    table_inv raw columns_list num_of_all_days num_of_interval_days end_date
      data' (tuples ++ [values]) (rows ++ [r]).
Proof.
  intros (Hhd & H1 & H2 & H3 & H4 & Hcols & Hrows) H.
  unfold partition_step in H.
  inv_bind H. rename x into df_slice, Hx into Hslice.
  inv_bind H. destruct x as [[score_value current] s]. rename Hx into Hscore.
  inv_bind H. rename x into d1, Hx into A1.
  inv_bind H. rename x into d2, Hx into A2.
  inv_bind H. rename x into d3, Hx into A3.
  inv_bind H. rename x into d4, Hx into A4.
  inv_bind H. rename x into d5, Hx into A5.
  injection H as <- <-.
  destruct (append_values_spec _ _ _ _ _ columns_distinct A5)
    as (K5 & O5 & C5).
  assert (S1 : ~ In "score_value"%string columns_list)
    by (apply stat_name_not_column; simpl; tauto).
  assert (S2 : ~ In "count_last_period"%string columns_list)
    by (apply stat_name_not_column; simpl; tauto).
  assert (S3 : ~ In "count_sem_calc_period"%string columns_list)
    by (apply stat_name_not_column; simpl; tauto).
  assert (S4 : ~ In "count_mean_calc_period"%string columns_list)
    by (apply stat_name_not_column; simpl; tauto).
  exists (score_value, current, s).
  unfold table_inv. rewrite !map_app. cbn [map fst snd].
  repeat split.
  - rewrite K5, (dict_append_keys _ _ _ _ A4), (dict_append_keys _ _ _ _ A3),
      (dict_append_keys _ _ _ _ A2), (dict_append_keys _ _ _ _ A1). exact Hhd.
  - rewrite (O5 _ S1).
    rewrite (dict_append_get_other _ _ _ _ _ A4) by discriminate.
    rewrite (dict_append_get_other _ _ _ _ _ A3) by discriminate.
    rewrite (dict_append_get_other _ _ _ _ _ A2) by discriminate.
    destruct (dict_append_get_same _ _ _ _ A1) as (l & Hl & ->).
    congruence.
  - rewrite (O5 _ S2).
    rewrite (dict_append_get_other _ _ _ _ _ A4) by discriminate.
    rewrite (dict_append_get_other _ _ _ _ _ A3) by discriminate.
    destruct (dict_append_get_same _ _ _ _ A2) as (l & Hl & ->).
    rewrite (dict_append_get_other _ _ _ _ _ A1) in Hl by discriminate.
    congruence.
  - rewrite (O5 _ S3).
    rewrite (dict_append_get_other _ _ _ _ _ A4) by discriminate.
    destruct (dict_append_get_same _ _ _ _ A3) as (l & Hl & ->).
    rewrite (dict_append_get_other _ _ _ _ _ A2) in Hl by discriminate.
    rewrite (dict_append_get_other _ _ _ _ _ A1) in Hl by discriminate.
    congruence.
  - rewrite (O5 _ S4).
    destruct (dict_append_get_same _ _ _ _ A4) as (l & Hl & ->).
    rewrite (dict_append_get_other _ _ _ _ _ A3) in Hl by discriminate.
    rewrite (dict_append_get_other _ _ _ _ _ A2) in Hl by discriminate.
    rewrite (dict_append_get_other _ _ _ _ _ A1) in Hl by discriminate.
    congruence.
  - intros j c Hj.
    destruct (C5 j c Hj) as (l & v & Hl & Hv & ->).
    assert (Hc : In c columns_list) by (eapply nth_error_In; eassumption).
    pose proof (columns_not_stats c Hc) as Hns. simpl in Hns.
    rewrite (dict_append_get_other _ _ _ _ _ A4) in Hl by (intros ->; tauto).
    rewrite (dict_append_get_other _ _ _ _ _ A3) in Hl by (intros ->; tauto).
    rewrite (dict_append_get_other _ _ _ _ _ A2) in Hl by (intros ->; tauto).
    rewrite (dict_append_get_other _ _ _ _ _ A1) in Hl by (intros ->; tauto).
    rewrite (Hcols j c Hj) in Hl. injection Hl as <-.
    simpl in Hv. rewrite map_app. cbn [map].
    rewrite (nth_error_nth _ _ VNaN Hv). reflexivity.
  - apply Forall2_app; [exact Hrows |].
    constructor; [| constructor]. eauto.
Qed.

Lemma partitions_loop_inv (rest : list (list value)) :
  forall (data data' : dict) (prev cur : option Z)
         (tuples : list (list value)) (rows : list (Z * Z * Stats)),
  table_inv raw columns_list num_of_all_days num_of_interval_days end_date
    data tuples rows ->
  partitions_loop raw columns_list num_of_all_days num_of_interval_days end_date
    rest (data, prev) = Ok (data', cur) ->
  exists rows',
    table_inv raw columns_list num_of_all_days num_of_interval_days end_date
      data' (tuples ++ rest) rows'.
Proof.
  induction rest as [| values rest IH];
    intros data data' prev cur tuples rows Hinv H.
  - simpl in H. injection H as <- <-. exists rows. rewrite app_nil_r.
    exact Hinv.
  - simpl in H. inv_bind H. destruct x as [data1 cur1].
    destruct (partition_step_inv _ _ _ _ _ _ _ Hinv Hx) as (r & Hinv1).
    destruct (IH _ _ _ _ _ _ Hinv1 H) as (rows' & Hinv').
    exists rows'. rewrite <- app_assoc in Hinv'. exact Hinv'.
Qed.

Lemma setup_columns_spec (cols : list string) :
  forall (data data' : dict) (acc acc' : list (list value)),
  data <> [] ->
  setup_columns raw cols data acc = Ok (data', acc') ->
  acc' = acc ++ map (fun c => unique (column_values raw c)) cols /\
  hd_error (map fst data') = hd_error (map fst data) /\
  (forall c, In c cols -> dict_get data' c = Some []) /\
  (forall k, ~ In k cols -> dict_get data' k = dict_get data k).
Proof.
  induction cols as [| column rest IH]; intros data data' acc acc' Hne H.
  - simpl in H. injection H as <- <-. rewrite app_nil_r.
    repeat split; auto. intros c [].
  - simpl in H. inv_bind H. rename x into series.
    assert (Hne' : dict_set data column [] <> []).
    { destruct data as [| [k v] d]; simpl; [discriminate |].
      destruct (String.eqb column k); discriminate. }
    destruct (IH _ _ _ _ Hne' H) as (Hacc & Hhd & Hin & Hout).
    assert (Hcv : column_values raw column = series).
    { unfold column_values. rewrite Hx. reflexivity. }
    split; [| split; [| split]].
    + rewrite Hacc, <- app_assoc. simpl. rewrite Hcv. reflexivity.
    + rewrite Hhd. apply dict_set_head. exact Hne.
    + intros c [<- | Hc].
      * destruct (in_dec string_dec column rest) as [Hr | Hr];
          [apply Hin; exact Hr |].
        rewrite (Hout _ Hr). apply dict_set_get_same.
      * apply Hin. exact Hc.
    + intros k Hk. rewrite Hout by (intros Hr; apply Hk; right; exact Hr).
      apply dict_set_get_other. intros ->. apply Hk. left. reflexivity.
Qed.

(** The dictionary before the first partition. *)
Lemma setup_columns_inv (data0 : dict) (pools : list (list value)) :
  setup_columns raw columns_list initial_data [] = Ok (data0, pools) ->
  pools = map (fun c => unique (column_values raw c)) columns_list /\
  table_inv raw columns_list num_of_all_days num_of_interval_days end_date
    data0 [] [].
Proof.
  intros H.
  assert (Hne : initial_data <> []) by discriminate.
  destruct (setup_columns_spec _ _ _ _ _ Hne H) as (Hacc & Hhd & Hin & Hout).
  split; [exact Hacc |].
  unfold table_inv. simpl map.
  assert (Hs : forall k, In k stat_names -> dict_get data0 k = Some []).
  { intros k Hk. rewrite Hout by (apply stat_name_not_column; exact Hk).
    simpl in Hk. destruct Hk as [<- | [<- | [<- | [<- | []]]]]; reflexivity. }
  repeat split; try (apply Hs; simpl; tauto).
  - rewrite Hhd. reflexivity.
  - intros j c Hj. apply Hin. eapply nth_error_In. eassumption.
  - constructor.
Qed.

(** The table the method builds: its columns, row by row, for the tuples
    of the Cartesian product in their order. *)
Lemma scoring_table_inv (df : dict) :
  scoring_table raw columns_list num_of_all_days num_of_interval_days end_date
    = Ok df ->
  exists rows,
    table_inv raw columns_list num_of_all_days num_of_interval_days end_date df
      (product (map (fun c => unique (column_values raw c)) columns_list)) rows.
Proof.
  unfold scoring_table. intros H.
  inv_bind H. destruct x as [data0 col_unique_vals].
  inv_bind H. destruct x as [data1 cur].
  unfold frame_of_dict in H. destruct (same_lengths data1); [| discriminate].
  injection H as <-.
  destruct (setup_columns_inv _ _ Hx) as (-> & Hinv0).
  destruct (partitions_loop_inv _ _ _ _ _ _ _ Hinv0 Hx0) as (rows & Hinv).
  exists rows. exact Hinv.
Qed.

Lemma table_inv_rows (df : dict) (tuples : list (list value))
    (rows : list (Z * Z * Stats)) :
  table_inv raw columns_list num_of_all_days num_of_interval_days end_date
    df tuples rows ->
  Forall (fun t => List.length t = List.length columns_list) tuples ->
  frame_rows df columns_list = map (map CVal) tuples.
Proof.
  intros (Hhd & H1 & _ & _ & _ & Hcols & Hrows) Hlen.
  assert (Hh : frame_height df = List.length tuples).
  { rewrite (frame_height_head _ _ Hhd). unfold frame_column. rewrite H1.
    rewrite length_map. symmetry. exact (Forall2_length Hrows). }
  unfold frame_rows. rewrite Hh.
  apply (nth_ext _ _ [] []).
  - rewrite !length_map, length_seq. reflexivity.
  - intros k Hk. rewrite length_map, length_seq in Hk.
    set (row := fun k => map (fun c => nth k (frame_column df c) (CVal VNaN))
                           columns_list).
    assert (L : nth k (map row (seq 0 (List.length tuples))) [] = row k).
    { rewrite (nth_indep _ [] (row O)) by
      (rewrite length_map, length_seq; exact Hk).
      rewrite (map_nth row), seq_nth by exact Hk. reflexivity. }
    assert (R : nth k (map (map CVal) tuples) [] = map CVal (nth k tuples [])).
    { exact (map_nth (map CVal) tuples [] k). }
    rewrite L, R. unfold row.
    assert (Ht : List.length (nth k tuples []) = List.length columns_list).
    { rewrite Forall_forall in Hlen. apply Hlen. apply nth_In. exact Hk. }
    apply (nth_ext _ _ (CVal VNaN) (CVal VNaN)).
    + rewrite !length_map. symmetry. exact Ht.
    + intros j Hj. rewrite length_map in Hj.
      destruct (nth_error columns_list j) as [c |] eqn:Hc;
        [| apply nth_error_None in Hc; lia].
      set (cell_of := fun c => nth k (frame_column df c) (CVal VNaN)).
      rewrite (nth_indep _ (CVal VNaN) (cell_of c))
        by (rewrite length_map; exact Hj).
      rewrite (map_nth cell_of), (nth_error_nth _ _ c Hc).
      unfold cell_of, frame_column. rewrite (Hcols j c Hc).
      rewrite (map_nth CVal).
      pose proof (map_nth (fun t => CVal (nth j t VNaN)) tuples [] k) as E.
      cbv beta in E.
      replace (nth j [] VNaN) with VNaN in E by (destruct j; reflexivity).
      exact E.
Qed.

End Table.

(** ** Slices *)

Lemma index_of_In (name : string) (names : list string) :
  In name names -> exists j, index_of name names = Some j.
Proof.
  induction names as [| n names IH]; simpl; [tauto |].
  intros H. destruct (String.eqb_spec name n) as [| Hne]; [eauto |].
  destruct H as [-> | H]; [congruence |].
  destruct (IH H) as (j & ->). simpl. eauto.
Qed.

Lemma get_column_total (raw : DataFrame) (column : string) :
  In column (column_names raw) ->
  exists series, get_column raw column = Ok series.
Proof.
  unfold column_names, get_column. intros H.
  destruct (String.eqb_spec column "id"); [eauto |].
  destruct (String.eqb_spec column "created"); [eauto |].
  destruct (String.eqb_spec column "updated"); [eauto |].
  simpl in H. destruct H as [H | [H | [H | H]]]; try congruence.
  destruct (index_of_In _ _ H) as (j & ->). eauto.
Qed.

Lemma select_length {A : Type} (l : list A) : forall bs,
  (List.length (select l bs) <= List.length l)%nat.
Proof.
  induction l as [| x l IH]; intros [| [] bs]; simpl; try lia;
    specialize (IH bs); lia.
Qed.

Lemma nth_error_total {A : Type} (l : list A) (i : nat) :
  (i < List.length l)%nat -> exists v, nth_error l i = Some v.
Proof.
  intros H. destruct (nth_error l i) eqn:E; [eauto |].
  apply nth_error_None in E. lia.
Qed.

Lemma slice_mask_series (raw : DataFrame) (values : list value)
    (columns : list string) : forall i bs,
  (forall c, In c columns -> In c (column_names raw)) ->
  (i + List.length columns <= List.length values)%nat ->
  exists bs', slice_mask raw columns i values (MSeries bs) = Ok (MSeries bs').
Proof.
  induction columns as [| col rest IH]; intros i bs Hcols Hlen;
    cbn [slice_mask].
  - eauto.
  - destruct (get_column_total raw col (Hcols col (or_introl eq_refl)))
      as (series & ->).
    simpl in Hlen.
    destruct (nth_error_total values i ltac:(lia)) as (v & ->).
    cbn [bind mask_and]. apply IH; [| lia].
    intros c Hc. apply Hcols. right. exact Hc.
Qed.

(** A slice exists for every tuple as long as the columns list: with at
    least one column the mask is a series. *)
Lemma get_dataframe_slice_total (raw : DataFrame) (columns : list string)
    (values : list value) :
  columns <> [] ->
  (forall c, In c columns -> In c (column_names raw)) ->
  List.length values = List.length columns ->
  exists df_slice,
    get_dataframe_slice raw columns values = Ok df_slice /\
    (List.length (records df_slice) <= List.length (records raw))%nat.
Proof.
  intros Hne Hcols Hlen. destruct columns as [| col rest]; [congruence |].
  unfold get_dataframe_slice. cbn [slice_mask].
  destruct (get_column_total raw col (Hcols col (or_introl eq_refl)))
    as (series & ->).
  simpl in Hlen.
  destruct (nth_error_total values 0 ltac:(lia)) as (v & ->).
  cbn [bind mask_and].
  destruct (slice_mask_series raw values rest 1
              (map (fun c => py_eq c v) series)) as (bs & ->).
  - intros c Hc. apply Hcols. right. exact Hc.
  - lia.
  - cbn [bind getitem_mask]. eexists. split; [reflexivity |].
    cbn [records]. apply select_length.
Qed.

(** ** Window counts *)

Lemma distinct_ids_length (l : list Z) :
  (List.length (distinct_ids l) <= List.length l)%nat.
Proof.
  induction l as [| x l IH]; simpl; [lia |].
  destruct (existsb (Z.eqb x) l); simpl; lia.
Qed.

Lemma window_count_bounds (df_slice : list record) (lo hi : Z) :
  0 <= window_count df_slice lo hi <= Z.of_nat (List.length df_slice).
Proof.
  unfold window_count, count_unique.
  pose proof (distinct_ids_length (map id (filter (in_window lo hi) df_slice)))
    as H.
  rewrite length_map in H.
  pose proof (filter_length_le (in_window lo hi) df_slice). lia.
Qed.

(** ** One slice *)

Lemma score_slice_total (df_slice : DataFrame)
    (num_of_all_days num_of_interval_days end_date : Z) (prev : option Z) :
  period_in_range end_date num_of_all_days num_of_interval_days ->
  2 * num_of_interval_days <= num_of_all_days ->
  Z.of_nat (List.length (records df_slice)) < 2 ^ 63 ->
  exists r,
    score_slice df_slice num_of_all_days num_of_interval_days end_date prev
    = Ok r.
Proof.
  intros Hp H2 Hsmall. rewrite score_slice_eq by exact Hp. cbv zeta.
  destruct Hp as (Hi & Ha & _).
  set (m := num_of_all_days / num_of_interval_days).
  assert (Hm : 2 <= m <= 999999999).
  { unfold m. split.
    - apply Z.div_le_lower_bound; lia.
    - apply Z.le_trans with num_of_all_days; [| lia].
      apply Z.div_le_upper_bound; nia. }
  set (series := baseline_counts _ _ _ _ _).
  assert (Hlen : List.length series = Z.to_nat (m - 1)).
  { unfold series, baseline_counts, py_range.
    rewrite !length_map, length_seq. reflexivity. }
  destruct (borders_total series m) as (s & l & r & Hs & Hb).
  - apply Forall_forall. intros c Hc. unfold series, baseline_counts in Hc.
    apply in_map_iff in Hc. destruct Hc as (i & <- & _).
    pose proof (window_count_bounds (records df_slice)
      (window_start end_date num_of_all_days num_of_interval_days i)
      (window_end end_date num_of_all_days num_of_interval_days i)). lia.
  - intros E. rewrite E in Hlen. simpl in Hlen. lia.
  - rewrite Hlen. lia.
  - exact Hm.
  - rewrite Hs. cbn [bind]. rewrite Hb. cbn [bind]. eauto.
Qed.

(** ** The output dictionary, continued *)

Lemma dict_append_total (d : dict) (k : string) (x : cell) :
  In k (map fst d) -> exists d', dict_append d k x = Ok d'.
Proof.
  induction d as [| [k' l] d IH]; simpl; [tauto |].
  intros H. destruct (String.eqb_spec k k') as [| Hne]; [eauto |].
  destruct H as [-> | H]; [congruence |].
  destruct (IH H) as (d' & ->). simpl. eauto.
Qed.

Lemma append_values_total (values : list value) (columns : list string) :
  forall (i : nat) (data : dict),
  (forall c, In c columns -> In c (map fst data)) ->
  (i + List.length columns <= List.length values)%nat ->
  exists data', append_values data columns i values = Ok data'.
Proof.
  induction columns as [| column rest IH]; intros i data Hkeys Hlen;
    cbn [append_values]; [eauto |].
  simpl in Hlen.
  destruct (nth_error_total values i ltac:(lia)) as (v & ->). cbn [bind].
  destruct (dict_append_total data column (CVal v)
              (Hkeys column (or_introl eq_refl))) as (data1 & H1).
  rewrite H1. cbn [bind]. apply IH; [| lia].
  intros c Hc. rewrite (dict_append_keys _ _ _ _ H1).
  apply Hkeys. right. exact Hc.
Qed.

Lemma dict_set_new_key (d : dict) (k : string) (v : list cell) :
  ~ In k (map fst d) -> map fst (dict_set d k v) = map fst d ++ [k].
Proof.
  induction d as [| [k' v'] d IH]; simpl; [reflexivity |].
  intros H. destruct (String.eqb_spec k k') as [-> | Hne]; [tauto |].
  simpl. f_equal. apply IH. tauto.
Qed.

Lemma dict_get_NoDup (d : dict) (k : string) (l : list cell) :
  NoDup (map fst d) -> In (k, l) d -> dict_get d k = Some l.
Proof.
  induction d as [| [k' l'] d IH]; simpl; [tauto |].
  intros Hnd H. inversion Hnd as [| ? ? Hnotin Hnd']; subst.
  destruct H as [H | H].
  - injection H as -> ->. rewrite String.eqb_refl. reflexivity.
  - destruct (String.eqb_spec k k') as [-> | Hne]; [| auto].
    exfalso. apply Hnotin. apply in_map_iff. exists (k', l). auto.
Qed.

(** Columns of one length make a frame. *)
Lemma same_lengths_get (d : dict) (n : nat) :
  NoDup (map fst d) ->
  (forall k, In k (map fst d) ->
     exists l, dict_get d k = Some l /\ List.length l = n) ->
  same_lengths d = true.
Proof.
  intros Hnd Hall.
  assert (H : forall k l, In (k, l) d -> List.length l = n).
  { intros k l Hin.
    destruct (Hall k) as (l' & Hl' & Hlen).
    - apply in_map_iff. exists (k, l). auto.
    - rewrite (dict_get_NoDup d k l Hnd Hin) in Hl'. congruence. }
  destruct d as [| [k0 l0] rest]; [reflexivity |].
  unfold same_lengths. apply forallb_forall. intros [k l] Hin.
  apply Nat.eqb_eq. cbn [snd].
  rewrite (H k l (or_intror Hin)), (H k0 l0 (or_introl eq_refl)). reflexivity.
Qed.

Lemma setup_columns_total (raw : DataFrame) (cols : list string) :
  forall (data : dict) (acc : list (list value)),
  (forall c, In c cols -> In c (column_names raw)) ->
  exists data' acc', setup_columns raw cols data acc = Ok (data', acc').
Proof.
  induction cols as [| column rest IH]; intros data acc Hcols;
    cbn [setup_columns]; [eauto |].
  destruct (get_column_total raw column (Hcols column (or_introl eq_refl)))
    as (series & ->).
  cbn [bind]. apply IH. intros c Hc. apply Hcols. right. exact Hc.
Qed.

Lemma setup_columns_keys (raw : DataFrame) (cols : list string) :
  forall (data data' : dict) (acc acc' : list (list value)),
  NoDup cols ->
  (forall c, In c cols -> ~ In c (map fst data)) ->
  setup_columns raw cols data acc = Ok (data', acc') ->
  map fst data' = map fst data ++ cols.
Proof.
  induction cols as [| column rest IH]; intros data data' acc acc' Hnd Hnew H.
  - simpl in H. injection H as <- <-. rewrite app_nil_r. reflexivity.
  - cbn [setup_columns] in H. inv_bind H.
    inversion Hnd as [| ? ? Hnotin Hnd']; subst.
    pose proof (dict_set_new_key data column []
                  (Hnew column (or_introl eq_refl))) as Hk.
    assert (Hnew' : forall c, In c rest ->
              ~ In c (map fst (dict_set data column []))).
    { intros c Hc. rewrite Hk. intros Hin. apply in_app_or in Hin.
      destruct Hin as [Hin | [-> | []]]; [| exact (Hnotin Hc)].
      exact (Hnew c (or_intror Hc) Hin). }
    rewrite (IH _ _ _ _ Hnd' Hnew' H), Hk, <- app_assoc. reflexivity.
Qed.

(** ** The method returns *)

Section Total.

Variable raw : DataFrame.
Variable columns_list : list string.
Variables num_of_all_days num_of_interval_days end_date : Z.

Hypothesis columns_distinct : NoDup columns_list.
Hypothesis columns_not_stats : forall c, In c columns_list -> ~ In c stat_names.
Hypothesis columns_nonempty : columns_list <> [].
Hypothesis columns_exist :
  forall c, In c columns_list -> In c (column_names raw).
Hypothesis slices_score :
  forall (df_slice : DataFrame) (prev : option Z),
    (List.length (records df_slice) <= List.length (records raw))%nat ->
    exists r,
      score_slice df_slice num_of_all_days num_of_interval_days end_date prev
      = Ok r.

Lemma partition_step_total (data : dict) (prev : option Z)
    (values : list value) :
  (forall k, In k (stat_names ++ columns_list) -> In k (map fst data)) ->
  List.length values = List.length columns_list ->
  exists data' cur,
    partition_step raw columns_list num_of_all_days num_of_interval_days
      end_date (data, prev) values = Ok (data', cur) /\
    map fst data' = map fst data.
Proof.
  intros Hkeys Hlen. unfold partition_step.
  destruct (get_dataframe_slice_total raw columns_list values
              columns_nonempty columns_exist Hlen) as (df_slice & -> & Hsl).
  cbn [bind].
  destruct (slices_score df_slice prev Hsl) as ([[score current] s] & ->).
  cbn [bind].
  assert (Hstat : forall k (d : dict), In k stat_names ->
            map fst d = map fst data -> In k (map fst d)).
  { intros k d Hk ->. apply Hkeys, in_or_app. left. exact Hk. }
  destruct (dict_append_total data "score_value" (CNum (PyInt score)))
    as (d1 & A1); [apply Hstat; [simpl; tauto | reflexivity] |].
  rewrite A1. cbn [bind]. pose proof (dict_append_keys _ _ _ _ A1) as K1.
  destruct (dict_append_total d1 "count_last_period" (CNum (PyInt current)))
    as (d2 & A2); [apply Hstat; [simpl; tauto | exact K1] |].
  rewrite A2. cbn [bind]. pose proof (dict_append_keys _ _ _ _ A2) as K2.
  rewrite K1 in K2.
  destruct (dict_append_total d2 "count_sem_calc_period" (CNum (st_ste s)))
    as (d3 & A3); [apply Hstat; [simpl; tauto | exact K2] |].
  rewrite A3. cbn [bind]. pose proof (dict_append_keys _ _ _ _ A3) as K3.
  rewrite K2 in K3.
  destruct (dict_append_total d3 "count_mean_calc_period" (CNum (st_avg s)))
    as (d4 & A4); [apply Hstat; [simpl; tauto | exact K3] |].
  rewrite A4. cbn [bind]. pose proof (dict_append_keys _ _ _ _ A4) as K4.
  rewrite K3 in K4.
  destruct (append_values_total values columns_list 0 d4) as (d5 & A5).
  - intros c Hc. rewrite K4. apply Hkeys, in_or_app. right. exact Hc.
  - lia.
  - rewrite A5. cbn [bind]. exists d5, (Some current).
    split; [reflexivity |].
    destruct (append_values_spec _ _ _ _ _ columns_distinct A5) as (K5 & _).
    congruence.
Qed.

Lemma partitions_loop_total (tuples : list (list value)) :
  forall (data : dict) (prev : option Z),
  (forall k, In k (stat_names ++ columns_list) -> In k (map fst data)) ->
  Forall (fun t => List.length t = List.length columns_list) tuples ->
  exists data' cur,
    partitions_loop raw columns_list num_of_all_days num_of_interval_days
      end_date tuples (data, prev) = Ok (data', cur) /\
    map fst data' = map fst data.
Proof.
  induction tuples as [| values rest IH]; intros data prev Hkeys Hlen;
    cbn [partitions_loop]; [eauto |].
  inversion Hlen as [| ? ? Hv Hrest]; subst.
  destruct (partition_step_total data prev values Hkeys Hv)
    as (data1 & cur1 & -> & K1).
  cbn [bind].
  destruct (IH data1 cur1) as (data' & cur & Hloop & K); [| exact Hrest |].
  - intros k Hk. rewrite K1. apply Hkeys. exact Hk.
  - exists data', cur. split; [exact Hloop | congruence].
Qed.

Lemma stat_names_NoDup : NoDup (stat_names ++ columns_list).
Proof.
  apply NoDup_app; [| exact columns_distinct |].
  - unfold stat_names. repeat constructor; simpl; intuition discriminate.
  - intros k Hk Hc. exact (columns_not_stats k Hc Hk).
Qed.

(** When every slice can be scored the method builds its table: nothing
    else in it raises. *)
Lemma scoring_table_scored :
  exists df,
    scoring_table raw columns_list num_of_all_days num_of_interval_days
      end_date = Ok df.
Proof.
  unfold scoring_table.
  destruct (setup_columns_total raw columns_list initial_data [] columns_exist)
    as (data0 & pools & Hsetup).
  rewrite Hsetup. cbn [bind].
  assert (K0 : map fst data0 = stat_names ++ columns_list).
  { apply (setup_columns_keys raw columns_list initial_data data0 [] pools
             columns_distinct); [| exact Hsetup].
    intros c Hc. exact (columns_not_stats c Hc). }
  destruct (setup_columns_inv raw columns_list num_of_all_days
              num_of_interval_days end_date columns_not_stats data0 pools
              Hsetup) as (-> & Hinv0).
  set (tuples := product _).
  assert (Hlen : Forall (fun t => List.length t = List.length columns_list)
                   tuples).
  { apply Forall_forall. intros t Ht. unfold tuples in Ht.
    rewrite product_lex in Ht. apply lex_product_In in Ht.
    apply Forall2_length in Ht. rewrite length_map in Ht. exact Ht. }
  destruct (partitions_loop_total tuples data0 None) as
    (data1 & cur & Hloop & K1);
    [rewrite K0; auto | exact Hlen |].
  rewrite Hloop. cbn [bind].
  destruct (partitions_loop_inv raw columns_list num_of_all_days
              num_of_interval_days end_date columns_distinct columns_not_stats
              tuples data0 data1 None cur [] [] Hinv0 Hloop)
    as (rows & Hhd & H1 & H2 & H3 & H4 & Hcols & Hrows).
  pose proof (Forall2_length Hrows) as Hn. simpl app in Hn.
  unfold frame_of_dict.
  rewrite (same_lengths_get data1 (List.length tuples)); [eauto | |].
  - rewrite K1, K0. exact stat_names_NoDup.
  - intros k Hk. rewrite K1, K0 in Hk. apply in_app_or in Hk.
    destruct Hk as [Hk | Hk].
    + simpl in Hk.
      destruct Hk as [<- | [<- | [<- | [<- | []]]]]; eexists;
        (split; [eassumption | rewrite length_map; symmetry; exact Hn]).
    + apply In_nth_error in Hk. destruct Hk as (j & Hj).
      eexists. split; [exact (Hcols j k Hj) |]. apply length_map.
Qed.

End Total.

(** For a valid configuration and a table of fewer than [2 ^ 63] rows the
    method builds its table: nothing in it raises. *)
Lemma scoring_table_total (raw : DataFrame) (columns_list : list string)
    (num_of_all_days num_of_interval_days end_date : Z) :
  NoDup columns_list ->
  (forall c, In c columns_list -> ~ In c stat_names) ->
  columns_list <> [] ->
  (forall c, In c columns_list -> In c (column_names raw)) ->
  period_in_range end_date num_of_all_days num_of_interval_days ->
  2 * num_of_interval_days <= num_of_all_days ->
  Z.of_nat (List.length (records raw)) < 2 ^ 63 ->
  exists df,
    scoring_table raw columns_list num_of_all_days num_of_interval_days
      end_date = Ok df.
Proof.
  intros Hnd Hns Hne Hex Hp Hw Hsmall.
  apply scoring_table_scored; try assumption.
  intros df_slice prev Hsl.
  apply score_slice_total; [exact Hp | exact Hw | lia].
Qed.

(** * The claims *)

(** ** C7: scoring before any table is loaded *)

(** C7.  A call made while no input table is loaded returns the string
    ['load data'] instead of raising, and leaves the object, hence its
    missing output table, as it was. *)
Theorem scoring_without_data (columns_list : list string)
    (num_of_all_days num_of_interval_days end_date : Z)
    (self : WorkloadScoring) :
  raw_df self = None ->
  workload_scoring columns_list num_of_all_days num_of_interval_days
    end_date self
  = (Returns (Some "load data"%string), self).
Proof.
  unfold workload_scoring. intros ->. reflexivity.
Qed.

Lemma scoring_without_data_witness :
  raw_df fresh_object = None /\
  workload_scoring ["assignee"%string] 28 7 april_first_2017 fresh_object
  = (Returns (Some "load data"%string), fresh_object) /\
  out_df fresh_object = None.
Proof.
  split; [reflexivity |]. split; [| reflexivity].
  apply (scoring_without_data ["assignee"%string] 28 7 april_first_2017
           fresh_object).
  reflexivity.
Defined.

(** ** C9: idempotence *)

Lemma workload_scoring_raw (columns_list : list string)
    (num_of_all_days num_of_interval_days end_date : Z)
    (self : WorkloadScoring) :
  raw_df (snd (workload_scoring columns_list num_of_all_days
                 num_of_interval_days end_date self)) = raw_df self.
Proof.
  unfold workload_scoring.
  destruct (raw_df self) as [raw |] eqn:Hraw; [| exact Hraw].
  destruct (scoring_table raw columns_list num_of_all_days
              num_of_interval_days end_date); simpl; [reflexivity | exact Hraw].
Qed.

(** C9.  A second call with the same configuration, made on the object the
    first call left, ends the same way and leaves the same object, output
    table included; a call keeps the loaded table; and what a call returns
    and writes depends on the loaded table only, not on the output table
    held before. *)
Theorem scoring_idempotent (columns_list : list string)
    (num_of_all_days num_of_interval_days end_date : Z)
    (self : WorkloadScoring) :
  let call := workload_scoring columns_list num_of_all_days
                num_of_interval_days end_date in
  call (snd (call self)) = call self /\
  raw_df (snd (call self)) = raw_df self /\
  forall previous : option dict,
    fst (call (mk_ws (raw_df self) previous)) = fst (call self) /\
    match fst (call self) with
    | Returns None =>
        out_df (snd (call (mk_ws (raw_df self) previous)))
        = out_df (snd (call self))
    | _ => True
    end.
Proof.
  intros call. unfold call. split; [| split].
  - unfold workload_scoring.
    destruct (raw_df self) as [raw |] eqn:Hraw; simpl.
    + destruct (scoring_table raw columns_list num_of_all_days
                  num_of_interval_days end_date) as [df | e] eqn:Ht; simpl;
        rewrite ?Hraw, ?Ht; reflexivity.
    + rewrite Hraw. reflexivity.
  - apply workload_scoring_raw.
  - intros previous. unfold workload_scoring. simpl.
    destruct (raw_df self) as [raw |]; simpl; [| auto].
    destruct (scoring_table raw columns_list num_of_all_days
                num_of_interval_days end_date); simpl; auto.
Qed.

(** ** C3: the score classifier and its bounds *)

Lemma baseline_stats_kinds (series : list Z) (m : Z) (s : Stats) :
  baseline_stats series m = Ok s ->
  exists a e, st_avg s = NpFloat a /\ st_ste s = PyFloat e.
Proof.
  unfold baseline_stats. intros H.
  inv_bind H. inv_bind H. inv_bind H. inv_bind H. inv_bind H.
  injection H as <-. simpl.
  unfold num_truediv in Hx3. simpl in Hx3.
  destruct (F.is_zero x2); [discriminate |]. injection Hx3 as <-.
  simpl. eauto.
Qed.

(** C3, amended.  The bounds the classifier receives are [int(mean - ste)]
    and [int(mean + ste)], truncated toward zero, which is the floor
    whenever the truncated number is not negative; on every pair of bounds
    and every current count the classifier applies the four rules in their
    priority order, and its score is 0, 1 or 2. *)
Theorem score_decision_table (series : list Z) (num_of_intervals : Z)
    (s : Stats) (left_border right_border current : Z) :
  baseline_stats series num_of_intervals = Ok s ->
  borders s = Ok (left_border, right_border) ->
  let low := F.sub (as_float (st_avg s)) (as_float (st_ste s)) in
  let high := F.add (as_float (st_avg s)) (as_float (st_ste s)) in
  let score := calc_workload_score left_border right_border current in
  F.trunc low = Ok left_border /\
  F.trunc high = Ok right_border /\
  (float_nonneg low = true -> float_floor low = Ok left_border) /\
  (float_nonneg high = true -> float_floor high = Ok right_border) /\
  (rule1 left_border right_border current -> score = 0) /\
  (~ rule1 left_border right_border current ->
   rule2 left_border current -> score = 0) /\
  (~ rule1 left_border right_border current ->
   ~ rule2 left_border current ->
   rule3 left_border right_border current -> score = 1) /\
  (~ rule1 left_border right_border current ->
   ~ rule2 left_border current ->
   ~ rule3 left_border right_border current -> score = 2) /\
  (score = 0 \/ score = 1 \/ score = 2).
Proof.
  intros Hs Hb low high score.
  destruct (baseline_stats_kinds _ _ _ Hs) as (a & e & Ha & He).
  destruct (borders_trunc _ _ _ Hb) as [Hl Hr].
  unfold low, high. rewrite Ha, He in *. simpl in Hl, Hr. simpl as_float.
  split; [exact Hl |]. split; [exact Hr |].
  split; [intros Hn; rewrite <- trunc_is_floor_nonneg by exact Hn; exact Hl |].
  split; [intros Hn; rewrite <- trunc_is_floor_nonneg by exact Hn; exact Hr |].
  split; [apply score_rule1 |]. split; [apply score_rule2 |].
  split; [apply score_rule3 |]. split; [apply score_rule4 |].
  apply score_range.
Qed.

Lemma score_decision_table_witness :
  baseline_stats [2; 4; 3] 4 = Ok stats_2_4_3 /\
  borders stats_2_4_3 = Ok (2, 3) /\
  F.trunc (F.sub (F.of_Z 3) (F.of_hundredths 41)) = Ok 2 /\
  calc_workload_score 2 3 2 = 1.
Proof.
  assert (Hs : baseline_stats [2; 4; 3] 4 = Ok stats_2_4_3)
    by (vm_compute; reflexivity).
  assert (Hb : borders stats_2_4_3 = Ok (2, 3)) by (vm_compute; reflexivity).
  split; [exact Hs |]. split; [exact Hb |].
  pose proof (score_decision_table [2; 4; 3] 4 stats_2_4_3 2 3 2 Hs Hb) as H.
  cbv zeta in H. destruct H as (Hl & _ & _ & _ & _ & _ & H3 & _).
  split; [exact Hl |].
  apply H3; unfold rule1, rule2, rule3; lia.
Defined.

(** C3 as stated fails: with 161 baseline windows of which one holds 4
    tasks, [mean - ste = 0.02 - 0.03] is negative; the source's [int]
    truncates it to [0] where the floor is [-1], and the score of an idle
    current window is 0 where the floor bounds would give 1. *)
Lemma bounds_truncate_not_floor :
  baseline_stats one_busy_window 162 = Ok stats_one_busy_window /\
  borders stats_one_busy_window = Ok (0, 0) /\
  float_floor (F.sub (as_float (st_avg stats_one_busy_window))
                 (as_float (st_ste stats_one_busy_window))) = Ok (-1) /\
  calc_workload_score 0 0 0 = 0 /\
  calc_workload_score (-1) 0 0 = 1.
Proof.
  repeat split; vm_compute; reflexivity.
Qed.

(** ** C1: the baseline statistics *)

(** C1, amended.  For a baseline series of [n >= 2] windows the statistics
    are computed without error: the mean, the variance with divisor [n]
    (the number of baseline windows, [num_of_intervals - 1]) and the
    standard deviation, the square root of the variance, each rounded to two
    decimals at every intermediate step.  In particular the series
    [2, 4, 3] with current count 2 has mean 3.0, variance 0.67 and standard
    deviation 0.82, bounds [2, 3] and score 1. *)
Theorem baseline_stats_rounded (series : list Z) (num_of_intervals : Z) :
  (2 <= List.length series)%nat ->
  num_of_intervals = Z.of_nat (List.length series) + 1 ->
  num_of_intervals <= 999999999 ->
  let n := Z.of_nat (List.length series) in
  (exists ste,
     baseline_stats series num_of_intervals =
     Ok (mk_stats (NpFloat (rounded_mean series))
           (NpFloat (rounded_variance n series))
           (PyFloat (F.py_round2 (F.sqrt (rounded_variance n series))))
           (PyFloat ste))) /\
  baseline_stats [2; 4; 3] 4 = Ok stats_2_4_3 /\
  borders stats_2_4_3 = Ok (2, 3) /\
  score_slice one_assignee 28 7 april_first_2017 None = Ok (1, 2, stats_2_4_3).
Proof.
  intros Hlen Hm Hmax n. split.
  - assert (Hne : series <> []) by
    (destruct series; [simpl in Hlen; lia | discriminate]).
    destruct (baseline_stats_total series num_of_intervals Hne ltac:(lia))
      as (r & _ & _ & H).
    replace (num_of_intervals - 1) with n in H by (unfold n; lia).
    eexists. exact H.
  - repeat split; vm_compute; reflexivity.
Qed.

Lemma baseline_stats_rounded_witness :
  (2 <= List.length [2; 4; 3])%nat /\
  4 = Z.of_nat (List.length [2; 4; 3]) + 1 /\
  4 <= 999999999 /\
  rounded_mean [2; 4; 3] = F.of_Z 3 /\
  rounded_variance 3 [2; 4; 3] = F.of_hundredths 67 /\
  exists ste,
    baseline_stats [2; 4; 3] 4 =
    Ok (mk_stats (NpFloat (rounded_mean [2; 4; 3]))
          (NpFloat (rounded_variance 3 [2; 4; 3]))
          (PyFloat (F.py_round2 (F.sqrt (rounded_variance 3 [2; 4; 3]))))
          (PyFloat ste)).
Proof.
  assert (H1 : (2 <= List.length [2; 4; 3])%nat) by (simpl; lia).
  assert (H2 : 4 = Z.of_nat (List.length [2; 4; 3]) + 1) by reflexivity.
  assert (H3 : 4 <= 999999999) by lia.
  split; [exact H1 |]. split; [exact H2 |]. split; [exact H3 |].
  split; [vm_compute; reflexivity |]. split; [vm_compute; reflexivity |].
  exact (proj1 (baseline_stats_rounded [2; 4; 3] 4 H1 H2 H3)).
Defined.

(** C1 as stated fails on its own example: over [2, 4, 3] the divisor
    [n - 1 = 2] would give the variance 1.0, the source divides by [n = 3]
    and gets 0.67; its standard error is 0.41, not 0.58, and 0.41 is what
    the output table shows. *)
Lemma baseline_2_4_3_not_sample_variance :
  baseline_stats [2; 4; 3] 4 = Ok stats_2_4_3 /\
  rounded_variance 2 [2; 4; 3] = F.of_Z 1 /\
  F.eqb (as_float (st_var stats_2_4_3)) (F.of_Z 1) = false /\
  F.eqb (as_float (st_var stats_2_4_3)) (F.of_hundredths 67) = true /\
  F.eqb (as_float (st_ste stats_2_4_3)) (F.of_hundredths 58) = false /\
  F.eqb (as_float (st_ste stats_2_4_3)) (F.of_hundredths 41) = true /\
  workload_scoring ["assignee"%string] 28 7 april_first_2017
    (mk_ws (Some one_assignee) None)
  = (Returns None,
     mk_ws (Some one_assignee)
       (Some [("score_value", [CNum (PyInt 1)]);
              ("count_last_period", [CNum (PyInt 2)]);
              ("count_sem_calc_period", [CNum (PyFloat (F.of_hundredths 41))]);
              ("count_mean_calc_period", [CNum (NpFloat (F.of_Z 3))]);
              ("assignee", [CVal (VStr "a")])]%string)).
Proof.
  repeat split; vm_compute; reflexivity.
Qed.

(** ** C8: partitions without records *)

Lemma sum_Z_zeros (n : nat) : sum_Z (repeat 0 n) = 0.
Proof.
  unfold sum_Z.
  assert (H : forall a, fold_left Z.add (repeat 0 n) a = a).
  { induction n as [| n IH]; intros a; simpl; [reflexivity |].
    rewrite IH. lia. }
  apply H.
Qed.

Lemma map_all_zero {A : Type} (f : A -> Z) (l : list A) :
  (forall x, In x l -> f x = 0) -> map f l = repeat 0 (List.length l).
Proof.
  induction l as [| x l IH]; intros H; simpl; [reflexivity |].
  rewrite H by (left; reflexivity). f_equal. apply IH.
  intros y Hy. apply H. right. exact Hy.
Qed.

Lemma div_zero_positive (y : F.float) :
  positive_float y -> F.div F.zero y = F.zero.
Proof.
  destruct y as [| [] | | [] m e]; simpl; try tauto; reflexivity.
Qed.

Lemma div_zero_of_Z (n : Z) :
  0 < n <= 999999999 -> F.div F.zero (F.of_Z n) = F.zero.
Proof.
  intros Hn. destruct n as [| p | p]; try lia.
  destruct (of_Z_pos p ltac:(lia)) as (m & e & -> & _). reflexivity.
Qed.

Lemma fold_add_zeros (n : nat) :
  fold_left F.add (repeat F.zero n) F.zero = F.zero.
Proof.
  induction n as [| n IH]; simpl; [reflexivity | exact IH].
Qed.

Lemma rounded_mean_zeros (n : nat) :
  0 < Z.of_nat n <= 999999999 -> rounded_mean (repeat 0 n) = F.zero.
Proof.
  intros Hn. unfold rounded_mean, np_mean.
  rewrite sum_Z_zeros, repeat_length.
  change (F.of_Z 0) with F.zero. rewrite div_zero_of_Z by exact Hn.
  vm_compute. reflexivity.
Qed.

Lemma rounded_variance_zeros (n : nat) (divisor : Z) :
  0 < Z.of_nat n <= 999999999 -> 0 < divisor <= 999999999 ->
  rounded_variance divisor (repeat 0 n) = F.zero.
Proof.
  intros Hn Hd. unfold rounded_variance.
  rewrite rounded_mean_zeros by exact Hn.
  rewrite map_repeat.
  replace (F.np_round2 (np_square (F.sub (F.of_Z 0) F.zero))) with F.zero
    by (vm_compute; reflexivity).
  change (F.of_Z 0) with F.zero. rewrite fold_add_zeros.
  replace (F.np_round2 F.zero) with F.zero by (vm_compute; reflexivity).
  rewrite div_zero_of_Z by exact Hd.
  vm_compute. reflexivity.
Qed.

Lemma baseline_stats_zeros (num_of_intervals : Z) :
  2 <= num_of_intervals <= 999999999 ->
  baseline_stats (repeat 0 (Z.to_nat (num_of_intervals - 1))) num_of_intervals
  = Ok zero_stats.
Proof.
  intros Hm.
  set (n := Z.to_nat (num_of_intervals - 1)).
  assert (Hn : 0 < Z.of_nat n <= 999999999) by (unfold n; lia).
  assert (Hne : repeat 0 n <> []).
  { destruct n; [simpl in Hn; lia | discriminate]. }
  destruct (baseline_stats_total _ _ Hne Hm) as (r & _ & Hr & H).
  rewrite H, rounded_mean_zeros, rounded_variance_zeros by
    (first [exact Hn | lia]).
  replace (F.py_round2 (F.sqrt F.zero)) with F.zero by (vm_compute;
      reflexivity).
  rewrite (div_zero_positive r Hr).
  reflexivity.
Qed.

(** C8.  A partition that has no record in any of its windows, there being
    at least two, is scored without an error: mean, variance, standard
    deviation and standard error are all zero, both bounds are 0, and the
    score is the 0 of rule 1. *)
Theorem zero_partition_scores_zero (df_slice : DataFrame)
    (num_of_all_days num_of_interval_days end_date : Z) (prev : option Z) :
  period_in_range end_date num_of_all_days num_of_interval_days ->
  2 <= num_of_all_days / num_of_interval_days ->
  (forall i, 0 <= i < num_of_all_days / num_of_interval_days ->
     window_count (records df_slice)
       (window_start end_date num_of_all_days num_of_interval_days i)
       (window_end end_date num_of_all_days num_of_interval_days i) = 0) ->
  score_slice df_slice num_of_all_days num_of_interval_days end_date prev
  = Ok (0, 0, zero_stats) /\
  baseline_stats
    (repeat 0 (Z.to_nat (num_of_all_days / num_of_interval_days - 1)))
    (num_of_all_days / num_of_interval_days) = Ok zero_stats /\
  borders zero_stats = Ok (0, 0) /\
  rule1 0 0 0 /\
  calc_workload_score 0 0 0 = 0.
Proof.
  intros Hp Hm Hzero.
  set (m := num_of_all_days / num_of_interval_days) in *.
  assert (Hmax : m <= 999999999).
  { destruct Hp as (Hi & Ha & _). unfold m.
    apply Z.le_trans with num_of_all_days; [| exact Ha].
    apply Z.div_le_upper_bound; nia. }
  assert (Hstats : baseline_stats (repeat 0 (Z.to_nat (m - 1))) m
                   = Ok zero_stats)
    by (apply baseline_stats_zeros; lia).
  split; [| split; [exact Hstats |]].
  - rewrite (score_slice_eq _ _ _ _ _ Hp). fold m.
    assert (Hb : baseline_counts (records df_slice) end_date num_of_all_days
                   num_of_interval_days m = repeat 0 (Z.to_nat (m - 1))).
    { unfold baseline_counts, py_range. rewrite map_map.
      rewrite map_all_zero; [rewrite length_seq; reflexivity |].
      intros j Hj.
      apply in_seq in Hj. apply Hzero. lia. }
    assert (Hc : current_count (records df_slice) end_date num_of_all_days
                   num_of_interval_days m = 0).
    { unfold current_count. apply Hzero. lia. }
    rewrite Hb, Hc, Hstats. reflexivity.
  - split; [reflexivity |]. split; [| reflexivity].
    unfold rule1. auto.
Qed.

Lemma zero_partition_scores_zero_witness :
  period_in_range april_first_2017 28 7 /\
  2 <= 28 / 7 /\
  (forall i, 0 <= i < 28 / 7 ->
     window_count (records old_task_only)
       (window_start april_first_2017 28 7 i)
       (window_end april_first_2017 28 7 i) = 0) /\
  score_slice old_task_only 28 7 april_first_2017 None = Ok (0, 0, zero_stats).
Proof.
  assert (Hp : period_in_range april_first_2017 28 7)
    by (unfold period_in_range; repeat split; try lia; vm_compute; reflexivity).
  assert (Hm : 2 <= 28 / 7) by (vm_compute; discriminate).
  assert (Hz : forall i, 0 <= i < 28 / 7 ->
            window_count (records old_task_only)
              (window_start april_first_2017 28 7 i)
              (window_end april_first_2017 28 7 i) = 0).
  { intros i Hi. change (28 / 7) with 4 in Hi.
    assert (E : i = 0 \/ i = 1 \/ i = 2 \/ i = 3) by lia.
    destruct E as [-> | [-> | [-> | ->]]]; reflexivity. }
  split; [exact Hp |]. split; [exact Hm |].
  split; [exact Hz |].
  exact (proj1 (zero_partition_scores_zero old_task_only 28 7 april_first_2017
                  None Hp Hm Hz)).
Defined.

(** ** C5 and C6: the windows *)

Lemma period_windows (num_of_all_days num_of_interval_days end_date : Z) :
  period_in_range end_date num_of_all_days num_of_interval_days ->
  let m := num_of_all_days / num_of_interval_days in
  1 <= m /\ m * num_of_interval_days <= num_of_all_days /\
  forall j, 0 <= j <= m + 1 ->
    date_ok (end_date - num_of_all_days + j * num_of_interval_days) = true.
Proof.
  intros (Hi & Ha & He & Hs & Hl) m.
  assert (Hm : 1 <= m) by (unfold m; apply Z.div_le_lower_bound; lia).
  assert (Hmi : m * num_of_interval_days <= num_of_all_days).
  { unfold m. rewrite Z.mul_comm. apply Z.mul_div_le. lia. }
  repeat split; try assumption.
  intros j Hj. apply (date_ok_between _ _ _ Hs Hl). nia.
Qed.

(** The loop of line 188, as the method calls it, visits the windows
    [0] to [m - 1] and returns their counts. *)
Lemma count_windows_period (df_slice : list record)
    (num_of_all_days num_of_interval_days end_date : Z) (prev : option Z) :
  period_in_range end_date num_of_all_days num_of_interval_days ->
  let m := num_of_all_days / num_of_interval_days in
  count_windows df_slice num_of_interval_days m (py_range m)
    (end_date - num_of_all_days)
    (end_date - num_of_all_days + num_of_interval_days) [] prev
  = Ok (baseline_counts df_slice end_date num_of_all_days
          num_of_interval_days m,
        Some (current_count df_slice end_date num_of_all_days
                num_of_interval_days m)).
Proof.
  intros Hp m.
  destruct (period_windows _ _ _ Hp) as (Hm & Hmi & Hrange).
  fold m in Hm, Hmi, Hrange.
  unfold py_range.
  rewrite (count_windows_run df_slice num_of_interval_days m (Z.to_nat m) 0).
  - destruct (Z.to_nat m) as [| len'] eqn:Hlen; [lia |].
    cbn [app]. unfold step_count. f_equal. f_equal.
    + unfold baseline_counts, py_range.
      replace (Z.to_nat (m - 1)) with len' by lia.
      rewrite map_map. apply map_ext. intros j.
      unfold window_start, window_end. f_equal; lia.
    + f_equal. unfold current_count, window_start, window_end.
      replace (m - 1) with (Z.of_nat len') by lia. f_equal; lia.
  - lia.
  - intros j Hj. split.
    + apply Hrange. lia.
    + replace (end_date - num_of_all_days + num_of_interval_days
               + Z.of_nat j * num_of_interval_days)
        with (end_date - num_of_all_days + (Z.of_nat j + 1) *
            num_of_interval_days)
        by lia.
      apply Hrange. lia.
Qed.

Lemma distinct_ids_In (x : Z) (l : list Z) : In x l -> In x (distinct_ids l).
Proof.
  induction l as [| y l IH]; simpl; [tauto |].
  intros [-> | H].
  - destruct (existsb (Z.eqb x) l) eqn:E; [| left; reflexivity].
    apply IH. apply existsb_exists in E. destruct E as (z & Hz & Hxz).
    apply Z.eqb_eq in Hxz. subst. exact Hz.
  - destruct (existsb (Z.eqb y) l); [| right]; apply IH; exact H.
Qed.

Lemma window_count_pos (df_slice : list record) (lo hi : Z) (r : record) :
  In r df_slice -> in_window lo hi r = true ->
  1 <= window_count df_slice lo hi.
Proof.
  intros Hin Hw. unfold window_count, count_unique.
  assert (H : In (id r)
    (distinct_ids (map id (filter (in_window lo hi) df_slice)))).
  { apply distinct_ids_In. apply in_map. apply filter_In. auto. }
  destruct (distinct_ids _); [contradiction | simpl List.length; lia].
Qed.

(** C5.  Both ends of a window are inclusive: a record updated on the end
    date of window [i] is selected and counted in window [i], and, that
    date being the start date of window [i + 1], in window [i + 1] as well;
    these are the counts the loop returns. *)
Theorem window_bounds_inclusive (df_slice : list record)
    (num_of_all_days num_of_interval_days end_date : Z) (prev : option Z)
    (r : record) (i : Z) :
  period_in_range end_date num_of_all_days num_of_interval_days ->
  let m := num_of_all_days / num_of_interval_days in
  let lo := window_start end_date num_of_all_days num_of_interval_days in
  let hi := window_end end_date num_of_all_days num_of_interval_days in
  In r df_slice ->
  0 <= i < m ->
  updated r = hi i ->
  in_window (lo i) (hi i) r = true /\
  1 <= window_count df_slice (lo i) (hi i) /\
  (i + 1 < m ->
   hi i = lo (i + 1) /\
   in_window (lo (i + 1)) (hi (i + 1)) r = true /\
   1 <= window_count df_slice (lo (i + 1)) (hi (i + 1))) /\
  count_windows df_slice num_of_interval_days m (py_range m)
    (end_date - num_of_all_days)
    (end_date - num_of_all_days + num_of_interval_days) [] prev
  = Ok (map (fun k => window_count df_slice (lo k) (hi k)) (py_range (m - 1)),
        Some (window_count df_slice (lo (m - 1)) (hi (m - 1)))).
Proof.
  intros Hp m lo hi Hin Hi Hu.
  assert (Hpos : 0 < num_of_interval_days) by
    (destruct Hp as ((? & ?) & _); assumption).
  assert (Hw : in_window (lo i) (hi i) r = true).
  { unfold in_window, lo, hi, window_start, window_end in *.
    rewrite Hu. apply andb_true_iff. rewrite !Z.leb_le. lia. }
  split; [exact Hw |].
  split; [exact (window_count_pos _ _ _ _ Hin Hw) |].
  split.
  - intros Hnext.
    assert (Hw' : in_window (lo (i + 1)) (hi (i + 1)) r = true).
    { unfold in_window, lo, hi, window_start, window_end in *.
      rewrite Hu. apply andb_true_iff. rewrite !Z.leb_le. lia. }
    split; [unfold lo, hi, window_start, window_end; lia |].
    split; [exact Hw' |]. exact (window_count_pos _ _ _ _ Hin Hw').
  - exact (count_windows_period df_slice _ _ _ prev Hp).
Qed.

Lemma window_bounds_inclusive_witness :
  period_in_range april_first_2017 28 7 /\
  In boundary_task [boundary_task] /\
  0 <= 1 < 28 / 7 /\
  updated boundary_task = window_end april_first_2017 28 7 1 /\
  window_count [boundary_task] (window_start april_first_2017 28 7 1)
    (window_end april_first_2017 28 7 1) = 1 /\
  window_count [boundary_task] (window_start april_first_2017 28 7 2)
    (window_end april_first_2017 28 7 2) = 1 /\
  count_windows [boundary_task] 7 (28 / 7) (py_range (28 / 7))
    (april_first_2017 - 28) (april_first_2017 - 28 + 7) [] None
  = Ok ([0; 1; 1], Some 0).
Proof.
  assert (Hp : period_in_range april_first_2017 28 7).
  { unfold period_in_range. repeat split; try lia; vm_compute; reflexivity. }
  assert (Hin : In boundary_task [boundary_task]) by (simpl; auto).
  assert (Hi : 0 <= 1 < 28 / 7) by
    (vm_compute; split; [discriminate | reflexivity]).
  assert (Hu : updated boundary_task = window_end april_first_2017 28 7 1)
    by reflexivity.
  pose proof (window_bounds_inclusive [boundary_task] 28 7 april_first_2017
                None boundary_task 1 Hp Hin Hi Hu) as H.
  cbv zeta in H. destruct H as (_ & _ & _ & Hloop).
  split; [exact Hp |]. split; [exact Hin |]. split; [exact Hi |].
  split; [exact Hu |].
  split; [vm_compute; reflexivity |]. split; [vm_compute; reflexivity |].
  rewrite Hloop. vm_compute. reflexivity.
Defined.






(** ** C4 and C10: the rows of the output table *)

Lemma map_CVal_injective (t t' : list value) :
  map CVal t = map CVal t' -> t = t'.
Proof.
  revert t'. induction t as [| v t IH]; intros [| v' t'] H; simpl in H;
    try discriminate; [reflexivity |].
  injection H as -> H. f_equal. apply IH. exact H.
Qed.

Lemma Forall2_map_r {A B C : Type} (P : A -> C -> Prop) (f : B -> C)
    (l : list A) (l' : list B) :
  Forall2 P l (map f l') <-> Forall2 (fun a b => P a (f b)) l l'.
Proof.
  revert l. induction l' as [| b l' IH]; intros l; simpl; split; intros H;
    inversion H; subst; constructor; try assumption; apply IH; assumption.
Qed.

Lemma Forall2_iff {A B : Type} (P Q : A -> B -> Prop)
    (l : list A) (l' : list B) :
  (forall a b, P a b <-> Q a b) -> Forall2 P l l' <-> Forall2 Q l l'.
Proof.
  intros HPQ. split; intros H; induction H; constructor; try apply HPQ; auto.
Qed.

(** The rows of a table the method produced, restricted to the dimension
    columns, are the tuples of [itertools.product] over the columns'
    [unique] values, in that order. *)
Lemma scoring_table_rows (raw : DataFrame) (columns_list : list string)
    (num_of_all_days num_of_interval_days end_date : Z) (df : dict) :
  NoDup columns_list ->
  (forall c, In c columns_list -> ~ In c stat_names) ->
  scoring_table raw columns_list num_of_all_days num_of_interval_days end_date
    = Ok df ->
  frame_rows df columns_list
  = map (map CVal)
      (product (map (fun c => unique (column_values raw c)) columns_list)) /\
  frame_height df
  = List.length
      (product (map (fun c => unique (column_values raw c)) columns_list)).
Proof.
  intros Hnd Hns Hdf.
  destruct (scoring_table_inv raw columns_list num_of_all_days
              num_of_interval_days end_date Hnd Hns df Hdf) as (rows & Hinv).
  split.
  - apply (table_inv_rows raw columns_list num_of_all_days num_of_interval_days
             end_date df _ rows Hinv).
    apply Forall_forall. intros t Ht.
    rewrite product_lex in Ht. apply lex_product_In in Ht.
    apply Forall2_length in Ht. rewrite length_map in Ht. exact Ht.
  - destruct Hinv as (Hhd & H1 & _ & _ & _ & _ & Hrows).
    rewrite (frame_height_head _ _ Hhd). unfold frame_column. rewrite H1.
    rewrite length_map. symmetry. exact (Forall2_length Hrows).
Qed.

(** C4.  For a valid configuration the method builds its output table,
    and every table it builds has exactly one row per tuple of the Cartesian
    product of the dimensions' distinct values: as many rows as the product
    of the numbers of distinct values, no row twice, and a row for a tuple
    exactly when each of its components occurs in its column of the loaded
    table, whether or not any record carries the whole tuple. *)
Theorem output_rows_cartesian_product (raw : DataFrame)
    (columns_list : list string)
    (num_of_all_days num_of_interval_days end_date : Z) :
  NoDup columns_list ->
  (forall c, In c columns_list -> ~ In c stat_names) ->
  (valid_configuration raw columns_list num_of_all_days num_of_interval_days
     end_date ->
   exists df,
     scoring_table raw columns_list num_of_all_days num_of_interval_days
       end_date = Ok df) /\
  forall df,
    scoring_table raw columns_list num_of_all_days num_of_interval_days
      end_date = Ok df ->
    let rows := frame_rows df columns_list in
    frame_height df = List.length rows /\
    List.length rows
    = fold_right Nat.mul 1%nat
        (map (fun c => List.length (unique (column_values raw c)))
           columns_list) /\
    NoDup rows /\
    (forall row, In row rows -> exists t, row = map CVal t) /\
    (forall t, In (map CVal t) rows <->
               Forall2 (fun v c => In v (column_values raw c)) t columns_list).
Proof.
  intros Hnd Hns. split.
  { intros (Hne & Hex & Hp & Hw & Hsmall).
    exact (scoring_table_total raw columns_list num_of_all_days
             num_of_interval_days end_date Hnd Hns Hne Hex Hp Hw Hsmall). }
  intros df Hdf rows.
  destruct (scoring_table_rows _ _ _ _ _ _ Hnd Hns Hdf) as [Hrows Hheight].
  unfold rows. rewrite Hrows, Hheight, length_map, product_lex.
  split; [reflexivity |].
  split; [rewrite lex_product_length, map_map; reflexivity |].
  split.
  { apply NoDup_map_injective; [exact map_CVal_injective |].
    apply lex_product_NoDup. apply Forall_forall. intros pool Hpool.
    apply in_map_iff in Hpool. destruct Hpool as (c & <- & _).
    rewrite unique_first_occurrences. apply first_occurrences_NoDup. }
  split.
  { intros row Hrow. apply in_map_iff in Hrow. destruct Hrow as (t & <- & _).
    exists t. reflexivity. }
  intros t.
  assert (Hmem : In t (lex_product
                         (map (fun c => unique (column_values raw c))
                             columns_list))
                 <-> Forall2 (fun v c => In v (column_values raw c)) t
                     columns_list).
  { rewrite lex_product_In.
    rewrite (Forall2_map_r (@In value) (fun c => unique (column_values raw c))).
    apply Forall2_iff. intros v c.
    rewrite unique_first_occurrences. apply first_occurrences_In. }
  rewrite <- Hmem, in_map_iff. split.
  - intros (t' & E & Ht'). apply map_CVal_injective in E. subst t'. exact Ht'.
  - intros H. exists t. split; [reflexivity | exact H].
Qed.

Lemma output_rows_cartesian_product_witness :
  NoDup two_dimensions_columns /\
  (forall c, In c two_dimensions_columns -> ~ In c stat_names) /\
  valid_configuration two_dimensions two_dimensions_columns 28 7
    april_first_2017 /\
  scoring_table two_dimensions two_dimensions_columns 28 7 april_first_2017
  = Ok two_dimensions_output /\
  List.length (frame_rows two_dimensions_output two_dimensions_columns)
  = 4%nat /\
  NoDup (frame_rows two_dimensions_output two_dimensions_columns) /\
  In [CVal (VStr "b"); CVal (VStr "ru")]
     (frame_rows two_dimensions_output two_dimensions_columns).
Proof.
  assert (Hnd : NoDup two_dimensions_columns)
    by (repeat constructor; simpl; intuition discriminate).
  assert (Hns : forall c, In c two_dimensions_columns -> ~ In c stat_names)
    by (intros c Hc Hs; simpl in Hc, Hs; intuition (subst; discriminate)).
  assert (Hv : valid_configuration two_dimensions two_dimensions_columns 28 7
                 april_first_2017).
  { unfold valid_configuration, period_in_range.
    split; [discriminate |].
    split; [intros c Hc; simpl in Hc; simpl; tauto |].
    repeat split; try lia; vm_compute; reflexivity. }
  assert (Hdf : scoring_table two_dimensions two_dimensions_columns 28 7
                  april_first_2017 = Ok two_dimensions_output)
    by (vm_compute; reflexivity).
  pose proof (proj2 (output_rows_cartesian_product two_dimensions
                       two_dimensions_columns 28 7 april_first_2017 Hnd Hns)
                two_dimensions_output Hdf) as H.
  cbv zeta in H. destruct H as (_ & Hlen & Hnodup & _ & Hmem).
  split; [exact Hnd |]. split; [exact Hns |]. split; [exact Hv |].
  split; [exact Hdf |].
  split; [rewrite Hlen; reflexivity |]. split; [exact Hnodup |].
  apply (Hmem [VStr "b"; VStr "ru"]).
  unfold two_dimensions_columns.
  constructor; [vm_compute; tauto |].
  constructor; [vm_compute; tauto | constructor].
Defined.

(** C10.  For a valid configuration the method builds its output table,
    and in every table it builds the rows come in lexicographic order of the
    Cartesian product, the first listed dimension varying slowest and the
    last fastest, each dimension's distinct values being taken in the order
    of their first appearance in the loaded table; the order depends on the
    table and on [columns_list] only. *)
Theorem output_rows_order (raw : DataFrame) (columns_list : list string)
    (num_of_all_days num_of_interval_days end_date : Z) :
  NoDup columns_list ->
  (forall c, In c columns_list -> ~ In c stat_names) ->
  (valid_configuration raw columns_list num_of_all_days num_of_interval_days
     end_date ->
   exists df,
     scoring_table raw columns_list num_of_all_days num_of_interval_days
       end_date = Ok df) /\
  forall df,
    scoring_table raw columns_list num_of_all_days num_of_interval_days
      end_date = Ok df ->
    frame_rows df columns_list
    = map (map CVal)
        (lex_product
           (map (fun c => first_occurrences (column_values raw c))
              columns_list)).
Proof.
  intros Hnd Hns. split.
  { intros (Hne & Hex & Hp & Hw & Hsmall).
    exact (scoring_table_total raw columns_list num_of_all_days
             num_of_interval_days end_date Hnd Hns Hne Hex Hp Hw Hsmall). }
  intros df Hdf.
  destruct (scoring_table_rows _ _ _ _ _ _ Hnd Hns Hdf) as [-> _].
  rewrite product_lex. f_equal. f_equal.
  apply map_ext. intros c. apply unique_first_occurrences.
Qed.

Lemma output_rows_order_witness :
  NoDup two_dimensions_columns /\
  (forall c, In c two_dimensions_columns -> ~ In c stat_names) /\
  scoring_table two_dimensions two_dimensions_columns 28 7 april_first_2017
  = Ok two_dimensions_output /\
  frame_rows two_dimensions_output two_dimensions_columns
  = [[CVal (VStr "b"); CVal (VStr "us")]; [CVal (VStr "b"); CVal (VStr "ru")];
     [CVal (VStr "a"); CVal (VStr "us")]; [CVal (VStr "a"); CVal (VStr "ru")]].
Proof.
  assert (Hnd : NoDup two_dimensions_columns)
    by (repeat constructor; simpl; intuition discriminate).
  assert (Hns : forall c, In c two_dimensions_columns -> ~ In c stat_names)
    by (intros c Hc Hs; simpl in Hc, Hs; intuition (subst; discriminate)).
  assert (Hdf : scoring_table two_dimensions two_dimensions_columns 28 7
                  april_first_2017 = Ok two_dimensions_output)
    by (vm_compute; reflexivity).
  split; [exact Hnd |]. split; [exact Hns |]. split; [exact Hdf |].
  rewrite (proj2 (output_rows_order two_dimensions two_dimensions_columns 28 7
                    april_first_2017 Hnd Hns) two_dimensions_output Hdf).
  vm_compute. reflexivity.
Defined.

(** ** C2: invalid configurations *)

(** *** No step raises [ConfigurationError] *)

Lemma bind_never {A B : Type} (e : exn) (c : result A) (k : A -> result B) :
  never_raises e c -> (forall a, c = Ok a -> never_raises e (k a)) ->
  never_raises e (bind c k).
Proof.
  unfold never_raises. intros Hc Hk.
  destruct c as [a | e']; simpl; [apply Hk; reflexivity |].
  intros E. apply Hc. injection E as ->. reflexivity.
Qed.

Ltac never_leaf :=
  unfold never_raises;
  repeat match goal with
         | |- context [if ?b then _ else _] => destruct b
         | |- context [match ?x with _ => _ end] => destruct x
         end;
  discriminate.

Local Abbreviation no_cfg := (never_raises ConfigurationError).

Lemma get_column_no_cfg raw column : no_cfg (get_column raw column).
Proof. unfold get_column. never_leaf. Qed.

Lemma nth_value_no_cfg (values : list value) i :
  no_cfg (match nth_error values i with
          | Some v => Ok v
          | None => Raise KeyError
          end).
Proof. never_leaf. Qed.

Lemma slice_mask_no_cfg raw columns : forall i values m,
  no_cfg (slice_mask raw columns i values m).
Proof.
  induction columns as [| col rest IH]; intros i values m; simpl;
    [discriminate |].
  apply bind_never; [apply get_column_no_cfg | intros series _].
  apply bind_never; [apply nth_value_no_cfg | intros v _]. apply IH.
Qed.

Lemma get_dataframe_slice_no_cfg raw columns values :
  no_cfg (get_dataframe_slice raw columns values).
Proof.
  unfold get_dataframe_slice.
  apply bind_never; [apply slice_mask_no_cfg | intros m _].
  unfold getitem_mask. never_leaf.
Qed.

Lemma date_add_no_cfg d delta : no_cfg (date_add d delta).
Proof. unfold date_add. never_leaf. Qed.

Lemma count_windows_no_cfg df delta m indices : forall f s hist cur,
  no_cfg (count_windows df delta m indices f s hist cur).
Proof.
  induction indices as [| i rest IH]; intros f s hist cur; simpl;
    [discriminate |].
  apply bind_never; [apply date_add_no_cfg | intros f' _].
  apply bind_never; [apply date_add_no_cfg | intros s' _].
  destruct (negb (i =? m - 1)); apply IH.
Qed.

Lemma float_sqrt_no_cfg x : no_cfg (F.math_sqrt x).
Proof. unfold F.math_sqrt. never_leaf. Qed.

Lemma mt_sqrt_no_cfg a : no_cfg (mt_sqrt a).
Proof.
  unfold mt_sqrt, F.math_sqrt. never_leaf.
Qed.

Lemma num_truediv_no_cfg a b : no_cfg (num_truediv a b).
Proof. unfold num_truediv. never_leaf. Qed.

Lemma num_pow2_no_cfg a : no_cfg (num_pow2 a).
Proof. unfold num_pow2. never_leaf. Qed.

Lemma squared_deviations_no_cfg avg hist : forall acc,
  no_cfg (squared_deviations avg hist acc).
Proof.
  induction hist as [| n rest IH]; intros acc; simpl; [discriminate |].
  apply bind_never; [apply num_pow2_no_cfg | intros p _]. apply IH.
Qed.

Lemma baseline_stats_no_cfg hist m : no_cfg (baseline_stats hist m).
Proof.
  unfold baseline_stats.
  apply bind_never; [apply squared_deviations_no_cfg | intros xs _].
  apply bind_never; [apply num_truediv_no_cfg | intros q _].
  apply bind_never; [apply mt_sqrt_no_cfg | intros s _].
  apply bind_never; [apply mt_sqrt_no_cfg | intros r _].
  apply bind_never; [apply num_truediv_no_cfg | intros q' _].
  discriminate.
Qed.

Lemma py_int_no_cfg a : no_cfg (py_int a).
Proof. unfold py_int, F.trunc. never_leaf. Qed.

Lemma borders_no_cfg s : no_cfg (borders s).
Proof.
  unfold borders.
  apply bind_never; [apply py_int_no_cfg | intros l _].
  apply bind_never; [apply py_int_no_cfg | intros r _].
  discriminate.
Qed.

Lemma score_slice_no_cfg df a b e prev : no_cfg (score_slice df a b e prev).
Proof.
  unfold score_slice.
  apply bind_never; [unfold strptime_date; never_leaf | intros ? _].
  apply bind_never; [unfold timedelta; never_leaf | intros ? _].
  apply bind_never; [unfold date_sub; never_leaf | intros ? _].
  apply bind_never; [unfold timedelta; never_leaf | intros ? _].
  apply bind_never; [apply date_add_no_cfg | intros ? _].
  apply bind_never; [unfold num_intervals; never_leaf | intros ? _].
  apply bind_never; [apply count_windows_no_cfg | intros [hist cur] _].
  apply bind_never; [apply baseline_stats_no_cfg | intros s _].
  apply bind_never; [apply borders_no_cfg | intros [l r] _].
  apply bind_never; [never_leaf | intros c _].
  discriminate.
Qed.

Lemma dict_append_no_cfg d k x : no_cfg (dict_append d k x).
Proof.
  induction d as [| [k' l] d IH]; simpl; [discriminate |].
  destruct (String.eqb k k'); [discriminate |].
  apply bind_never; [exact IH | intros ? _; discriminate].
Qed.

Lemma append_values_no_cfg cols : forall data i values,
  no_cfg (append_values data cols i values).
Proof.
  induction cols as [| c rest IH]; intros data i values; simpl;
    [discriminate |].
  apply bind_never; [apply nth_value_no_cfg | intros v _].
  apply bind_never; [apply dict_append_no_cfg | intros d _]. apply IH.
Qed.

Lemma partition_step_no_cfg raw cols a b e st values :
  no_cfg (partition_step raw cols a b e st values).
Proof.
  unfold partition_step. destruct st as [data prev].
  apply bind_never; [apply get_dataframe_slice_no_cfg | intros df _].
  apply bind_never; [apply score_slice_no_cfg | intros [[sc cur] s] _].
  apply bind_never; [apply dict_append_no_cfg | intros ? _].
  apply bind_never; [apply dict_append_no_cfg | intros ? _].
  apply bind_never; [apply dict_append_no_cfg | intros ? _].
  apply bind_never; [apply dict_append_no_cfg | intros ? _].
  apply bind_never; [apply append_values_no_cfg | intros ? _].
  discriminate.
Qed.

Lemma partitions_loop_no_cfg raw cols a b e tuples : forall st,
  no_cfg (partitions_loop raw cols a b e tuples st).
Proof.
  induction tuples as [| values rest IH]; intros st; simpl; [discriminate |].
  apply bind_never; [apply partition_step_no_cfg | intros st' _]. apply IH.
Qed.

Lemma setup_columns_no_cfg raw cols : forall data acc,
  no_cfg (setup_columns raw cols data acc).
Proof.
  induction cols as [| c rest IH]; intros data acc; simpl; [discriminate |].
  apply bind_never; [apply get_column_no_cfg | intros series _]. apply IH.
Qed.

Lemma scoring_table_no_cfg raw cols a b e :
  no_cfg (scoring_table raw cols a b e).
Proof.
  unfold scoring_table.
  apply bind_never; [apply setup_columns_no_cfg | intros [data pools] _].
  apply bind_never; [apply partitions_loop_no_cfg | intros [data' cur] _].
  unfold frame_of_dict. never_leaf.
Qed.

(** *** What an invalid configuration does *)

Lemma baseline_stats_empty_raises (num_of_intervals : Z) :
  num_of_intervals < 2 ->
  exists e, baseline_stats [] num_of_intervals = Raise e.
Proof.
  intros Hm. unfold baseline_stats. cbn
    [squared_deviations bind py_sum fold_left round2].
  destruct (Z.eq_dec num_of_intervals 1) as [-> | Hne].
  { eexists. reflexivity. }
  assert (Hneg : num_of_intervals - 1 < 0) by lia.
  destruct (num_of_intervals - 1) as [| p | p] eqn:Hp; try lia.
  unfold num_truediv. cbn [is_np orb as_float].
  rewrite (of_Z_nonzero (Zneg p)) by discriminate.
  cbn [bind round2].
  assert (Hq : F.div (F.of_Z 0) (F.of_Z (Zneg p)) = S754_zero true).
  { pose proof (of_Z_neg p) as H.
    destruct (F.of_Z (Zneg p)) as [| [] | | [] m e]; try contradiction;
      reflexivity. }
  rewrite Hq. cbn [F.py_round2 mt_sqrt F.math_sqrt bind F.sqrt SFsqrt].
  destruct num_of_intervals as [| n | n]; try lia.
  - eexists. reflexivity.
  - unfold mt_sqrt. pose proof (of_Z_neg n) as H.
    destruct (F.of_Z (Zneg n)) as [| [] | | [] m e]; try contradiction;
      eexists; reflexivity.
Qed.

Lemma count_windows_short (df : list record) (delta m f s : Z)
    (cur cur' : option Z) (hist : list Z) :
  m < 2 ->
  count_windows df delta m (py_range m) f s [] cur = Ok (hist, cur') ->
  hist = [].
Proof.
  intros Hm. unfold py_range.
  destruct (Z.to_nat m) as [| [| n]] eqn:E; [| | lia]; simpl.
  - intros H. injection H as <- _. reflexivity.
  - assert (m = 1) by lia. subst m. simpl.
    destruct (date_add f delta); [| discriminate].
    destruct (date_add s delta); [| discriminate]. simpl.
    intros H. injection H as <- _. reflexivity.
Qed.

(** A zero [interval_days], or fewer than two windows, makes the scoring
    of any slice end in an exception. *)
Lemma score_slice_invalid (df : DataFrame)
    (num_of_all_days num_of_interval_days end_date : Z) (prev : option Z) :
  num_of_interval_days = 0 \/
  Z.quot num_of_all_days num_of_interval_days < 2 ->
  exists e,
    score_slice df num_of_all_days num_of_interval_days end_date prev = Raise e.
Proof.
  intros Hbad. unfold score_slice.
  destruct (strptime_date end_date); [| eexists; reflexivity]. cbn [bind].
  destruct (timedelta num_of_all_days); [| eexists; reflexivity]. cbn [bind].
  destruct (date_sub _ _); [| eexists; reflexivity]. cbn [bind].
  destruct (timedelta num_of_interval_days); [| eexists; reflexivity].
  cbn [bind].
  destruct (date_add _ _); [| eexists; reflexivity]. cbn [bind].
  unfold num_intervals.
  destruct (Z.eqb_spec num_of_interval_days 0) as [| Hnz];
    [eexists; reflexivity |].
  destruct Hbad as [| Hm]; [contradiction |]. cbn [bind].
  destruct (count_windows _ _ _ _ _ _ _ _) as [[hist cur] | e] eqn:Hc;
    [| eexists; reflexivity].
  apply count_windows_short in Hc; [| exact Hm]. subst hist. cbn [bind].
  destruct (baseline_stats_empty_raises _ Hm) as (e & ->).
  eexists. reflexivity.
Qed.

Lemma unique_nonempty (l : list value) : l <> [] -> unique l <> [].
Proof.
  rewrite unique_first_occurrences. destruct l; [congruence | discriminate].
Qed.

Lemma lex_product_nonempty (pools : list (list value)) :
  Forall (fun pool => pool <> []) pools -> lex_product pools <> [].
Proof.
  induction pools as [| pool pools IH]; intros H; simpl; [discriminate |].
  inversion H as [| p ps Hp Hps]; subst. specialize (IH Hps).
  destruct pool as [| x pool]; [congruence |]. simpl.
  destruct (lex_product pools); [congruence | discriminate].
Qed.

Lemma get_column_length (raw : DataFrame) (column : string)
    (series : list value) :
  get_column raw column = Ok series ->
  List.length series = List.length (records raw).
Proof.
  unfold get_column.
  repeat match goal with
         | |- context [if ?b then _ else _] => destruct b
         | |- context [match ?x with _ => _ end] => destruct x
         end;
  intros H; try discriminate; injection H as <-; apply length_map.
Qed.

Lemma setup_columns_pools (raw : DataFrame) (cols : list string) :
  forall data data' acc acc',
  records raw <> [] ->
  Forall (fun pool => pool <> []) acc ->
  setup_columns raw cols data acc = Ok (data', acc') ->
  Forall (fun pool => pool <> []) acc'.
Proof.
  induction cols as [| c rest IH]; intros data data' acc acc' Hne Hacc H.
  - simpl in H. injection H as _ <-. exact Hacc.
  - simpl in H. inv_bind H. eapply IH; [exact Hne | | exact H].
    apply Forall_app. split; [exact Hacc |].
    constructor; [| constructor]. apply unique_nonempty.
    apply get_column_length in Hx. destruct x; [| discriminate].
    simpl in Hx. destruct (records raw); [congruence | discriminate].
Qed.

(** With at least one record loaded, an invalid configuration makes the
    method raise: in the columns loop when a name is not a column, in the
    first partition otherwise. *)
Lemma scoring_table_invalid (raw : DataFrame) (columns_list : list string)
    (num_of_all_days num_of_interval_days end_date : Z) :
  records raw <> [] ->
  num_of_interval_days = 0 \/
  Z.quot num_of_all_days num_of_interval_days < 2 ->
  exists e,
    scoring_table raw columns_list num_of_all_days num_of_interval_days end_date
    = Raise e.
Proof.
  intros Hne Hbad. unfold scoring_table.
  destruct (setup_columns raw columns_list initial_data []) as
    [[data pools] | e]
    eqn:Hs; [| eexists; reflexivity].
  cbn [bind].
  apply setup_columns_pools in Hs; [| exact Hne | constructor].
  rewrite product_lex.
  pose proof (lex_product_nonempty pools Hs) as Hp.
  destruct (lex_product pools) as [| values rest]; [congruence |].
  cbn [partitions_loop]. unfold partition_step at 1.
  destruct (get_dataframe_slice raw columns_list values) as [df |];
    [| eexists; reflexivity].
  cbn [bind].
  destruct (score_slice_invalid df num_of_all_days num_of_interval_days
              end_date None Hbad) as (e & ->).
  eexists. reflexivity.
Qed.

(** The statistics of an empty baseline series: the division of line 211
    or of line 213 fails for one window or none, the square root of line
    213 for a negative number of windows. *)
Lemma baseline_stats_empty_exn (num_of_intervals : Z) :
  - 999999999 <= num_of_intervals < 2 ->
  baseline_stats [] num_of_intervals
  = Raise (if 0 <=? num_of_intervals then ZeroDivisionError else ValueError).
Proof.
  intros Hm. unfold baseline_stats. cbn
    [squared_deviations bind py_sum fold_left round2].
  destruct (Z.eq_dec num_of_intervals 1) as [-> | Hne]; [reflexivity |].
  assert (Hneg : num_of_intervals - 1 < 0) by lia.
  destruct (num_of_intervals - 1) as [| p | p] eqn:Hp; try lia.
  unfold num_truediv. cbn [is_np orb as_float].
  rewrite (of_Z_nonzero (Zneg p)) by discriminate.
  cbn [bind round2].
  assert (Hq : F.div (F.of_Z 0) (F.of_Z (Zneg p)) = S754_zero true).
  { pose proof (of_Z_neg p) as H.
    destruct (F.of_Z (Zneg p)) as [| [] | | [] m e]; try contradiction;
      reflexivity. }
  rewrite Hq. cbn [F.py_round2 mt_sqrt F.math_sqrt bind F.sqrt SFsqrt].
  destruct num_of_intervals as [| n | n]; try lia.
  - reflexivity.
  - unfold mt_sqrt.
    assert (Hn : Zpos n < 2 ^ 1023).
    { apply Z.le_lt_trans with (2 ^ 30); [lia |].
      apply Z.pow_lt_mono_r; lia. }
    destruct (of_Z_neg_finite n Hn) as (m & e & ->). reflexivity.
Qed.

Lemma count_windows_overflow (df : list record) (delta m : Z)
    (indices : list Z) :
  forall (f s : Z) (hist : list Z) (cur : option Z) (e : exn),
  count_windows df delta m indices f s hist cur = Raise e ->
  e = OverflowError.
Proof.
  induction indices as [| i rest IH]; intros f s hist cur e H;
    cbn [count_windows] in H; [discriminate |].
  unfold date_add in H.
  destruct (date_ok (f + delta)); cbn [bind] in H; [| congruence].
  destruct (date_ok (s + delta)); cbn [bind] in H; [| congruence].
  destruct (negb (i =? m - 1)); exact (IH _ _ _ _ _ H).
Qed.

(** A zero [interval_days], or fewer than two windows, makes the scoring
    of any slice end in a [ZeroDivisionError], a [ValueError] or an
    [OverflowError]; which one is decided by the period alone when its
    first dates are in range. *)
Lemma score_slice_invalid_exn (df : DataFrame)
    (num_of_all_days num_of_interval_days end_date : Z) (prev : option Z) :
  num_of_interval_days = 0 \/
  Z.quot num_of_all_days num_of_interval_days < 2 ->
  exists e,
    score_slice df num_of_all_days num_of_interval_days end_date prev
    = Raise e /\
    (e = ZeroDivisionError \/ e = ValueError \/ e = OverflowError) /\
    (first_dates_in_range end_date num_of_all_days num_of_interval_days ->
     (num_of_interval_days = 0 \/
      0 <= Z.quot num_of_all_days num_of_interval_days ->
      e = ZeroDivisionError) /\
     (num_of_interval_days <> 0 ->
      Z.quot num_of_all_days num_of_interval_days < 0 ->
      e = ValueError)).
Proof.
  intros Hbad. unfold score_slice, strptime_date, timedelta, date_sub, date_add.
  destruct (date_ok end_date) eqn:He; cbn [bind].
  2: { eexists. split; [reflexivity |]. split; [tauto |].
       intros (H & _). congruence. }
  destruct (Z.leb_spec (Z.abs num_of_all_days) 999999999) as [Ha | Ha];
    cbn [bind].
  2: { eexists. split; [reflexivity |]. split; [tauto |].
       intros (_ & H & _). lia. }
  destruct (date_ok (end_date - num_of_all_days)) eqn:Hs; cbn [bind].
  2: { eexists. split; [reflexivity |]. split; [tauto |].
       intros (_ & _ & _ & H & _). congruence. }
  destruct (Z.leb_spec (Z.abs num_of_interval_days) 999999999) as [Hi | Hi];
    cbn [bind].
  2: { eexists. split; [reflexivity |]. split; [tauto |].
       intros (_ & _ & H & _). lia. }
  destruct (date_ok (end_date - num_of_all_days + num_of_interval_days))
    eqn:Hs1; cbn [bind].
  2: { eexists. split; [reflexivity |]. split; [tauto |].
       intros (_ & _ & _ & _ & H & _). congruence. }
  unfold num_intervals.
  destruct (Z.eqb_spec num_of_interval_days 0) as [Hz | Hnz]; cbn [bind].
  { eexists. split; [reflexivity |]. split; [tauto |].
    intros _. split; [reflexivity | intros; contradiction]. }
  destruct Hbad as [| Hm]; [contradiction |].
  set (m := Z.quot num_of_all_days num_of_interval_days) in *.
  destruct (count_windows _ _ _ _ _ _ _ _) as [[hist cur] | e] eqn:Hc;
    cbn [bind].
  - apply count_windows_short in Hc; [| exact Hm]. subst hist.
    assert (Hmb : - 999999999 <= m < 2).
    { split; [| exact Hm]. unfold m.
      pose proof (Z.quot_abs num_of_all_days num_of_interval_days Hnz).
      assert (Z.abs (Z.quot num_of_all_days num_of_interval_days)
              <= Z.abs num_of_all_days); [| lia].
      rewrite <- Z.quot_abs by exact Hnz.
      apply Z.quot_le_upper_bound; [lia |]. nia. }
    rewrite (baseline_stats_empty_exn m Hmb). cbn [bind].
    eexists. split; [reflexivity |].
    destruct (Z.leb_spec 0 m) as [H0 | H0].
    + split; [tauto |]. intros _. split; [reflexivity | intros; lia].
    + split; [tauto |]. intros _.
      split; [intros [| ]; [contradiction | lia] | reflexivity].
  - pose proof (count_windows_overflow _ _ _ _ _ _ _ _ _ Hc) as ->.
    eexists. split; [reflexivity |]. split; [tauto |].
    intros (_ & _ & _ & _ & _ & Hs2). exfalso.
    revert Hc. unfold py_range.
    destruct (Z.to_nat m) as [| [| n]] eqn:E; [discriminate | | lia].
    cbn [seq map count_windows]. unfold date_add. rewrite Hs1. cbn [bind].
    replace (end_date - num_of_all_days + num_of_interval_days
             + num_of_interval_days)
      with (end_date - num_of_all_days + 2 * num_of_interval_days) by lia.
    rewrite Hs2. cbn [bind].
    destruct (negb (Z.of_nat 0 =? m - 1)); discriminate.
Qed.

Lemma setup_columns_values (raw : DataFrame) (cols : list string) :
  forall (data data' : dict) (acc acc' : list (list value)),
  setup_columns raw cols data acc = Ok (data', acc') ->
  acc' = acc ++ map (fun c => unique (column_values raw c)) cols.
Proof.
  induction cols as [| c rest IH]; intros data data' acc acc' H;
    cbn [setup_columns] in H.
  - injection H as _ <-. rewrite app_nil_r. reflexivity.
  - inv_bind H. rewrite (IH _ _ _ _ H), <- app_assoc. cbn [map app].
    unfold column_values. rewrite Hx. reflexivity.
Qed.

(** With at least one record loaded and dimensions that are columns of the
    table, the method reaches the first partition, and an exception of its
    scoring is the exception of the method. *)
Lemma scoring_table_first_partition (raw : DataFrame)
    (columns_list : list string)
    (num_of_all_days num_of_interval_days end_date : Z) :
  columns_list <> [] ->
  (forall c, In c columns_list -> In c (column_names raw)) ->
  records raw <> [] ->
  exists values rest df_slice,
    product (map (fun c => unique (column_values raw c)) columns_list)
    = values :: rest /\
    get_dataframe_slice raw columns_list values = Ok df_slice /\
    forall e,
      score_slice df_slice num_of_all_days num_of_interval_days end_date None
      = Raise e ->
      scoring_table raw columns_list num_of_all_days num_of_interval_days
        end_date = Raise e.
Proof.
  intros Hne Hex Hrec. unfold scoring_table.
  destruct (setup_columns_total raw columns_list initial_data [] Hex)
    as (data0 & pools & Hsetup).
  rewrite Hsetup. cbn [bind].
  pose proof (setup_columns_values _ _ _ _ _ _ Hsetup) as Hpools.
  cbn [app] in Hpools.
  pose proof (setup_columns_pools raw columns_list _ _ _ _ Hrec
                (Forall_nil _) Hsetup) as Hfull.
  subst pools.
  set (pools := map _ columns_list) in *.
  pose proof (lex_product_nonempty pools Hfull) as Hp.
  rewrite <- product_lex in Hp.
  destruct (product pools) as [| values rest] eqn:Eprod; [congruence |].
  assert (Hlen : List.length values = List.length columns_list).
  { assert (Hin : In values (lex_product pools))
      by (rewrite <- product_lex, Eprod; left; reflexivity).
    apply lex_product_In, Forall2_length in Hin.
    unfold pools in Hin. rewrite length_map in Hin. exact Hin. }
  destruct (get_dataframe_slice_total raw columns_list values Hne Hex Hlen)
    as (df_slice & Hslice & _).
  exists values, rest, df_slice.
  split; [reflexivity |]. split; [exact Hslice |].
  intros e He. cbn [partitions_loop]. unfold partition_step at 1.
  rewrite Hslice. cbn [bind]. rewrite He. reflexivity.
Qed.

(** *** A period counted backwards *)

Lemma window_count_empty (df_slice : list record) (lo hi : Z) :
  hi < lo -> window_count df_slice lo hi = 0.
Proof.
  intros H. unfold window_count.
  assert (E : filter (in_window lo hi) df_slice = []).
  { induction df_slice as [| r l IH]; [reflexivity |]. cbn [filter].
    replace (in_window lo hi r) with false; [exact IH |].
    symmetry. unfold in_window. apply andb_false_iff.
    rewrite !Z.leb_gt. lia. }
  rewrite E. reflexivity.
Qed.

(** With both day counts negative every window ends before it starts, so
    every count is 0 and every slice gets the all-zero statistics. *)
Lemma score_slice_reversed (df_slice : DataFrame)
    (num_of_all_days num_of_interval_days end_date : Z) (prev : option Z) :
  reversed_period end_date num_of_all_days num_of_interval_days ->
  score_slice df_slice num_of_all_days num_of_interval_days end_date prev
  = Ok (0, 0, zero_stats).
Proof.
  intros (Hi & Ha & Hs & Hl).
  set (m := Z.quot num_of_all_days num_of_interval_days) in *.
  assert (Hq : m = (- num_of_all_days) / (- num_of_interval_days)).
  { unfold m. rewrite <- Z.quot_div_nonneg by lia.
    rewrite Z.quot_opp_opp by lia. reflexivity. }
  assert (Hm2 : 2 <= m).
  { rewrite Hq. apply Z.div_le_lower_bound; lia. }
  assert (Hlow : m * (- num_of_interval_days) <= - num_of_all_days).
  { rewrite Hq, Z.mul_comm. apply Z.mul_div_le. lia. }
  assert (Hup : - num_of_all_days < (m + 1) * (- num_of_interval_days)).
  { pose proof (Z.mul_succ_div_gt (- num_of_all_days)
                  (- num_of_interval_days) ltac:(lia)) as H.
    rewrite <- Hq in H. lia. }
  assert (Hmax : m <= 999999999) by nia.
  assert (Hrange : forall j, 0 <= j <= m + 1 ->
            date_ok (end_date - num_of_all_days + j * num_of_interval_days)
            = true).
  { intros j Hj. apply (date_ok_between _ _ _ Hl Hs). nia. }
  unfold score_slice, strptime_date, timedelta, date_sub.
  replace (date_ok end_date) with true
    by (symmetry; apply (date_ok_between _ _ _ Hl Hs); nia).
  cbn [bind].
  replace (Z.abs num_of_all_days <=? 999999999) with true
    by (symmetry; apply Z.leb_le; lia).
  cbn [bind]. rewrite Hs. cbn [bind].
  replace (Z.abs num_of_interval_days <=? 999999999) with true
    by (symmetry; apply Z.leb_le; lia).
  cbn [bind].
  rewrite date_add_ok
    by (specialize (Hrange 1 ltac:(lia)); rewrite Z.mul_1_l in Hrange;
        exact Hrange).
  cbn [bind]. unfold num_intervals.
  destruct (Z.eqb_spec num_of_interval_days 0) as [| _]; [lia |].
  cbn [bind]. fold m. unfold py_range.
  rewrite (count_windows_run (records df_slice) num_of_interval_days m
             (Z.to_nat m) 0).
  - destruct (Z.to_nat m) as [| len'] eqn:Hlen; [lia |].
    cbn [bind app].
    assert (Hzero : forall j : nat,
              step_count (records df_slice) num_of_interval_days
                (end_date - num_of_all_days)
                (end_date - num_of_all_days + num_of_interval_days) j = 0).
    { intros j. unfold step_count. apply window_count_empty. lia. }
    rewrite (map_all_zero _ (seq 0 len')) by (intros j _; apply Hzero).
    rewrite Hzero, length_seq.
    replace len' with (Z.to_nat (m - 1)) by lia.
    rewrite (baseline_stats_zeros m) by lia.
    reflexivity.
  - lia.
  - intros j Hj. split.
    + apply Hrange. lia.
    + replace (end_date - num_of_all_days + num_of_interval_days
               + Z.of_nat j * num_of_interval_days)
        with (end_date - num_of_all_days + (Z.of_nat j + 1) *
            num_of_interval_days)
        by lia.
      apply Hrange. lia.
Qed.

Lemma map_all_same {A B : Type} (f : A -> B) (b : B) (l : list A) :
  (forall x, In x l -> f x = b) -> map f l = repeat b (List.length l).
Proof.
  induction l as [| x l IH]; intros H; simpl; [reflexivity |].
  rewrite H by (left; reflexivity). f_equal. apply IH.
  intros y Hy. apply H. right. exact Hy.
Qed.

(** The table written for a period counted backwards: a row of zeros for
    every tuple of the product. *)
Lemma scoring_table_reversed (raw : DataFrame) (columns_list : list string)
    (num_of_all_days num_of_interval_days end_date : Z) :
  NoDup columns_list ->
  (forall c, In c columns_list -> ~ In c stat_names) ->
  columns_list <> [] ->
  (forall c, In c columns_list -> In c (column_names raw)) ->
  reversed_period end_date num_of_all_days num_of_interval_days ->
  let n :=
    List.length
      (product (map (fun c => unique (column_values raw c)) columns_list)) in
  exists df,
    scoring_table raw columns_list num_of_all_days num_of_interval_days
      end_date = Ok df /\
    dict_get df "score_value" = Some (repeat (CNum (PyInt 0)) n) /\
    dict_get df "count_last_period" = Some (repeat (CNum (PyInt 0)) n) /\
    dict_get df "count_sem_calc_period"
    = Some (repeat (CNum (PyFloat F.zero)) n) /\
    dict_get df "count_mean_calc_period"
    = Some (repeat (CNum (NpFloat F.zero)) n).
Proof.
  intros Hnd Hns Hne Hex Hrev n.
  destruct (scoring_table_scored raw columns_list num_of_all_days
              num_of_interval_days end_date Hnd Hns Hne Hex) as (df & Hdf).
  { intros df_slice prev _. eexists.
    apply score_slice_reversed. exact Hrev. }
  exists df. split; [exact Hdf |].
  destruct (scoring_table_inv raw columns_list num_of_all_days
              num_of_interval_days end_date Hnd Hns df Hdf)
    as (rows & _ & H1 & H2 & H3 & H4 & _ & Hrows).
  assert (Hlen : List.length rows = n).
  { symmetry. exact (Forall2_length Hrows). }
  assert (Hall : forall r, In r rows -> r = (0, 0, zero_stats)).
  { intros r Hr. apply In_nth_error in Hr. destruct Hr as (k & Hk).
    clear - Hrows Hk Hrev. revert k Hk.
    induction Hrows as [| t r' ts rs (df_slice & prev & _ & Hs) _ IH];
      intros [| k] Hk; cbn [nth_error] in Hk; try discriminate.
    - injection Hk as ->.
      rewrite (score_slice_reversed _ _ _ _ _ Hrev) in Hs. congruence.
    - exact (IH k Hk). }
  rewrite H1, H2, H3, H4, <- Hlen.
  repeat split; f_equal; apply map_all_same; intros r Hr;
    rewrite (Hall r Hr); reflexivity.
Qed.

(** *** A table without rows *)

Lemma setup_columns_no_rows (raw : DataFrame) (cols : list string) :
  forall (data : dict) (acc : list (list value)),
  records raw = [] ->
  (forall c, In c cols -> In c (column_names raw)) ->
  setup_columns raw cols data acc
  = Ok (fold_left (fun d c => dict_set d c []) cols data,
        acc ++ map (fun _ => []) cols).
Proof.
  induction cols as [| column rest IH]; intros data acc Hrec Hex;
    cbn [setup_columns fold_left map].
  - rewrite app_nil_r. reflexivity.
  - destruct (get_column_total raw column (Hex column (or_introl eq_refl)))
      as (series & Hs).
    rewrite Hs. cbn [bind].
    pose proof (get_column_length raw column series Hs) as Hlen.
    rewrite Hrec in Hlen. destruct series; [| discriminate].
    rewrite IH; [| exact Hrec | intros c Hc; apply Hex; right; exact Hc].
    rewrite <- app_assoc. reflexivity.
Qed.

Lemma dict_set_all_empty (d : dict) (k : string) :
  Forall (fun kv => snd kv = []) d ->
  Forall (fun kv => snd kv = []) (dict_set d k []).
Proof.
  induction d as [| [k' v'] d IH]; intros H; simpl.
  - constructor; [reflexivity | constructor].
  - inversion H; subst. destruct (String.eqb k k'); constructor; auto.
Qed.

Lemma same_lengths_all_empty (d : dict) :
  Forall (fun kv => snd kv = []) d -> same_lengths d = true.
Proof.
  destruct d as [| [k l] rest]; [reflexivity |].
  intros H. inversion H as [| ? ? Hl Hrest]; subst. simpl in Hl. subst l.
  unfold same_lengths. apply forallb_forall. intros [k' l'] Hin.
  rewrite Forall_forall in Hrest. specialize (Hrest _ Hin). simpl in Hrest.
  subst l'. reflexivity.
Qed.

Lemma scoring_table_no_rows (raw : DataFrame) (columns_list : list string)
    (num_of_all_days num_of_interval_days end_date : Z) :
  records raw = [] ->
  columns_list <> [] ->
  (forall c, In c columns_list -> In c (column_names raw)) ->
  scoring_table raw columns_list num_of_all_days num_of_interval_days
    end_date
  = Ok (fold_left (fun d c => dict_set d c []) columns_list initial_data).
Proof.
  intros Hrec Hne Hex. unfold scoring_table.
  rewrite (setup_columns_no_rows raw columns_list initial_data [] Hrec Hex).
  cbn [bind app].
  assert (Hprod : product (map (fun _ : string => @nil value) columns_list)
                  = []).
  { rewrite product_lex. destruct columns_list; [congruence | reflexivity]. }
  rewrite Hprod. cbn [partitions_loop bind]. unfold frame_of_dict.
  rewrite same_lengths_all_empty; [reflexivity |].
  assert (Hall : forall cols d, Forall (fun kv => snd kv = []) d ->
            Forall (fun kv : string * list cell => snd kv = [])
              (fold_left (fun d c => dict_set d c []) cols d)).
  { induction cols as [| c cols IH]; intros d Hd; simpl; [exact Hd |].
    apply IH, dict_set_all_empty, Hd. }
  apply Hall. unfold initial_data. repeat constructor.
Qed.

(** *** The claim *)

(** C2, amended.  The method has no validation step: it never raises
    [ConfigurationError], and whenever it raises the object is left as it
    was.  With no dimension name it raises [KeyError] when it slices the
    table for the single empty tuple.  With a zero [interval_days], or with
    fewer than two windows, and at least one record loaded it always
    raises; with at least one dimension, each a column of the table, the
    exception comes from the scoring of the first partition and is a
    [ZeroDivisionError], a [ValueError] or an [OverflowError]: with the
    first dates in range, [ZeroDivisionError] for a zero interval and for a
    quotient of 0 or 1, [ValueError] for a negative quotient.  A negative
    [interval_days] with a negative [total_days] and a quotient of at least
    2 is accepted: the table is written with a row of zeros for every
    tuple.  On a loaded table without rows every period is accepted and the
    table without rows is written. *)
Theorem invalid_configuration_raises (columns_list : list string)
    (num_of_all_days num_of_interval_days end_date : Z)
    (self : WorkloadScoring) (raw : DataFrame) :
  raw_df self = Some raw ->
  let call := workload_scoring columns_list num_of_all_days
                num_of_interval_days end_date self in
  let m := Z.quot num_of_all_days num_of_interval_days in
  let tuples :=
    product (map (fun c => unique (column_values raw c)) columns_list) in
  fst call <> Raises ConfigurationError /\
  (forall e, fst call = Raises e -> snd call = self) /\
  (columns_list = [] -> call = (Raises KeyError, self)) /\
  (records raw <> [] -> num_of_interval_days = 0 \/ m < 2 ->
   exists e, call = (Raises e, self)) /\
  (columns_list <> [] ->
   (forall c, In c columns_list -> In c (column_names raw)) ->
   records raw <> [] -> num_of_interval_days = 0 \/ m < 2 ->
   exists e values rest df_slice,
     tuples = values :: rest /\
     get_dataframe_slice raw columns_list values = Ok df_slice /\
     score_slice df_slice num_of_all_days num_of_interval_days end_date None
     = Raise e /\
     call = (Raises e, self) /\
     (e = ZeroDivisionError \/ e = ValueError \/ e = OverflowError) /\
     (first_dates_in_range end_date num_of_all_days num_of_interval_days ->
      (num_of_interval_days = 0 \/ 0 <= m -> e = ZeroDivisionError) /\
      (num_of_interval_days <> 0 -> m < 0 -> e = ValueError))) /\
  (NoDup columns_list ->
   (forall c, In c columns_list -> ~ In c stat_names) ->
   columns_list <> [] ->
   (forall c, In c columns_list -> In c (column_names raw)) ->
   reversed_period end_date num_of_all_days num_of_interval_days ->
   exists df,
     call = (Returns None, mk_ws (Some raw) (Some df)) /\
     dict_get df "score_value"
     = Some (repeat (CNum (PyInt 0)) (List.length tuples)) /\
     dict_get df "count_last_period"
     = Some (repeat (CNum (PyInt 0)) (List.length tuples)) /\
     dict_get df "count_sem_calc_period"
     = Some (repeat (CNum (PyFloat F.zero)) (List.length tuples)) /\
     dict_get df "count_mean_calc_period"
     = Some (repeat (CNum (NpFloat F.zero)) (List.length tuples))) /\
  (records raw = [] -> columns_list <> [] ->
   (forall c, In c columns_list -> In c (column_names raw)) ->
   call
   = (Returns None,
      mk_ws (Some raw)
        (Some (fold_left (fun d c => dict_set d c []) columns_list
                 initial_data)))).
Proof.
  intros Hraw call m tuples. unfold call, workload_scoring. rewrite Hraw.
  pose proof (scoring_table_no_cfg raw columns_list num_of_all_days
                num_of_interval_days end_date) as Hno.
  unfold never_raises in Hno.
  split; [| split; [| split; [| split; [| split; [| split]]]]].
  - destruct (scoring_table _ _ _ _ _) as [df | e]; simpl; [discriminate |].
    intros E. apply Hno. injection E as ->. reflexivity.
  - intros e. destruct (scoring_table _ _ _ _ _); simpl;
      [discriminate | reflexivity].
  - intros ->. reflexivity.
  - intros Hne Hbad.
    destruct (scoring_table_invalid raw columns_list num_of_all_days
                num_of_interval_days end_date Hne Hbad) as (e & ->).
    exists e. reflexivity.
  - intros Hne Hex Hrec Hbad.
    destruct (scoring_table_first_partition raw columns_list num_of_all_days
                num_of_interval_days end_date Hne Hex Hrec)
      as (values & rest & df_slice & Hprod & Hslice & Hraise).
    destruct (score_slice_invalid_exn df_slice num_of_all_days
                num_of_interval_days end_date None Hbad)
      as (e & He & Hkind & Hexact).
    exists e, values, rest, df_slice.
    rewrite (Hraise e He).
    repeat split; try assumption; apply Hexact; assumption.
  - intros Hnd Hns Hne Hex Hrev.
    destruct (scoring_table_reversed raw columns_list num_of_all_days
                num_of_interval_days end_date Hnd Hns Hne Hex Hrev)
      as (df & -> & H1 & H2 & H3 & H4).
    exists df. repeat split; assumption.
  - intros Hrec Hne Hex.
    rewrite (scoring_table_no_rows raw columns_list num_of_all_days
               num_of_interval_days end_date Hrec Hne Hex).
    reflexivity.
Qed.

Lemma invalid_configuration_raises_witness :
  let self := mk_ws (Some one_assignee) None in
  raw_df self = Some one_assignee /\
  first_dates_in_range april_first_2017 28 0 /\
  workload_scoring ["assignee"%string] 28 0 april_first_2017 self
  = (Raises ZeroDivisionError, self) /\
  workload_scoring [] 28 7 april_first_2017 self = (Raises KeyError, self) /\
  reversed_period april_first_2017 (-28) (-7) /\
  exists df,
    workload_scoring ["assignee"%string] (-28) (-7) april_first_2017 self
    = (Returns None, mk_ws (Some one_assignee) (Some df)) /\
    dict_get df "count_last_period" = Some [CNum (PyInt 0)].
Proof.
  intros self.
  assert (Hraw : raw_df self = Some one_assignee) by reflexivity.
  assert (Hd : first_dates_in_range april_first_2017 28 0).
  { unfold first_dates_in_range.
    repeat split; try (vm_compute; reflexivity); vm_compute; discriminate. }
  assert (Hrev : reversed_period april_first_2017 (-28) (-7)).
  { unfold reversed_period.
    repeat split; try (vm_compute; reflexivity); vm_compute; discriminate. }
  assert (Hne : ["assignee"%string] <> []) by discriminate.
  assert (Hex : forall c, In c ["assignee"%string] ->
                          In c (column_names one_assignee))
    by (intros c Hc; simpl in Hc; simpl; tauto).
  assert (Hrec : records one_assignee <> []) by (simpl; discriminate).
  assert (Hnd : NoDup ["assignee"%string])
    by (repeat constructor; simpl; tauto).
  assert (Hns : forall c, In c ["assignee"%string] -> ~ In c stat_names)
    by (intros c Hc Hs; simpl in Hc, Hs; intuition (subst; discriminate)).
  split; [exact Hraw |]. split; [exact Hd |].
  split; [| split; [| split; [exact Hrev |]]].
  - pose proof (invalid_configuration_raises ["assignee"%string] 28 0
                  april_first_2017 self one_assignee Hraw) as H.
    cbv zeta in H. destruct H as (_ & _ & _ & _ & H & _).
    destruct (H Hne Hex Hrec (or_introl eq_refl))
      as (e & values & rest & df_slice & _ & _ & _ & Hcall & _ & He).
    rewrite Hcall, (proj1 (He Hd) (or_introl eq_refl)). reflexivity.
  - pose proof (invalid_configuration_raises [] 28 7 april_first_2017 self
                  one_assignee Hraw) as H.
    cbv zeta in H. destruct H as (_ & _ & H & _). exact (H eq_refl).
  - pose proof (invalid_configuration_raises ["assignee"%string] (-28) (-7)
                  april_first_2017 self one_assignee Hraw) as H.
    cbv zeta in H. destruct H as (_ & _ & _ & _ & _ & H & _).
    destruct (H Hnd Hns Hne Hex Hrev) as (df & Hcall & _ & Hcount & _).
    exists df. split; [exact Hcall | exact Hcount].
Defined.

(** C2 as stated fails: no invalid configuration raises
    [ConfigurationError].  On a loaded table without rows a zero interval
    and a single window are accepted and an empty output table is written;
    on a table with rows the exceptions are [ZeroDivisionError],
    [ValueError] and, for no dimension name, [KeyError], and a negative
    interval with a negative number of days is accepted. *)
Lemma invalid_configuration_not_rejected :
  workload_scoring ["assignee"%string] 28 0 april_first_2017
    (mk_ws (Some no_rows) None)
  = (Returns None, mk_ws (Some no_rows) (Some empty_output)) /\
  workload_scoring ["assignee"%string] 7 7 april_first_2017
    (mk_ws (Some no_rows) None)
  = (Returns None, mk_ws (Some no_rows) (Some empty_output)) /\
  fst (workload_scoring ["assignee"%string] 28 0 april_first_2017
         (mk_ws (Some one_assignee) None)) = Raises ZeroDivisionError /\
  fst (workload_scoring ["assignee"%string] 7 7 april_first_2017
         (mk_ws (Some one_assignee) None)) = Raises ZeroDivisionError /\
  fst (workload_scoring ["assignee"%string] 28 (-7) april_first_2017
         (mk_ws (Some one_assignee) None)) = Raises ValueError /\
  fst (workload_scoring [] 28 7 april_first_2017
         (mk_ws (Some one_assignee) None)) = Raises KeyError /\
  fst (workload_scoring ["assignee"%string] (-28) (-7) april_first_2017
         (mk_ws (Some one_assignee) None)) = Returns None.
Proof.
  repeat split; vm_compute; reflexivity.
Qed.

(** * Further properties of the source *)

(** ** Slices, continued *)

Lemma get_column_cells (raw : DataFrame) (column : string)
    (series : list value) :
  get_column raw column = Ok series ->
  series = map (record_cell raw column) (records raw).
Proof.
  unfold get_column, record_cell.
  destruct (String.eqb column "id");
    [intros H; injection H as <-; reflexivity |].
  destruct (String.eqb column "created");
    [intros H; injection H as <-; reflexivity |].
  destruct (String.eqb column "updated");
    [intros H; injection H as <-; reflexivity |].
  destruct (index_of column (dim_names raw)); [| discriminate].
  intros H. injection H as <-. reflexivity.
Qed.

Lemma index_of_None (name : string) (names : list string) :
  ~ In name names -> index_of name names = None.
Proof.
  induction names as [| n names IH]; simpl; [reflexivity |].
  intros H. destruct (String.eqb_spec name n) as [-> | Hne]; [tauto |].
  rewrite IH by tauto. reflexivity.
Qed.

Lemma get_column_unknown (raw : DataFrame) (column : string) :
  ~ In column (column_names raw) -> get_column raw column = Raise KeyError.
Proof.
  unfold column_names, get_column. simpl. intros H.
  destruct (String.eqb_spec column "id"); [subst; tauto |].
  destruct (String.eqb_spec column "created"); [subst; tauto |].
  destruct (String.eqb_spec column "updated"); [subst; tauto |].
  rewrite index_of_None by tauto. reflexivity.
Qed.

Lemma zip_and_map {A : Type} (f g : A -> bool) (l : list A) :
  zip_and (map f l) (map g l) = map (fun x => f x && g x) l.
Proof. induction l as [| x l IH]; simpl; [| rewrite IH]; reflexivity. Qed.

Lemma select_map {A : Type} (f : A -> bool) (l : list A) :
  select l (map f l) = filter f l.
Proof.
  induction l as [| x l IH]; simpl; [reflexivity |].
  destruct (f x); rewrite IH; reflexivity.
Qed.

(** The mask after the columns from position [i] on, started from the
    series of a predicate [f]. *)
Lemma slice_mask_matches (raw : DataFrame) (values : list value)
    (columns : list string) : forall (i : nat) (f : record -> bool) (m : mask),
  (i + List.length columns <= List.length values)%nat ->
  slice_mask raw columns i values (MSeries (map f (records raw))) = Ok m ->
  m = MSeries
        (map (fun r => f r && row_matches raw columns (skipn i values) r)
           (records raw)).
Proof.
  induction columns as [| col rest IH]; intros i f m Hlen H;
    cbn [slice_mask] in H.
  - injection H as <-. f_equal. apply map_ext. intros r.
    cbn [row_matches]. rewrite andb_true_r. reflexivity.
  - inv_bind H. rename x into series.
    apply get_column_cells in Hx. subst series.
    simpl in Hlen.
    destruct (nth_error values i) as [v |] eqn:Hv; [| discriminate].
    inv_bind H. injection Hx as <-.
    cbn [mask_and] in H. rewrite map_map, zip_and_map in H.
    apply IH in H; [| lia]. subst m. f_equal. apply map_ext. intros r.
    assert (Hs : skipn i values = v :: skipn (S i) values).
    { clear - Hv. revert i Hv.
      induction values as [| w values IHv]; intros [| i] Hv; simpl in *;
        try discriminate.
      - injection Hv as ->. reflexivity.
      - apply IHv. exact Hv. }
    rewrite Hs. cbn [row_matches]. rewrite andb_assoc. reflexivity.
Qed.

(** What a slice is whenever one is returned. *)
Lemma get_dataframe_slice_filter (raw : DataFrame) (columns : list string)
    (values : list value) (df_slice : DataFrame) :
  List.length values = List.length columns ->
  get_dataframe_slice raw columns values = Ok df_slice ->
  df_slice
  = mk_df (dim_names raw)
      (filter (row_matches raw columns values) (records raw)).
Proof.
  intros Hlen H. unfold get_dataframe_slice in H. inv_bind H.
  rename x into m, Hx into Hm.
  destruct columns as [| col rest].
  { simpl in Hm. injection Hm as <-. discriminate. }
  cbn [slice_mask] in Hm. inv_bind Hm. rename x into series.
  apply get_column_cells in Hx. subst series.
  destruct values as [| v values]; [discriminate |].
  cbn [nth_error bind mask_and] in Hm. rewrite map_map in Hm.
  apply slice_mask_matches in Hm; [| simpl in *; lia]. subst m.
  cbn [getitem_mask] in H. injection H as <-. f_equal.
  rewrite select_map. apply filter_ext. intros r. reflexivity.
Qed.

Lemma py_eq_true (a b : value) : py_eq a b = true <-> a = b /\ a <> VNaN.
Proof.
  unfold py_eq, value_same.
  destruct a, b; try (destruct (value_eq_dec _ _) as [E | E]);
    split; try (intros [E' N]); try intros H;
    try discriminate; try congruence; try (split; congruence).
Qed.

Lemma row_matches_spec (raw : DataFrame) (r : record) (columns : list string) :
  forall values,
  List.length values = List.length columns ->
  row_matches raw columns values r = true <->
  values = record_tuple raw columns r /\ ~ In VNaN values.
Proof.
  unfold record_tuple.
  induction columns as [| c cs IH]; intros [| v vs] Hlen;
    try discriminate; cbn [row_matches map].
  - split; [intros _; split; [reflexivity | intros []] | reflexivity].
  - simpl in Hlen. injection Hlen as Hlen.
    rewrite andb_true_iff, py_eq_true, (IH vs Hlen). simpl. split.
    + intros ((<- & Hn) & -> & Hin). split; [reflexivity |].
      intros [E | E]; [congruence | tauto].
    + intros (E & Hin). injection E as -> ->.
      repeat split; try reflexivity; intros E; apply Hin; auto.
Qed.

Lemma column_values_cells (raw : DataFrame) (column : string) :
  In column (column_names raw) ->
  column_values raw column = map (record_cell raw column) (records raw).
Proof.
  intros H. unfold column_values.
  destruct (get_column_total raw column H) as (series & Hs).
  rewrite Hs. apply get_column_cells. exact Hs.
Qed.

Lemma record_tuple_in_product (raw : DataFrame) (columns : list string)
    (r : record) :
  (forall c, In c columns -> In c (column_names raw)) ->
  In r (records raw) ->
  In (record_tuple raw columns r)
     (product (map (fun c => unique (column_values raw c)) columns)).
Proof.
  intros Hex Hr. rewrite product_lex. apply lex_product_In.
  unfold record_tuple.
  induction columns as [| c cs IH]; simpl; constructor.
  - rewrite unique_first_occurrences. apply first_occurrences_In.
    rewrite column_values_cells by (apply Hex; left; reflexivity).
    apply in_map. exact Hr.
  - apply IH. intros c' Hc'. apply Hex. right. exact Hc'.
Qed.

(** ** [__get_dataframe_slice] *)

(** X1.  For a non-empty list of columns of the loaded table and a tuple
    of as many values, [__get_dataframe_slice] returns the table's columns
    with exactly the records, in table order, whose cell in every listed
    column [==] the tuple's component for that column. *)
Theorem dataframe_slice_selects (raw : DataFrame) (columns : list string)
    (values : list value) :
  columns <> [] ->
  (forall c, In c columns -> In c (column_names raw)) ->
  List.length values = List.length columns ->
  get_dataframe_slice raw columns values
  = Ok (mk_df (dim_names raw)
          (filter (row_matches raw columns values) (records raw))).
Proof.
  intros Hne Hex Hlen.
  destruct (get_dataframe_slice_total raw columns values Hne Hex Hlen)
    as (df_slice & Hs & _).
  rewrite Hs. f_equal. apply get_dataframe_slice_filter; assumption.
Qed.

Lemma dataframe_slice_selects_witness :
  two_dimensions_columns <> [] /\
  (forall c, In c two_dimensions_columns ->
             In c (column_names two_dimensions)) /\
  List.length [VStr "b"; VStr "us"] = List.length two_dimensions_columns /\
  option_map (fun df => map id (records df))
    match get_dataframe_slice two_dimensions two_dimensions_columns
            [VStr "b"; VStr "us"] with
    | Ok df => Some df
    | Raise _ => None
    end
  = Some [1; 3; 5].
Proof.
  assert (Hne : two_dimensions_columns <> []) by discriminate.
  assert (Hex : forall c, In c two_dimensions_columns ->
                          In c (column_names two_dimensions))
    by (intros c Hc; simpl in Hc; simpl; tauto).
  assert (Hlen : List.length [VStr "b"; VStr "us"]
                 = List.length two_dimensions_columns) by reflexivity.
  split; [exact Hne |]. split; [exact Hex |]. split; [exact Hlen |].
  rewrite (dataframe_slice_selects two_dimensions two_dimensions_columns
             [VStr "b"; VStr "us"] Hne Hex Hlen).
  vm_compute. reflexivity.
Defined.

(** X2.  The slices partition the records that have no missing value in
    the listed columns: the tuple of a record's cells is one of the tuples
    of the Cartesian product, the record is in the slice of that tuple and
    of no other; a record with a missing value ([NaN]) in a listed column
    is in no slice at all. *)
Theorem slices_partition_records (raw : DataFrame) (columns : list string)
    (r : record) :
  (forall c, In c columns -> In c (column_names raw)) ->
  In r (records raw) ->
  let own := record_tuple raw columns r in
  In own (product (map (fun c => unique (column_values raw c)) columns)) /\
  forall (values : list value) (df_slice : DataFrame),
    List.length values = List.length columns ->
    get_dataframe_slice raw columns values = Ok df_slice ->
    (In r (records df_slice) <-> values = own /\ ~ In VNaN own).
Proof.
  intros Hex Hr own. split.
  - apply record_tuple_in_product; assumption.
  - intros values df_slice Hlen Hs.
    rewrite (get_dataframe_slice_filter raw columns values df_slice Hlen Hs).
    cbn [records].
    rewrite filter_In, (row_matches_spec raw r columns values Hlen).
    fold own. split.
    + intros (_ & -> & Hn). auto.
    + intros (-> & Hn). auto.
Qed.

Lemma slices_partition_records_witness :
  let r := mk_record 2 (april_first_2017 - 40) (april_first_2017 - 18)
             [VStr "a"; VStr "ru"] in
  (forall c, In c two_dimensions_columns ->
             In c (column_names two_dimensions)) /\
  In r (records two_dimensions) /\
  record_tuple two_dimensions two_dimensions_columns r
  = [VStr "a"; VStr "ru"] /\
  In [VStr "a"; VStr "ru"]
     (product (map (fun c => unique (column_values two_dimensions c))
                 two_dimensions_columns)).
Proof.
  intros r.
  assert (Hex : forall c, In c two_dimensions_columns ->
                          In c (column_names two_dimensions))
    by (intros c Hc; simpl in Hc; simpl; tauto).
  assert (Hr : In r (records two_dimensions)) by (simpl; tauto).
  split; [exact Hex |]. split; [exact Hr |]. split; [reflexivity |].
  exact (proj1 (slices_partition_records two_dimensions
                  two_dimensions_columns r Hex Hr)).
Defined.

(** ** [workload_scoring]: a column that is not in the table *)

Lemma setup_columns_unknown (raw : DataFrame) (cols : list string) :
  forall (data : dict) (acc : list (list value)),
  (exists c, In c cols /\ ~ In c (column_names raw)) ->
  setup_columns raw cols data acc = Raise KeyError.
Proof.
  induction cols as [| column rest IH]; intros data acc (c & Hc & Hn);
    [contradiction |].
  cbn [setup_columns].
  destruct (in_dec string_dec column (column_names raw)) as [Hin | Hout].
  - destruct (get_column_total raw column Hin) as (series & ->). cbn [bind].
    apply IH. exists c. split; [| exact Hn].
    destruct Hc as [-> | Hc]; [contradiction | exact Hc].
  - rewrite (get_column_unknown raw column Hout). reflexivity.
Qed.

(** X3.  When one of the names in [columns_list] is not a column of the
    loaded table, the method raises [KeyError] at line 169, whatever the
    period, and leaves the object, its earlier output table included, as it
    was. *)
Theorem unknown_column_raises (columns_list : list string)
    (num_of_all_days num_of_interval_days end_date : Z)
    (self : WorkloadScoring) (raw : DataFrame) :
  raw_df self = Some raw ->
  (exists c, In c columns_list /\ ~ In c (column_names raw)) ->
  workload_scoring columns_list num_of_all_days num_of_interval_days
    end_date self
  = (Raises KeyError, self).
Proof.
  intros Hraw Hc. unfold workload_scoring, scoring_table. rewrite Hraw.
  rewrite (setup_columns_unknown raw columns_list initial_data [] Hc).
  reflexivity.
Qed.

Lemma unknown_column_raises_witness :
  let self := mk_ws (Some two_dimensions) (Some empty_output) in
  raw_df self = Some two_dimensions /\
  (exists c, In c ["assignee"; "city"]%string /\
             ~ In c (column_names two_dimensions)) /\
  workload_scoring ["assignee"; "city"]%string 28 7 april_first_2017 self
  = (Raises KeyError, self).
Proof.
  intros self.
  assert (Hraw : raw_df self = Some two_dimensions) by reflexivity.
  assert (Hc : exists c, In c ["assignee"; "city"]%string /\
                         ~ In c (column_names two_dimensions)).
  { exists "city"%string. split; [simpl; tauto |].
    simpl. intuition discriminate. }
  split; [exact Hraw |]. split; [exact Hc |].
  exact (unknown_column_raises ["assignee"; "city"]%string 28 7
           april_first_2017 self two_dimensions Hraw Hc).
Defined.

(** ** [workload_scoring]: the window counts *)

Lemma distinct_ids_In_iff (l : list Z) (x : Z) :
  In x (distinct_ids l) <-> In x l.
Proof.
  split; [| apply distinct_ids_In].
  induction l as [| y l IH]; simpl; [tauto |].
  destruct (existsb (Z.eqb y) l); simpl; tauto.
Qed.

Lemma distinct_ids_NoDup (l : list Z) : NoDup (distinct_ids l).
Proof.
  induction l as [| y l IH]; simpl; [constructor |].
  destruct (existsb (Z.eqb y) l) eqn:E; [exact IH |].
  constructor; [| exact IH].
  intros Hin. apply (proj1 (distinct_ids_In_iff l y)) in Hin.
  assert (existsb (Z.eqb y) l = true); [| congruence].
  apply existsb_exists. exists y. split; [exact Hin | apply Z.eqb_refl].
Qed.

(** X4.  The count of a window is the number of distinct task ids among
    the records of the slice updated from the window's start to its end,
    both included: a task with several records in the window counts
    once. *)
Theorem window_count_distinct_ids (df_slice : list record) (lo hi : Z) :
  exists ids : list Z,
    NoDup ids /\
    (forall x, In x ids <->
               exists r, In r df_slice /\ id r = x /\ lo <= updated r <= hi) /\
    window_count df_slice lo hi = Z.of_nat (List.length ids).
Proof.
  exists (distinct_ids (map id (filter (in_window lo hi) df_slice))).
  split; [apply distinct_ids_NoDup |]. split; [| reflexivity].
  intros x. rewrite distinct_ids_In_iff, in_map_iff. split.
  - intros (r & <- & Hr). apply filter_In in Hr. destruct Hr as [Hr Hw].
    unfold in_window in Hw. apply andb_true_iff in Hw.
    exists r. split; [exact Hr |]. split; [reflexivity | lia].
  - intros (r & Hr & <- & Hw). exists r. split; [reflexivity |].
    apply filter_In. split; [exact Hr |].
    unfold in_window. apply andb_true_iff. lia.
Qed.

(** ** [workload_scoring]: the rows of the output table *)

Lemma Forall2_nth_error {A B : Type} (P : A -> B -> Prop) (l : list A)
    (l' : list B) :
  Forall2 P l l' ->
  forall k a, nth_error l k = Some a ->
  exists b, nth_error l' k = Some b /\ P a b.
Proof.
  induction 1 as [| x y l l' Hxy _ IH]; intros [| k] a Hk; simpl in Hk;
    try discriminate.
  - injection Hk as <-. exists y. auto.
  - apply IH. exact Hk.
Qed.


Lemma frame_column_nth (df : dict) (column : string) {A : Type}
    (f : A -> cell) (l : list A) (k : nat) (a : A) :
  dict_get df column = Some (map f l) ->
  nth_error l k = Some a ->
  nth_error (frame_column df column) k = Some (f a).
Proof.
  intros Hd Hk. unfold frame_column. rewrite Hd.
  rewrite nth_error_map, Hk. reflexivity.
Qed.

Lemma product_tuple_lengths (raw : DataFrame) (columns_list : list string) :
  Forall (fun t => List.length t = List.length columns_list)
    (product (map (fun c => unique (column_values raw c)) columns_list)).
Proof.
  apply Forall_forall. intros t Ht. rewrite product_lex in Ht.
  apply lex_product_In, Forall2_length in Ht.
  rewrite length_map in Ht. exact Ht.
Qed.

(** The row of tuple [k] of the Cartesian product: what the partition
    loop computed for it, on the records matching the tuple. *)
Lemma table_row (raw : DataFrame) (columns_list : list string)
    (num_of_all_days num_of_interval_days end_date : Z) (df : dict)
    (k : nat) (t : list value) :
  NoDup columns_list ->
  (forall c, In c columns_list -> ~ In c stat_names) ->
  scoring_table raw columns_list num_of_all_days num_of_interval_days
    end_date = Ok df ->
  nth_error
    (product (map (fun c => unique (column_values raw c)) columns_list)) k
  = Some t ->
  exists (rows : list (Z * Z * Stats)) (row : Z * Z * Stats)
         (prev : option Z),
    table_inv raw columns_list num_of_all_days num_of_interval_days end_date
      df (product (map (fun c => unique (column_values raw c)) columns_list))
      rows /\
    nth_error rows k = Some row /\
    List.length t = List.length columns_list /\
    score_slice
      (mk_df (dim_names raw)
         (filter (row_matches raw columns_list t) (records raw)))
      num_of_all_days num_of_interval_days end_date prev
    = Ok row.
Proof.
  intros Hnd Hns Hdf Hk.
  destruct (scoring_table_inv raw columns_list num_of_all_days
              num_of_interval_days end_date Hnd Hns df Hdf)
    as (rows & Hinv).
  pose proof Hinv as (_ & _ & _ & _ & _ & _ & Hrows).
  destruct (Forall2_nth_error _ _ _ Hrows k t Hk)
    as (row & Hrow & df_slice & prev & Hslice & Hscore).
  assert (Hlen : List.length t = List.length columns_list).
  { pose proof (product_tuple_lengths raw columns_list) as Hall.
    rewrite Forall_forall in Hall. apply Hall.
    eapply nth_error_In. exact Hk. }
  apply (get_dataframe_slice_filter raw columns_list t df_slice Hlen)
    in Hslice.
  subst df_slice. exists rows, row, prev. auto.
Qed.



(** ** [workload_scoring]: a table without rows *)

(** X6.  On a loaded table without rows, with at least one dimension, all
    of them columns of the table, the method checks nothing of the period:
    whatever [num_of_all_days], [num_of_interval_days] and [end_date] are,
    it returns normally and writes a table of no rows, with the four
    statistics columns and the dimension columns. *)
Theorem empty_table_scores (columns_list : list string)
    (num_of_all_days num_of_interval_days end_date : Z)
    (self : WorkloadScoring) (raw : DataFrame) :
  raw_df self = Some raw ->
  records raw = [] ->
  columns_list <> [] ->
  (forall c, In c columns_list -> In c (column_names raw)) ->
  let df := fold_left (fun d c => dict_set d c []) columns_list initial_data in
  workload_scoring columns_list num_of_all_days num_of_interval_days
    end_date self
  = (Returns None, mk_ws (Some raw) (Some df)) /\
  frame_height df = O /\
  forall c, In c (stat_names ++ columns_list) -> dict_get df c = Some [].
Proof.
  intros Hraw Hrec Hne Hex df.
  assert (Hall : forall cols d, Forall (fun kv => snd kv = []) d ->
            Forall (fun kv : string * list cell => snd kv = [])
              (fold_left (fun d c => dict_set d c []) cols d)).
  { induction cols as [| c cols IH]; intros d Hd; simpl; [exact Hd |].
    apply IH, dict_set_all_empty, Hd. }
  assert (Hdf : Forall (fun kv : string * list cell => snd kv = []) df).
  { apply Hall. unfold initial_data. repeat constructor. }
  split; [| split].
  - unfold workload_scoring, scoring_table. rewrite Hraw.
    rewrite (setup_columns_no_rows raw columns_list initial_data [] Hrec Hex).
    cbn [bind app].
    assert (Hprod : product (map (fun _ : string => @nil value) columns_list)
                    = []).
    { rewrite product_lex. destruct columns_list; [congruence | reflexivity]. }
    rewrite Hprod. cbn [partitions_loop bind]. unfold frame_of_dict.
    fold df. rewrite (same_lengths_all_empty df Hdf). reflexivity.
  - destruct df as [| [k l] rest]; [reflexivity |].
    inversion Hdf as [| ? ? Hl _]; subst. simpl in Hl. subst l. reflexivity.
  - assert (Hget : forall (d : dict) k l,
              Forall (fun kv => snd kv = []) d -> dict_get d k = Some l ->
              l = []).
    { induction d as [| [k' l'] d IH]; intros k l Hd Hg; simpl in Hg;
        [discriminate |].
      inversion Hd; subst.
      destruct (String.eqb k k'); [injection Hg as <-; assumption | eauto]. }
    assert (Hkeys : forall cols (d : dict) k,
              In k (map fst d) \/ In k cols ->
              dict_get (fold_left (fun d c => dict_set d c []) cols d) k
              <> None).
    { induction cols as [| c cols IH]; intros d k [Hk | Hk]; simpl.
      - clear - Hk. induction d as [| [k' l'] d IHd]; simpl in *; [tauto |].
        destruct (String.eqb_spec k k'); [discriminate |].
        apply IHd. destruct Hk; [congruence | assumption].
      - contradiction.
      - apply IH. left.
        clear - Hk. induction d as [| [k' l'] d IHd]; simpl in *; [tauto |].
        destruct (String.eqb c k'); simpl; tauto.
      - apply IH. destruct Hk as [-> | Hk]; [| right; exact Hk].
        left. clear. induction d as [| [k' l'] d IHd]; simpl; [tauto |].
        destruct (String.eqb_spec k k'); simpl; [left; congruence | tauto]. }
    intros c Hc.
    assert (Hsome : dict_get df c <> None).
    { apply Hkeys. apply in_app_or in Hc. destruct Hc; [left | right]; auto. }
    destruct (dict_get df c) as [l |] eqn:E; [| congruence].
    rewrite (Hget df c l Hdf E). reflexivity.
Qed.

Lemma empty_table_scores_witness :
  let self := mk_ws (Some no_rows) None in
  raw_df self = Some no_rows /\
  records no_rows = [] /\
  ["assignee"%string] <> [] /\
  (forall c, In c ["assignee"%string] -> In c (column_names no_rows)) /\
  workload_scoring ["assignee"%string] 7 0 0 self
  = (Returns None, mk_ws (Some no_rows) (Some empty_output)).
Proof.
  intros self.
  assert (H1 : raw_df self = Some no_rows) by reflexivity.
  assert (H2 : records no_rows = []) by reflexivity.
  assert (H3 : ["assignee"%string] <> []) by discriminate.
  assert (H4 : forall c, In c ["assignee"%string] ->
                         In c (column_names no_rows))
    by (intros c Hc; simpl in Hc; simpl; tauto).
  split; [exact H1 |]. split; [exact H2 |]. split; [exact H3 |].
  split; [exact H4 |].
  exact (proj1 (empty_table_scores ["assignee"%string] 7 0 0 self no_rows
                  H1 H2 H3 H4)).
Defined.

(** ** Rounding from below and the width of mantissas *)

Lemma shr_fexp_exponent m e l :
  0 <= m ->
  let '(mrs, e') := shr_fexp F.prec F.emax m e l in
  e' = Z.max e (fexp (Zdigits2 m + e)) /\ shr_m mrs = m / 2 ^ (e' - e).
Proof.
  intros Hm. unfold shr_fexp, shr.
  destruct (fexp (Zdigits2 m + e) - e) as [| k | k] eqn:Hk.
  - rewrite shr_record_of_loc_m, Z.sub_diag, Z.pow_0_r, Z.div_1_r. lia.
  - rewrite iter_shr_m by (rewrite shr_record_of_loc_m; exact Hm).
    rewrite shr_record_of_loc_m.
    replace (e + Zpos k - e) with (Zpos k) by lia. lia.
  - rewrite shr_record_of_loc_m, Z.sub_diag, Z.pow_0_r, Z.div_1_r. lia.
Qed.

(** After a normalisation step above the smallest exponent the mantissa
    has at most [prec] bits. *)
Lemma shr_fexp_fits m e l :
  0 <= m -> emin <= e ->
  Zdigits2 (shr_m (fst (shr_fexp F.prec F.emax m e l))) <= F.prec.
Proof.
  intros Hm He. pose proof (shr_fexp_exponent m e l Hm) as H.
  destruct (shr_fexp F.prec F.emax m e l) as [mrs e']. cbn [fst].
  destruct H as [He' ->].
  pose proof (Zdigits2_div_pow2 m (e' - e) Hm ltac:(lia)) as Hd.
  pose proof (Zdigits2_nonneg m).
  fexp_lia.
Qed.

Lemma bra_fits s m e l : 0 <= m -> mantissa_fits (bra s m e l).
Proof.
  intros Hm. unfold binary_round_aux.
  pose proof (shr_fexp_round m e l Hm) as H1.
  destruct (shr_fexp F.prec F.emax m e l) as [mrs1 e1].
  cbv zeta in H1. destruct H1 as (Hm2 & He1 & _).
  pose proof (shr_fexp_fits _ e1 loc_Exact Hm2 He1) as H3.
  destruct (shr_fexp F.prec F.emax _ e1 loc_Exact) as [mrs3 e3].
  cbn [fst] in H3.
  destruct (shr_m mrs3) as [| p3 | p3]; try exact I.
  destruct (e3 <=? F.emax - F.prec); [exact H3 | exact I].
Qed.

Lemma div_fits x y : mantissa_fits (F.div x y).
Proof.
  destruct x as [sx | sx | | sx mx ex], y as [sy | sy | | sy my ey];
    try exact I.
  unfold F.div, SFdiv, SFdiv_core_binary. cbn [Zdigits2].
  set (e' := Z.min _ (ex - ey)).
  set (sh := ex - ey - e').
  set (m' := match sh with
             | Z0 => Zpos mx
             | Zpos _ => Z.shiftl (Zpos mx) sh
             | Zneg _ => 0
             end).
  assert (Hsh : 0 <= sh) by (unfold sh, e'; lia).
  assert (Hm' : m' = Zpos mx * 2 ^ sh).
  { unfold m'. destruct sh as [| k | k] eqn:E; try lia.
    apply Z.shiftl_mul_pow2. lia. }
  clearbody m'.
  pose proof (Z.div_eucl_eq m' (Zpos my) ltac:(lia)) as Hdiv.
  pose proof (Z.mod_pos_bound m' (Zpos my) ltac:(lia)) as Hmod.
  unfold Z.modulo in Hmod.
  destruct (Z.div_eucl m' (Zpos my)) as [q r].
  assert (Hpow : 0 < 2 ^ sh) by (apply Z.pow_pos_nonneg; lia).
  apply bra_fits. nia.
Qed.

Lemma np_round2_fits x : mantissa_fits (F.np_round2 x).
Proof. apply div_fits. Qed.

(** [int] of a finite double is the quotient, toward zero, of its units
    by the units of [1]. *)
Lemma trunc_units x z :
  F.trunc x = Ok z ->
  (forall s m e, x = S754_finite s m e -> emin <= e) ->
  z = Z.quot (float_units x) (2 ^ (- emin)).
Proof.
  destruct x as [s | s | | s m e]; unfold F.trunc; intros H Hv;
    try discriminate.
  - injection H as <-. reflexivity.
  - assert (Hz : z = cond_Zopp s (if 0 <=? e then Zpos m * 2 ^ e
                                   else Zpos m / 2 ^ (- e)))
      by congruence.
    subst z. clear H. specialize (Hv s m e eq_refl).
    cbn [float_units].
    assert (Hq : (if 0 <=? e then Zpos m * 2 ^ e else Zpos m / 2 ^ (- e))
                 = Z.quot (Zpos m * 2 ^ (e - emin)) (2 ^ (- emin))).
    { assert (P1 : 0 < 2 ^ (e - emin)) by (apply Z.pow_pos_nonneg; lia).
      assert (P2 : 0 < 2 ^ (- emin)) by (apply Z.pow_pos_nonneg; fexp_lia).
      rewrite Z.quot_div_nonneg by lia.
      destruct (Z.leb_spec 0 e) as [He | He].
      - replace (e - emin) with (e + - emin) by lia.
        rewrite Z.pow_add_r by fexp_lia.
        rewrite Z.mul_assoc, Z.div_mul by lia. reflexivity.
      - assert (P3 : 0 < 2 ^ (- e)) by (apply Z.pow_pos_nonneg; lia).
        replace (- emin) with (- e + (e - emin)) by lia.
        rewrite Z.pow_add_r by lia.
        rewrite Z.div_mul_cancel_r by lia. reflexivity. }
    rewrite Hq. destruct s; cbn [cond_Zopp]; [| reflexivity].
    rewrite Z.quot_opp_l; [reflexivity |].
    apply Z.pow_nonzero; [lia | fexp_lia].
Qed.

(** Rounding to nearest does not fall below a bound that is itself a
    double. *)
Lemma bra_above p e c j :
  emin <= e -> 0 <= j -> 0 <= c < 2 ^ F.prec ->
  c * 2 ^ j <= Zpos p * 2 ^ (e - emin) ->
  match bra false (Zpos p) e loc_Exact with
  | S754_finite false m' e' =>
      emin <= e' /\ c * 2 ^ j <= Zpos m' * 2 ^ (e' - emin)
  | S754_infinity false => True
  | _ => False
  end.
Proof.
  intros He Hj Hc Hle. unfold binary_round_aux.
  pose proof (shr_fexp_exponent (Zpos p) e loc_Exact ltac:(lia)) as H1.
  pose proof (shr_fexp_fits (Zpos p) e loc_Exact ltac:(lia) He) as F1.
  destruct (shr_fexp F.prec F.emax (Zpos p) e loc_Exact) as [mrs1 e1].
  cbn [fst] in F1. destruct H1 as [He1 Hm1]. cbn [Zdigits2] in He1.
  set (d := Zpos (digits2_pos p)) in *.
  set (E := e - emin).
  assert (HE : 0 <= E) by (unfold E; lia).
  set (k := e1 - e) in *.
  assert (Hk : 0 <= k) by (unfold k; lia).
  pose proof (digits_bounds p) as Hdb. fold d in Hdb.
  pose proof (pow2_pos k Hk) as Pk.
  pose proof (pow2_pos E HE) as PE.
  pose proof (pow2_pos j Hj) as Pj.
  set (m1 := shr_m mrs1) in *.
  assert (Hm1pos : 0 <= m1) by (rewrite Hm1; apply Z.div_pos; lia).
  (* the truncated mantissa is already above the bound *)
  assert (Hv1 : c * 2 ^ j <= m1 * 2 ^ (E + k)).
  { destruct (Z.le_gt_cases (E + k) j) as [Hcase | Hcase].
    - set (C := c * 2 ^ (j - (E + k))).
      assert (HB : c * 2 ^ j = C * 2 ^ (E + k)).
      { unfold C. rewrite <- Z.mul_assoc, <- Z.pow_add_r by lia.
        do 2 f_equal. lia. }
      rewrite HB. apply Z.mul_le_mono_nonneg_r; [apply Z.pow_nonneg; lia |].
      rewrite Hm1. apply Z.div_le_lower_bound; [exact Pk |].
      rewrite HB, Z.pow_add_r in Hle by lia. fold E in Hle.
      apply Z.mul_le_mono_pos_r with (p := 2 ^ E); [exact PE |].
      replace (2 ^ k * C * 2 ^ E) with (C * (2 ^ E * 2 ^ k)) by ring.
      exact Hle.
    - destruct (Z.eq_dec k 0) as [Hk0 | Hk0].
      + rewrite Hm1, Hk0, Z.pow_0_r, Z.div_1_r, Z.add_0_r. exact Hle.
      + assert (Hkd : k = d - F.prec) by (unfold k in *; fexp_lia).
        assert (Hm1low : 2 ^ (F.prec - 1) <= m1).
        { rewrite Hm1. apply Z.div_le_lower_bound; [exact Pk |].
          rewrite <- Z.pow_add_r by (unfold F.prec in *; lia).
          replace (k + (F.prec - 1)) with (d - 1) by lia. lia. }
        apply Z.le_trans with (2 ^ F.prec * 2 ^ j);
          [apply Z.mul_le_mono_nonneg_r; lia |].
        apply Z.le_trans with (2 ^ (F.prec - 1) * 2 ^ (E + k));
          [| apply Z.mul_le_mono_nonneg_r; [apply Z.pow_nonneg; lia | lia]].
        rewrite <- !Z.pow_add_r by (unfold F.prec in *; lia).
        apply Z.pow_le_mono_r; [lia | unfold F.prec in *; lia]. }
  assert (Hm1ge : 1 <= m1).
  { destruct (Z.eq_dec k 0) as [Hk0 | Hk0].
    - rewrite Hm1, Hk0, Z.pow_0_r, Z.div_1_r. lia.
    - assert (Hkd : k = d - F.prec) by (unfold k in *; fexp_lia).
      rewrite Hm1. apply Z.div_le_lower_bound; [exact Pk |].
      rewrite Z.mul_1_r.
      apply Z.le_trans with (2 ^ (d - 1)); [| lia].
      apply Z.pow_le_mono_r; unfold F.prec in *; lia. }
  assert (Hm1lt : m1 < 2 ^ F.prec).
  { pose proof (Zdigits2_spec m1 ltac:(lia)) as [_ Hs].
    apply Z.lt_le_trans with (1 := Hs).
    apply Z.pow_le_mono_r; [lia | exact F1]. }
  pose proof (round_nearest_even_bounds m1 (loc_of_shr_record mrs1) Hm1pos)
    as Hr.
  set (m2 := round_nearest_even m1 (loc_of_shr_record mrs1)) in *.
  pose proof (shr_fexp_exponent m2 e1 loc_Exact ltac:(lia)) as H3.
  destruct (shr_fexp F.prec F.emax m2 e1 loc_Exact) as [mrs3 e3].
  destruct H3 as [He3 Hm3].
  assert (PEk : 0 < 2 ^ (E + k)) by (apply pow2_pos; lia).
  assert (Hfinal : 1 <= shr_m mrs3 /\ emin <= e3 /\
                   c * 2 ^ j <= shr_m mrs3 * 2 ^ (e3 - emin)).
  { destruct (Z.eq_dec m2 (2 ^ F.prec)) as [Heq | Hne].
    - assert (Hd2 : Zdigits2 m2 = F.prec + 1).
      { rewrite Heq. vm_compute. reflexivity. }
      assert (He3' : e3 = e1 + 1) by fexp_lia.
      rewrite Hm3, He3', Heq.
      replace (e1 + 1 - e1) with 1 by lia.
      replace (e1 + 1 - emin) with (1 + (E + k)) by (unfold E, k; lia).
      rewrite Z.pow_add_r by lia.
      change (2 ^ F.prec / 2 ^ 1) with (2 ^ (F.prec - 1)).
      split; [unfold F.prec; lia |]. split; [lia |].
      apply Z.le_trans with (1 := Hv1).
      assert (Hp2 : 2 ^ F.prec = 2 ^ (F.prec - 1) * 2 ^ 1) by reflexivity.
      replace (2 ^ (F.prec - 1) * (2 ^ 1 * 2 ^ (E + k)))
        with (2 ^ F.prec * 2 ^ (E + k)) by (rewrite Hp2; ring).
      apply Z.mul_le_mono_nonneg_r; lia.
    - assert (Hd2 : Zdigits2 m2 <= F.prec).
      { apply Zdigits2_le; try lia. unfold F.prec. lia. }
      assert (He3' : e3 = e1) by fexp_lia.
      rewrite Hm3, He3', Z.sub_diag, Z.pow_0_r, Z.div_1_r.
      replace (e1 - emin) with (E + k) by (unfold E, k; lia).
      split; [lia |]. split; [lia |].
      apply Z.le_trans with (1 := Hv1).
      apply Z.mul_le_mono_nonneg_r; lia. }
  destruct Hfinal as (Hpos & Hmin & Hval).
  destruct (shr_m mrs3) as [| p3 | p3]; try lia.
  destruct (e3 <=? F.emax - F.prec); [| exact I].
  split; assumption.
Qed.

Lemma mantissa_lt m : Zpos (digits2_pos m) <= F.prec -> Zpos m < 2 ^ F.prec.
Proof.
  intros H. pose proof (digits_bounds m) as [_ Hm].
  apply Z.lt_le_trans with (1 := Hm). apply Z.pow_le_mono_r; lia.
Qed.

(** Adding a double that is not negative does not lower a double. *)
Lemma add_above K x y :
  has_sign false x -> has_sign false y -> mantissa_fits x ->
  finite_below K x -> finite_below K y ->
  F.is_finite (F.add x y) = true ->
  float_units x <= float_units (F.add x y).
Proof.
  destruct x as [sx | sx | | sx mx ex], y as [sy | sy | | sy my ey];
    cbn [has_sign finite_below mantissa_fits]; try tauto;
    intros Hsx Hsy Hfit Hx Hy; subst; unfold F.add, SFadd.
  - intros _. simpl. lia.
  - intros _. cbn [float_units cond_Zopp].
    pose proof (pow2_pos (ey - emin) ltac:(lia)). lia.
  - intros _. lia.
  - destruct Hx as [_ Hex], Hy as [_ Hey]. cbv zeta.
    set (ez := Z.min ex ey).
    destruct (shl_align mx ex ez) as [ax ex'] eqn:Ax.
    destruct (shl_align my ey ez) as [ay ey'] eqn:Ay.
    apply shl_align_value in Ax, Ay.
    destruct Ax as (_ & Vx & Cx), Ay as (_ & Vy & Cy).
    assert (ex' = ez) by (unfold ez in *; destruct Cx; lia).
    assert (ey' = ez) by (unfold ez in *; destruct Cy; lia).
    subst ex' ey'.
    cbn [fst cond_Zopp Z.add binary_normalize]. unfold binary_round.
    destruct (shl_align (ax + ay) ez _) as [mz ez'] eqn:Az.
    apply shl_align_value in Az. destruct Az as (Hez & Vz & Cz).
    assert (Hmin : emin <= ez') by (destruct Cz; unfold ez in *; fexp_lia).
    assert (Hc : 0 <= Zpos mx < 2 ^ F.prec)
      by (split; [lia | apply mantissa_lt; exact Hfit]).
    pose proof (bra_above mz ez' (Zpos mx) (ex - emin) Hmin ltac:(lia) Hc)
      as Hab.
    assert (Hle : Zpos mx * 2 ^ (ex - emin) <= Zpos mz * 2 ^ (ez' - emin)).
    { rewrite Vz, <- Z.mul_assoc, <- Z.pow_add_r by (unfold ez in *; lia).
      replace (ez - ez' + (ez' - emin)) with (ez - emin) by lia.
      rewrite Pos2Z.inj_add, Vx, Z.mul_add_distr_r.
      rewrite <- Z.mul_assoc, <- Z.pow_add_r by (unfold ez; lia).
      replace (ex - ez + (ez - emin)) with (ex - emin) by lia.
      pose proof (pow2_pos (ez - emin) ltac:(unfold ez; lia)). lia. }
    specialize (Hab Hle).
    destruct (bra false (Zpos mz) ez' loc_Exact) as [| [] | | [] m' e'];
      try contradiction; try discriminate.
    intros _. cbn [float_units cond_Zopp]. lia.
Qed.

(** Subtracting a double that is not negative does not raise a double. *)
Lemma sub_below_left K x y :
  has_sign false x -> has_sign false y -> mantissa_fits x ->
  finite_below K x -> finite_below K y -> K <= 900 ->
  float_units (F.sub x y) <= float_units x.
Proof.
  destruct x as [sx | sx | | sx mx ex], y as [sy | sy | | sy my ey];
    cbn [has_sign finite_below mantissa_fits]; try tauto;
    intros Hsx Hsy Hfit Hx Hy HK; subst; unfold F.sub, SFsub.
  - simpl. lia.
  - cbn [negb float_units cond_Zopp].
    pose proof (pow2_pos (ey - emin) ltac:(lia)). lia.
  - lia.
  - destruct Hx as [Hdx Hex], Hy as [_ Hey]. cbv zeta.
    set (ez := Z.min ex ey).
    destruct (shl_align mx ex ez) as [ax ex'] eqn:Ax.
    destruct (shl_align my ey ez) as [ay ey'] eqn:Ay.
    apply shl_align_value in Ax, Ay.
    destruct Ax as (_ & Vx & Cx), Ay as (_ & Vy & Cy).
    assert (ex' = ez) by (unfold ez in *; destruct Cx; lia).
    assert (ey' = ez) by (unfold ez in *; destruct Cy; lia).
    subst ex' ey'.
    cbn [fst cond_Zopp].
    pose proof (pow2_pos (ex - emin) ltac:(lia)) as Px.
    assert (Hpos : 0 < float_units (S754_finite false mx ex))
      by (cbn [float_units cond_Zopp]; lia).
    destruct (Zpos ax - Zpos ay) as [| p | p] eqn:Ez;
      cbn [binary_normalize].
    + simpl float_units at 1. lia.
    + assert (Hb : value_below (Zpos mx * 2 ^ (ex - emin))
                     (binary_round F.prec F.emax false p ez)).
      { apply binary_round_below; try (unfold ez; lia).
        - split; [lia | apply mantissa_lt; exact Hfit].
        - apply Z.le_trans with (Zpos ax * 2 ^ (ez - emin)).
          + apply Z.mul_le_mono_nonneg_r;
              [apply Z.pow_nonneg; lia | lia].
          + rewrite Vx, <- Z.mul_assoc, <- Z.pow_add_r by (unfold ez; lia).
            replace (ex - ez + (ez - emin)) with (ex - emin) by lia. lia. }
      destruct (binary_round F.prec F.emax false p ez)
        as [| | | [] m' e']; cbn [value_below] in Hb; try contradiction;
        try (simpl float_units at 1; lia).
      cbn [float_units cond_Zopp] in *. lia.
    + pose proof (binary_round_sign true p ez) as Hs.
      destruct (binary_round F.prec F.emax true p ez)
        as [| | | s' m' e']; try (simpl float_units at 1; lia).
      cbn [has_sign] in Hs. subst s'. cbn [float_units cond_Zopp] in *.
      pose proof (pow2_pos (e' - emin)) as P.
      assert (0 <= Zpos m' * 2 ^ (e' - emin));
        [apply Z.mul_nonneg_nonneg; [lia | apply Z.pow_nonneg; lia] | lia].
Qed.

Lemma trunc_le K x y zx zy :
  finite_below K x -> finite_below K y ->
  F.trunc x = Ok zx -> F.trunc y = Ok zy ->
  float_units x <= float_units y -> zx <= zy.
Proof.
  intros Hx Hy Tx Ty Hle.
  rewrite (trunc_units x zx Tx), (trunc_units y zy Ty).
  - apply Z.quot_le_mono; [apply pow2_pos; fexp_lia | exact Hle].
  - intros s m e ->. cbn [finite_below] in Hy. tauto.
  - intros s m e ->. cbn [finite_below] in Hx. tauto.
Qed.

Lemma trunc_nonneg x z :
  has_sign false x -> F.trunc x = Ok z -> 0 <= z.
Proof.
  destruct x as [s | s | | s m e]; unfold F.trunc; cbn [has_sign];
    intros Hs H; try discriminate.
  - injection H as <-. lia.
  - subst s. assert (Hz : z = cond_Zopp false
                         (if 0 <=? e then Zpos m * 2 ^ e
                          else Zpos m / 2 ^ (- e))) by congruence.
    subst z. cbn [cond_Zopp]. destruct (Z.leb_spec 0 e).
    + apply Z.mul_nonneg_nonneg; [lia | apply Z.pow_nonneg; lia].
    + apply Z.div_pos; [lia |]. apply Z.pow_pos_nonneg; lia.
Qed.

Lemma py_round2_sign s x : has_sign s x -> has_sign s (F.py_round2 x).
Proof.
  destruct x as [s' | s' | | s' m e]; unfold F.py_round2; cbn [has_sign];
    auto.
  intros ->.
  destruct (Z.leb_spec 0 e); [reflexivity |].
  pose proof (rne_div_nonneg (Zpos m * 100) (2 ^ (- e)) ltac:(lia)
                ltac:(apply Z.pow_pos_nonneg; lia)) as Hq.
  cbv zeta.
  destruct (Z.eqb_spec (F.rne_div (Zpos m * 100) (2 ^ (- e))) 0);
    [reflexivity |].
  destruct (2 ^ F.prec <=? F.rne_div (Zpos m * 100) (2 ^ (- e)));
    [reflexivity |].
  replace s with (xorb s false) by (destruct s; reflexivity).
  apply div_sign; [| reflexivity].
  rewrite xorb_false_r. apply of_Z_cond_sign. lia.
Qed.

Lemma finite_below_finite K x : finite_below K x -> F.is_finite x = true.
Proof. destruct x; cbn [finite_below]; try tauto; reflexivity. Qed.

Lemma finite_below_nonneg K x :
  finite_below K x -> has_sign false x -> float_nonneg x = true.
Proof.
  destruct x as [s | s | | s m e]; cbn [finite_below has_sign];
    try tauto; intros _ H; subst; reflexivity.
Qed.

(** ** The statistics of a series of counts *)

Section Counts.

Variable series : list Z.
Variable num_of_intervals : Z.
Hypothesis counts : Forall (fun c => 0 <= c < 2 ^ 63) series.
Hypothesis nonempty : series <> [].
Hypothesis short : Z.of_nat (List.length series) < 2 ^ 30.
Hypothesis windows : 2 <= num_of_intervals <= 999999999.

Lemma rounded_mean_sign : has_sign false (rounded_mean series).
Proof.
  unfold rounded_mean, np_mean. apply np_round2_sign.
  change false with (xorb false false).
  apply div_sign; apply of_Z_sign; [| lia].
  pose proof (sum_Z_bounds series (2 ^ 63) counts). lia.
Qed.

(** The four statistics are finite and not negative, and the truncated
    bounds are ordered. *)
Lemma statistics_facts :
  exists (a v sd se : F.float) (l r : Z),
    baseline_stats series num_of_intervals
    = Ok (mk_stats (NpFloat a) (NpFloat v) (PyFloat sd) (PyFloat se)) /\
    a = rounded_mean series /\
    (finite_below 290 a /\ has_sign false a) /\
    (finite_below 290 v /\ has_sign false v) /\
    (finite_below 290 sd /\ has_sign false sd) /\
    (finite_below 290 se /\ has_sign false se) /\
    F.trunc (F.sub a se) = Ok l /\ F.trunc (F.add a se) = Ok r /\
    l <= r /\ 0 <= r.
Proof.
  destruct (baseline_stats_total series num_of_intervals nonempty windows)
    as (rt & Hrt & Hrpos & Hstats).
  pose proof (sqrt_intervals_large series num_of_intervals windows rt Hrt)
    as Hlarge.
  assert (Hrs : has_sign false rt).
  { destruct rt as [| [] | | [] m e]; cbn [positive_float] in Hrpos;
      try contradiction; reflexivity. }
  pose proof (rounded_mean_bounded series counts nonempty short) as Hmean.
  pose proof (rounded_variance_bounded series num_of_intervals counts
                nonempty short windows) as Hvar.
  pose proof rounded_mean_sign as Hms.
  set (mean := rounded_mean series) in *.
  set (var := rounded_variance (num_of_intervals - 1) series) in *.
  assert (Hvs : has_sign false var)
    by (apply rounded_variance_sign; lia).
  destruct (sqrt_bounded 286 var Hvs Hvar ltac:(lia) ltac:(lia))
    as (Hsq & Hsqs & _).
  pose proof (py_round2_bounded 287 _ Hsq ltac:(lia) ltac:(lia)) as Hstd.
  pose proof (py_round2_sign false _ Hsqs) as Hstds.
  set (std := F.py_round2 (F.sqrt var)) in *.
  pose proof (div_bounded 288 std rt Hstd Hlarge ltac:(fexp_lia) ltac:(lia))
    as Hq.
  assert (Hqs : has_sign false (F.div std rt)).
  { change false with (xorb false false). apply div_sign; assumption. }
  pose proof (py_round2_bounded 289 _ Hq ltac:(lia) ltac:(lia)) as Hste.
  pose proof (py_round2_sign false _ Hqs) as Hstes.
  set (ste := F.py_round2 (F.div std rt)) in *.
  apply finite_below_mono with (K' := 290) in Hmean; [| lia].
  apply finite_below_mono with (K' := 290) in Hvar; [| lia].
  apply finite_below_mono with (K' := 290) in Hstd; [| lia].
  pose proof (sub_bounded 290 mean ste Hmean Hste ltac:(fexp_lia) ltac:(lia))
    as Hsub.
  pose proof (add_bounded 290 mean ste Hmean Hste ltac:(fexp_lia) ltac:(lia))
    as Hadd.
  destruct (trunc_bounded _ _ Hsub) as [l Hl].
  destruct (trunc_bounded _ _ Hadd) as [r Hr].
  assert (Hfit : mantissa_fits mean) by apply np_round2_fits.
  exists mean, var, std, ste, l, r.
  split; [exact Hstats |]. split; [reflexivity |].
  repeat (split; [split; assumption |]).
  split; [exact Hl |]. split; [exact Hr |]. split.
  - destruct (trunc_bounded _ _ Hmean) as [z Hz].
    apply Z.le_trans with z.
    + apply (trunc_le 292 _ _ _ _ Hsub
               (finite_below_mono 290 292 _ ltac:(lia) Hmean) Hl Hz).
      apply (sub_below_left 290); try assumption. lia.
    + apply (trunc_le 292 _ _ _ _
               (finite_below_mono 290 292 _ ltac:(lia) Hmean) Hadd Hz Hr).
      apply (add_above 290); try assumption.
      apply (finite_below_finite _ _ Hadd).
  - apply (trunc_nonneg _ _ (add_sign _ _ Hms Hstes) Hr).
Qed.

End Counts.

(** ** The classifier on ordered bounds *)

Lemma score_two_iff (left_board right_board current : Z) :
  left_board <= right_board -> 0 <= current ->
  (calc_workload_score left_board right_board current = 2
   <-> right_board < current).
Proof.
  intros Hlr Hc. unfold calc_workload_score.
  destruct (Z.eqb_spec left_board 0), (Z.eqb_spec current 0),
    (Z.eqb_spec right_board 0); cbn [andb];
  rewrite ?Z.geb_leb;
  destruct (Z.leb_spec 0 current), (Z.ltb_spec current left_board);
    cbn [andb]; try lia;
  destruct (Z.leb_spec left_board current),
    (Z.leb_spec current right_board); cbn [andb]; lia.
Qed.

Lemma score_values (left_board right_board current : Z) :
  left_board <= right_board -> 0 <= current ->
  let score := calc_workload_score left_board right_board current in
  (current < left_board -> score = 0) /\
  (right_board < current -> score = 2) /\
  (left_board <= current <= right_board ->
   score = if (left_board =? 0) && (current =? 0) && (right_board =? 0)
           then 0 else 1).
Proof.
  intros Hlr Hc. unfold calc_workload_score.
  destruct (Z.eqb_spec left_board 0), (Z.eqb_spec current 0),
    (Z.eqb_spec right_board 0); cbn [andb];
  rewrite ?Z.geb_leb;
  destruct (Z.leb_spec 0 current), (Z.ltb_spec current left_board);
    cbn [andb]; try lia;
  destruct (Z.leb_spec left_board current),
    (Z.leb_spec current right_board); cbn [andb]; repeat split; lia.
Qed.

(** X7.  With ordered bounds the classifier is monotone in the current
    count: it gives 0 below the left bound, 2 exactly above the right
    bound and 1 in between, except that a zero count between two zero
    bounds scores 0; so a larger count never gets a smaller score. *)
Theorem score_monotone (left_board right_board current current' : Z) :
  left_board <= right_board ->
  0 <= current <= current' ->
  calc_workload_score left_board right_board current
  <= calc_workload_score left_board right_board current' /\
  (calc_workload_score left_board right_board current = 2
   <-> right_board < current) /\
  (current < left_board ->
   calc_workload_score left_board right_board current = 0).
Proof.
  intros Hlr Hc.
  split; [| split;
            [apply score_two_iff; lia
            | apply (score_values left_board right_board current); lia]].
  destruct (score_values left_board right_board current Hlr ltac:(lia))
    as (A0 & A2 & A1).
  destruct (score_values left_board right_board current' Hlr ltac:(lia))
    as (B0 & B2 & B1).
  cbv zeta in *.
  destruct (Z.lt_ge_cases current left_board) as [H1 | H1].
  - rewrite (A0 H1). pose proof (score_range left_board right_board current').
    lia.
  - destruct (Z.lt_ge_cases right_board current) as [H2 | H2].
    + rewrite (A2 H2), (B2 ltac:(lia)). lia.
    + rewrite (A1 ltac:(lia)).
      destruct (Z.lt_ge_cases right_board current') as [H3 | H3].
      * rewrite (B2 H3).
        destruct ((left_board =? 0) && (current =? 0) && (right_board =? 0));
          lia.
      * rewrite (B1 ltac:(lia)).
        destruct (Z.eqb_spec left_board 0), (Z.eqb_spec current 0),
          (Z.eqb_spec current' 0), (Z.eqb_spec right_board 0);
          cbn [andb]; lia.
Qed.

Lemma score_monotone_witness :
  2 <= 3 /\ 0 <= 1 <= 4 /\
  calc_workload_score 2 3 1 = 0 /\ calc_workload_score 2 3 4 = 2 /\
  calc_workload_score 2 3 1 <= calc_workload_score 2 3 4.
Proof.
  assert (H1 : 2 <= 3) by lia.
  assert (H2 : 0 <= 1 <= 4) by lia.
  split; [exact H1 |]. split; [exact H2 |].
  split; [reflexivity |]. split; [reflexivity |].
  exact (proj1 (score_monotone 2 3 1 4 H1 H2)).
Defined.

(** ** [workload_scoring]: what a row holds *)

(** What one partition computes, for a period of at least two windows and a
    slice of fewer than [2 ^ 63] records. *)
Lemma score_slice_facts (df_slice : DataFrame)
    (num_of_all_days num_of_interval_days end_date : Z) (prev : option Z)
    (score current : Z) (s : Stats) :
  period_in_range end_date num_of_all_days num_of_interval_days ->
  2 * num_of_interval_days <= num_of_all_days ->
  Z.of_nat (List.length (records df_slice)) < 2 ^ 63 ->
  score_slice df_slice num_of_all_days num_of_interval_days end_date prev
  = Ok (score, current, s) ->
  exists (mean ste : F.float) (l r : Z),
    st_avg s = NpFloat mean /\ st_ste s = PyFloat ste /\
    (finite_below 290 mean /\ has_sign false mean) /\
    (finite_below 290 ste /\ has_sign false ste) /\
    F.trunc (F.sub mean ste) = Ok l /\ F.trunc (F.add mean ste) = Ok r /\
    l <= r /\ 0 <= r /\
    score = calc_workload_score l r current /\
    0 <= current <= Z.of_nat (List.length (records df_slice)).
Proof.
  intros Hp H2 Hsmall H. rewrite score_slice_eq in H by exact Hp.
  cbv zeta in H. destruct Hp as (Hi & Ha & _).
  set (m := num_of_all_days / num_of_interval_days) in *.
  assert (Hm : 2 <= m <= 999999999).
  { unfold m. split.
    - apply Z.div_le_lower_bound; lia.
    - apply Z.le_trans with num_of_all_days; [| lia].
      apply Z.div_le_upper_bound; nia. }
  set (series := baseline_counts _ _ _ _ _) in *.
  assert (Hlen : List.length series = Z.to_nat (m - 1)).
  { unfold series, baseline_counts, py_range.
    rewrite !length_map, length_seq. reflexivity. }
  destruct (statistics_facts series m)
    as (mean & var & std & ste & l & r & Hs & _ & Hmean & _ & _ & Hste
        & Hl & Hr & Hlr & Hr0).
  - apply Forall_forall. intros c Hc. unfold series, baseline_counts in Hc.
    apply in_map_iff in Hc. destruct Hc as (i & <- & _).
    pose proof (window_count_bounds (records df_slice)
      (window_start end_date num_of_all_days num_of_interval_days i)
      (window_end end_date num_of_all_days num_of_interval_days i)). lia.
  - intros E. rewrite E in Hlen. simpl in Hlen. lia.
  - rewrite Hlen. lia.
  - exact Hm.
  - rewrite Hs in H. cbn [bind] in H. unfold borders in H.
    cbn [st_avg st_ste num_sub num_add is_np orb as_float py_int] in H.
    rewrite Hl in H. cbn [bind] in H. rewrite Hr in H. cbn [bind] in H.
    injection H as <- <- <-.
    exists mean, ste, l, r. cbn [st_avg st_ste].
    repeat (split; [first [reflexivity | assumption] |]).
    apply window_count_bounds.
Qed.

Lemma Forall2_nth_error_r {A B : Type} (P : A -> B -> Prop) (l : list A)
    (l' : list B) :
  Forall2 P l l' ->
  forall k b, nth_error l' k = Some b ->
  exists a, nth_error l k = Some a /\ P a b.
Proof.
  induction 1 as [| x y l l' Hxy _ IH]; intros [| k] b Hk; simpl in Hk;
    try discriminate.
  - injection Hk as <-. exists x. auto.
  - apply IH. exact Hk.
Qed.

(** Every row of a table written for a valid configuration: its four
    statistics cells and what relates them. *)
Lemma output_row_facts (raw : DataFrame) (columns_list : list string)
    (num_of_all_days num_of_interval_days end_date : Z) (df : dict)
    (k : nat) :
  NoDup columns_list ->
  (forall c, In c columns_list -> ~ In c stat_names) ->
  valid_configuration raw columns_list num_of_all_days num_of_interval_days
    end_date ->
  scoring_table raw columns_list num_of_all_days num_of_interval_days
    end_date = Ok df ->
  (k < frame_height df)%nat ->
  exists (score current : Z) (mean ste : F.float) (l r : Z),
    nth_error (frame_column df "score_value") k
    = Some (CNum (PyInt score)) /\
    nth_error (frame_column df "count_last_period") k
    = Some (CNum (PyInt current)) /\
    nth_error (frame_column df "count_sem_calc_period") k
    = Some (CNum (PyFloat ste)) /\
    nth_error (frame_column df "count_mean_calc_period") k
    = Some (CNum (NpFloat mean)) /\
    (finite_below 290 mean /\ has_sign false mean) /\
    (finite_below 290 ste /\ has_sign false ste) /\
    F.trunc (F.sub mean ste) = Ok l /\ F.trunc (F.add mean ste) = Ok r /\
    l <= r /\ 0 <= r /\
    score = calc_workload_score l r current /\
    0 <= current <= Z.of_nat (List.length (records raw)).
Proof.
  intros Hnd Hns (Hne & Hex & Hp & Hw & Hsmall) Hdf Hk.
  destruct (scoring_table_inv raw columns_list num_of_all_days
              num_of_interval_days end_date Hnd Hns df Hdf)
    as (rows & Hhd & H1 & H2 & H3 & H4 & _ & Hrows).
  assert (Hh : frame_height df = List.length rows).
  { rewrite (frame_height_head _ _ Hhd). unfold frame_column. rewrite H1.
    apply length_map. }
  rewrite Hh in Hk.
  destruct (nth_error rows k) as [[[score current] s] |] eqn:Hrow;
    [| apply nth_error_None in Hrow; lia].
  destruct (Forall2_nth_error_r _ _ _ Hrows k _ Hrow)
    as (t & Ht & df_slice & prev & Hslice & Hscore).
  assert (Hlen : List.length t = List.length columns_list).
  { apply nth_error_In in Ht. rewrite product_lex in Ht.
    apply lex_product_In, Forall2_length in Ht.
    rewrite length_map in Ht. exact Ht. }
  apply (get_dataframe_slice_filter raw columns_list t df_slice Hlen)
    in Hslice.
  assert (Hsl : (List.length (records df_slice)
                 <= List.length (records raw))%nat).
  { subst df_slice. cbn [records]. apply filter_length_le. }
  destruct (score_slice_facts df_slice num_of_all_days num_of_interval_days
              end_date prev score current s Hp Hw ltac:(lia) Hscore)
    as (mean & ste & l & r & Havg & Hste & Fm & Fs & Hl & Hr & Hlr & Hr0
        & Hsc & Hcur).
  exists score, current, mean, ste, l, r.
  split; [exact (frame_column_nth df _ _ rows k _ H1 Hrow) |].
  split; [exact (frame_column_nth df _ _ rows k _ H2 Hrow) |].
  split.
  { rewrite <- Hste. exact (frame_column_nth df _ _ rows k _ H3 Hrow). }
  split.
  { rewrite <- Havg. exact (frame_column_nth df _ _ rows k _ H4 Hrow). }
  repeat (split; [assumption |]). lia.
Qed.

(** X8.  In a table written for a valid configuration no statistic is
    [nan], infinite or negative: in every row the mean and the standard
    error are finite doubles that are not below zero, the score is 0, 1 or
    2, and the last count lies between 0 and the number of loaded
    records. *)
Theorem output_values_in_range (raw : DataFrame) (columns_list : list string)
    (num_of_all_days num_of_interval_days end_date : Z) (df : dict)
    (k : nat) :
  NoDup columns_list ->
  (forall c, In c columns_list -> ~ In c stat_names) ->
  valid_configuration raw columns_list num_of_all_days num_of_interval_days
    end_date ->
  scoring_table raw columns_list num_of_all_days num_of_interval_days
    end_date = Ok df ->
  (k < frame_height df)%nat ->
  exists (score current : Z) (mean ste : F.float),
    nth_error (frame_column df "score_value") k
    = Some (CNum (PyInt score)) /\
    nth_error (frame_column df "count_last_period") k
    = Some (CNum (PyInt current)) /\
    nth_error (frame_column df "count_sem_calc_period") k
    = Some (CNum (PyFloat ste)) /\
    nth_error (frame_column df "count_mean_calc_period") k
    = Some (CNum (NpFloat mean)) /\
    (score = 0 \/ score = 1 \/ score = 2) /\
    0 <= current <= Z.of_nat (List.length (records raw)) /\
    F.is_finite mean = true /\ float_nonneg mean = true /\
    F.is_finite ste = true /\ float_nonneg ste = true.
Proof.
  intros Hnd Hns Hv Hdf Hk.
  destruct (output_row_facts raw columns_list num_of_all_days
              num_of_interval_days end_date df k Hnd Hns Hv Hdf Hk)
    as (score & current & mean & ste & l & r & C1 & C2 & C3 & C4
        & (Fm & Sm) & (Fs & Ss) & _ & _ & _ & _ & Hsc & Hcur).
  exists score, current, mean, ste.
  repeat (split; [assumption |]).
  split; [subst score; apply score_range |].
  split; [exact Hcur |].
  split; [exact (finite_below_finite _ _ Fm) |].
  split; [exact (finite_below_nonneg _ _ Fm Sm) |].
  split; [exact (finite_below_finite _ _ Fs) |].
  exact (finite_below_nonneg _ _ Fs Ss).
Qed.

(** X9.  In a table written for a valid configuration the score of every
    row can be recomputed from the row's other statistics: the bounds
    [int(mean - ste)] and [int(mean + ste)] are integers with the left one
    not above the right one and the right one not negative, the score is
    the classifier's result on them and the row's last count, and it is 2
    exactly when the last count exceeds the right bound. *)
Theorem output_score_consistent (raw : DataFrame)
    (columns_list : list string)
    (num_of_all_days num_of_interval_days end_date : Z) (df : dict)
    (k : nat) :
  NoDup columns_list ->
  (forall c, In c columns_list -> ~ In c stat_names) ->
  valid_configuration raw columns_list num_of_all_days num_of_interval_days
    end_date ->
  scoring_table raw columns_list num_of_all_days num_of_interval_days
    end_date = Ok df ->
  (k < frame_height df)%nat ->
  exists (score current : Z) (mean ste : F.float) (l r : Z),
    nth_error (frame_column df "score_value") k
    = Some (CNum (PyInt score)) /\
    nth_error (frame_column df "count_last_period") k
    = Some (CNum (PyInt current)) /\
    nth_error (frame_column df "count_sem_calc_period") k
    = Some (CNum (PyFloat ste)) /\
    nth_error (frame_column df "count_mean_calc_period") k
    = Some (CNum (NpFloat mean)) /\
    F.trunc (F.sub mean ste) = Ok l /\ F.trunc (F.add mean ste) = Ok r /\
    l <= r /\ 0 <= r /\
    score = calc_workload_score l r current /\
    (score = 2 <-> r < current).
Proof.
  intros Hnd Hns Hv Hdf Hk.
  destruct (output_row_facts raw columns_list num_of_all_days
              num_of_interval_days end_date df k Hnd Hns Hv Hdf Hk)
    as (score & current & mean & ste & l & r & C1 & C2 & C3 & C4
        & _ & _ & Hl & Hr & Hlr & Hr0 & Hsc & Hcur).
  exists score, current, mean, ste, l, r.
  repeat (split; [assumption |]).
  subst score. apply score_two_iff; lia.
Qed.

Lemma output_values_in_range_witness :
  NoDup two_dimensions_columns /\
  (forall c, In c two_dimensions_columns -> ~ In c stat_names) /\
  valid_configuration two_dimensions two_dimensions_columns 28 7
    april_first_2017 /\
  scoring_table two_dimensions two_dimensions_columns 28 7 april_first_2017
  = Ok two_dimensions_output /\
  (0 < frame_height two_dimensions_output)%nat /\
  exists (score current : Z) (mean ste : F.float),
    nth_error (frame_column two_dimensions_output "score_value") 0
    = Some (CNum (PyInt score)) /\
    nth_error (frame_column two_dimensions_output "count_last_period") 0
    = Some (CNum (PyInt current)) /\
    nth_error (frame_column two_dimensions_output "count_sem_calc_period") 0
    = Some (CNum (PyFloat ste)) /\
    nth_error (frame_column two_dimensions_output "count_mean_calc_period") 0
    = Some (CNum (NpFloat mean)) /\
    (score = 0 \/ score = 1 \/ score = 2) /\
    0 <= current <= Z.of_nat (List.length (records two_dimensions)) /\
    F.is_finite mean = true /\ float_nonneg mean = true /\
    F.is_finite ste = true /\ float_nonneg ste = true.
Proof.
  assert (Hnd : NoDup two_dimensions_columns)
    by (repeat constructor; simpl; intuition discriminate).
  assert (Hns : forall c, In c two_dimensions_columns -> ~ In c stat_names)
    by (intros c Hc Hs; simpl in Hc, Hs; intuition (subst; discriminate)).
  assert (Hv : valid_configuration two_dimensions two_dimensions_columns 28 7
                 april_first_2017).
  { unfold valid_configuration, period_in_range.
    split; [discriminate |].
    split; [intros c Hc; simpl in Hc; simpl; tauto |].
    repeat split; try lia; vm_compute; reflexivity. }
  assert (Hdf : scoring_table two_dimensions two_dimensions_columns 28 7
                  april_first_2017 = Ok two_dimensions_output)
    by (vm_compute; reflexivity).
  assert (Hk : (0 < frame_height two_dimensions_output)%nat)
    by (vm_compute; lia).
  split; [exact Hnd |]. split; [exact Hns |]. split; [exact Hv |].
  split; [exact Hdf |]. split; [exact Hk |].
  exact (output_values_in_range two_dimensions two_dimensions_columns 28 7
           april_first_2017 two_dimensions_output 0 Hnd Hns Hv Hdf Hk).
Defined.

Lemma output_score_consistent_witness :
  NoDup two_dimensions_columns /\
  (forall c, In c two_dimensions_columns -> ~ In c stat_names) /\
  valid_configuration two_dimensions two_dimensions_columns 28 7
    april_first_2017 /\
  scoring_table two_dimensions two_dimensions_columns 28 7 april_first_2017
  = Ok two_dimensions_output /\
  (0 < frame_height two_dimensions_output)%nat /\
  exists (score current : Z) (mean ste : F.float) (l r : Z),
    nth_error (frame_column two_dimensions_output "score_value") 0
    = Some (CNum (PyInt score)) /\
    nth_error (frame_column two_dimensions_output "count_last_period") 0
    = Some (CNum (PyInt current)) /\
    nth_error (frame_column two_dimensions_output "count_sem_calc_period") 0
    = Some (CNum (PyFloat ste)) /\
    nth_error (frame_column two_dimensions_output "count_mean_calc_period") 0
    = Some (CNum (NpFloat mean)) /\
    F.trunc (F.sub mean ste) = Ok l /\ F.trunc (F.add mean ste) = Ok r /\
    l <= r /\ 0 <= r /\
    score = calc_workload_score l r current /\
    (score = 2 <-> r < current).
Proof.
  assert (Hnd : NoDup two_dimensions_columns)
    by (repeat constructor; simpl; intuition discriminate).
  assert (Hns : forall c, In c two_dimensions_columns -> ~ In c stat_names)
    by (intros c Hc Hs; simpl in Hc, Hs; intuition (subst; discriminate)).
  assert (Hv : valid_configuration two_dimensions two_dimensions_columns 28 7
                 april_first_2017).
  { unfold valid_configuration, period_in_range.
    split; [discriminate |].
    split; [intros c Hc; simpl in Hc; simpl; tauto |].
    repeat split; try lia; vm_compute; reflexivity. }
  assert (Hdf : scoring_table two_dimensions two_dimensions_columns 28 7
                  april_first_2017 = Ok two_dimensions_output)
    by (vm_compute; reflexivity).
  assert (Hk : (0 < frame_height two_dimensions_output)%nat)
    by (vm_compute; lia).
  split; [exact Hnd |]. split; [exact Hns |]. split; [exact Hv |].
  split; [exact Hdf |]. split; [exact Hk |].
  exact (output_score_consistent two_dimensions two_dimensions_columns 28 7
           april_first_2017 two_dimensions_output 0 Hnd Hns Hv Hdf Hk).
Defined.

(** ** [workload_scoring]: the count carried from one partition to the
    next *)

(** The windows loop started with two different values of
    [num_tasks_per_current_week]: both runs raise the same exception, or
    return the same baseline series; the current counts they return are
    equal as soon as the index [num_of_intervals - 1] is visited. *)
Lemma count_windows_previous (df_slice : list record)
    (delta num_of_intervals : Z) (indices : list Z) :
  forall (fst_cur_date snd_cur_date : Z) (hist : list Z)
         (prev prev' : option Z),
  match count_windows df_slice delta num_of_intervals indices fst_cur_date
          snd_cur_date hist prev,
        count_windows df_slice delta num_of_intervals indices fst_cur_date
          snd_cur_date hist prev' with
  | Ok (h, c), Ok (h', c') =>
      h = h' /\ (In (num_of_intervals - 1) indices -> c = c')
  | Raise e, Raise e' => e = e'
  | _, _ => False
  end.
Proof.
  induction indices as [| i rest IH]; intros f s hist prev prev';
    cbn [count_windows].
  - split; [reflexivity | intros []].
  - destruct (date_add f delta) as [f' |]; cbn [bind]; [| reflexivity].
    destruct (date_add s delta) as [s' |]; cbn [bind]; [| reflexivity].
    destruct (Z.eqb_spec i (num_of_intervals - 1)) as [Hi | Hi]; cbn [negb].
    + set (n := count_unique _).
      destruct (count_windows df_slice delta num_of_intervals rest f' s'
                  hist (Some n)) as [[h c] | e]; auto.
    + specialize (IH f' s' (hist ++ [count_unique
        (map id (filter (in_window f s) df_slice))]) prev prev').
      destruct (count_windows _ _ _ rest f' s' _ prev) as [[h c] | e],
        (count_windows _ _ _ rest f' s' _ prev') as [[h' c'] | e'];
        try contradiction; [| exact IH].
      destruct IH as [Hh Hc]. split; [exact Hh |].
      intros [Hin | Hin]; [congruence | auto].
Qed.

(** X10.  The score of a partition never uses the current count left by
    an earlier partition, although the local [num_tasks_per_current_week]
    survives from one iteration to the next: with at least one window the
    last window assigns it before it is read, and without a window the
    statistics raise before line 218 reads it. *)
Theorem score_ignores_previous_count (df_slice : DataFrame)
    (num_of_all_days num_of_interval_days end_date : Z)
    (prev prev' : option Z) :
  score_slice df_slice num_of_all_days num_of_interval_days end_date prev
  = score_slice df_slice num_of_all_days num_of_interval_days end_date prev'.
Proof.
  unfold score_slice.
  destruct (strptime_date end_date) as [d |]; cbn [bind]; [| reflexivity].
  destruct (timedelta num_of_all_days) as [a |]; cbn [bind];
    [| reflexivity].
  destruct (date_sub d a) as [f |]; cbn [bind]; [| reflexivity].
  destruct (timedelta num_of_interval_days) as [delta |]; cbn [bind];
    [| reflexivity].
  destruct (date_add f delta) as [s |]; cbn [bind]; [| reflexivity].
  destruct (num_intervals num_of_all_days num_of_interval_days) as [m |];
    cbn [bind]; [| reflexivity].
  pose proof (count_windows_previous (records df_slice) delta m (py_range m)
                f s [] prev prev') as H.
  destruct (Z.le_gt_cases m 0) as [Hm | Hm].
  - assert (Hr : py_range m = []).
    { unfold py_range. replace (Z.to_nat m) with O by lia. reflexivity. }
    rewrite Hr. cbn [count_windows bind].
    destruct (baseline_stats_empty_raises m ltac:(lia)) as (e & ->).
    reflexivity.
  - assert (Hin : In (m - 1) (py_range m)).
    { unfold py_range. apply in_map_iff. exists (Z.to_nat (m - 1)).
      split; [lia | apply in_seq; lia]. }
    destruct (count_windows _ _ _ _ _ _ _ prev) as [[h c] | e],
      (count_windows _ _ _ _ _ _ _ prev') as [[h' c'] | e'];
      try contradiction.
    + destruct H as [-> Hc]. rewrite (Hc Hin). reflexivity.
    + subst e'. reflexivity.
Qed.

(** ** [workload_scoring]: tuples without records, records with their
    row *)

Lemma baseline_counts_no_records
    (end_date num_of_all_days num_of_interval_days m : Z) :
  baseline_counts [] end_date num_of_all_days num_of_interval_days m
  = repeat 0 (Z.to_nat (m - 1)).
Proof.
  unfold baseline_counts, py_range. rewrite map_map.
  rewrite map_all_zero; [rewrite length_seq; reflexivity |].
  intros j _. reflexivity.
Qed.

(** X11.  A tuple of the Cartesian product that no record matches, which
    is the case of every tuple holding a missing value, still gets its row:
    for a period of at least two windows the row has the last count 0, the
    mean and the standard error [0.0], and the score 0. *)
Theorem unmatched_tuple_row (raw : DataFrame) (columns_list : list string)
    (num_of_all_days num_of_interval_days end_date : Z) (df : dict)
    (k : nat) (t : list value) :
  NoDup columns_list ->
  (forall c, In c columns_list -> ~ In c stat_names) ->
  period_in_range end_date num_of_all_days num_of_interval_days ->
  2 * num_of_interval_days <= num_of_all_days ->
  scoring_table raw columns_list num_of_all_days num_of_interval_days
    end_date = Ok df ->
  nth_error
    (product (map (fun c => unique (column_values raw c)) columns_list)) k
  = Some t ->
  In VNaN t \/
  (forall r, In r (records raw) -> record_tuple raw columns_list r <> t) ->
  nth_error (frame_rows df columns_list) k = Some (map CVal t) /\
  nth_error (frame_column df "score_value") k = Some (CNum (PyInt 0)) /\
  nth_error (frame_column df "count_last_period") k
  = Some (CNum (PyInt 0)) /\
  nth_error (frame_column df "count_sem_calc_period") k
  = Some (CNum (PyFloat F.zero)) /\
  nth_error (frame_column df "count_mean_calc_period") k
  = Some (CNum (NpFloat F.zero)).
Proof.
  intros Hnd Hns Hp Hw Hdf Hk Hun.
  destruct (table_row raw columns_list num_of_all_days num_of_interval_days
              end_date df k t Hnd Hns Hdf Hk)
    as (rows & row & prev & Hinv & Hrow & Hlen & Hscore).
  pose proof Hinv as (_ & H1 & H2 & H3 & H4 & _ & _).
  assert (Hnone : filter (row_matches raw columns_list t) (records raw) = []).
  { destruct (filter _ _) as [| r rest] eqn:E; [reflexivity |].
    assert (Hr : In r (filter (row_matches raw columns_list t) (records raw)))
      by (rewrite E; left; reflexivity).
    apply filter_In in Hr. destruct Hr as [Hr Hm].
    apply (row_matches_spec raw r columns_list t Hlen) in Hm.
    destruct Hm as [Ht Hn]. destruct Hun as [Hnan | Hno]; [tauto |].
    exfalso. apply (Hno r Hr). symmetry. exact Ht. }
  rewrite Hnone, score_slice_eq in Hscore by exact Hp.
  cbv zeta in Hscore. cbn [records] in Hscore.
  destruct Hp as (Hi & Ha & _).
  set (m := num_of_all_days / num_of_interval_days) in *.
  assert (Hm : 2 <= m <= 999999999).
  { unfold m. split.
    - apply Z.div_le_lower_bound; lia.
    - apply Z.le_trans with num_of_all_days; [| lia].
      apply Z.div_le_upper_bound; nia. }
  rewrite baseline_counts_no_records, (baseline_stats_zeros m Hm) in Hscore.
  cbn [bind] in Hscore.
  change (borders zero_stats) with (@Ok (Z * Z) (0, 0)) in Hscore.
  cbn [bind] in Hscore.
  change (current_count [] end_date num_of_all_days num_of_interval_days m)
    with 0 in Hscore.
  injection Hscore as <-.
  split.
  { rewrite (table_inv_rows raw columns_list num_of_all_days
               num_of_interval_days end_date df _ rows Hinv
               (product_tuple_lengths raw columns_list)).
    rewrite nth_error_map, Hk. reflexivity. }
  split; [exact (frame_column_nth df _ _ rows k _ H1 Hrow) |].
  split; [exact (frame_column_nth df _ _ rows k _ H2 Hrow) |].
  split; [exact (frame_column_nth df _ _ rows k _ H3 Hrow) |].
  exact (frame_column_nth df _ _ rows k _ H4 Hrow).
Qed.

Lemma unmatched_tuple_row_witness :
  NoDup ["assignee"%string] /\
  (forall c, In c ["assignee"%string] -> ~ In c stat_names) /\
  period_in_range april_first_2017 28 7 /\
  2 * 7 <= 28 /\
  scoring_table missing_assignee ["assignee"%string] 28 7 april_first_2017
  = Ok missing_assignee_output /\
  nth_error
    (product (map (fun c => unique (column_values missing_assignee c))
                ["assignee"%string])) 1
  = Some [VNaN] /\
  nth_error (frame_rows missing_assignee_output ["assignee"%string]) 1
  = Some [CVal VNaN] /\
  nth_error (frame_column missing_assignee_output "count_last_period") 1
  = Some (CNum (PyInt 0)).
Proof.
  assert (Hnd : NoDup ["assignee"%string])
    by (repeat constructor; simpl; tauto).
  assert (Hns : forall c, In c ["assignee"%string] -> ~ In c stat_names)
    by (intros c Hc Hs; simpl in Hc, Hs; intuition (subst; discriminate)).
  assert (Hp : period_in_range april_first_2017 28 7).
  { unfold period_in_range. repeat split; try lia; vm_compute; reflexivity. }
  assert (Hw : 2 * 7 <= 28) by lia.
  assert (Hdf : scoring_table missing_assignee ["assignee"%string] 28 7
                  april_first_2017 = Ok missing_assignee_output)
    by (vm_compute; reflexivity).
  assert (Hk : nth_error
                 (product
                    (map (fun c => unique (column_values missing_assignee c))
                       ["assignee"%string])) 1
               = Some [VNaN]) by (vm_compute; reflexivity).
  destruct (unmatched_tuple_row missing_assignee ["assignee"%string] 28 7
              april_first_2017 missing_assignee_output 1 [VNaN]
              Hnd Hns Hp Hw Hdf Hk (or_introl (or_introl eq_refl)))
    as (Hrow & _ & Hcount & _).
  split; [exact Hnd |]. split; [exact Hns |]. split; [exact Hp |].
  split; [exact Hw |]. split; [exact Hdf |]. split; [exact Hk |].
  split; [exact Hrow | exact Hcount].
Defined.

(** X12.  No complete record is lost: a record of the loaded table that
    has a value in every listed column and was updated within the last
    window is counted in the row of its own tuple, whose last count is
    therefore at least 1. *)
Theorem record_counted_in_its_row (raw : DataFrame)
    (columns_list : list string)
    (num_of_all_days num_of_interval_days end_date : Z) (df : dict)
    (r : record) :
  NoDup columns_list ->
  (forall c, In c columns_list -> ~ In c stat_names) ->
  (forall c, In c columns_list -> In c (column_names raw)) ->
  period_in_range end_date num_of_all_days num_of_interval_days ->
  scoring_table raw columns_list num_of_all_days num_of_interval_days
    end_date = Ok df ->
  In r (records raw) ->
  ~ In VNaN (record_tuple raw columns_list r) ->
  let m := num_of_all_days / num_of_interval_days in
  window_start end_date num_of_all_days num_of_interval_days (m - 1)
  <= updated r
  <= window_end end_date num_of_all_days num_of_interval_days (m - 1) ->
  exists (k : nat) (count : Z),
    nth_error (frame_rows df columns_list) k
    = Some (map CVal (record_tuple raw columns_list r)) /\
    nth_error (frame_column df "count_last_period") k
    = Some (CNum (PyInt count)) /\
    1 <= count.
Proof.
  intros Hnd Hns Hex Hp Hdf Hr Hnan m Hwin.
  pose proof (record_tuple_in_product raw columns_list r Hex Hr) as Hin.
  apply In_nth_error in Hin. destruct Hin as (k & Hk).
  destruct (table_row raw columns_list num_of_all_days num_of_interval_days
              end_date df k _ Hnd Hns Hdf Hk)
    as (rows & row & prev & Hinv & Hrow & Hlen & Hscore).
  pose proof Hinv as (_ & _ & H2 & _).
  rewrite score_slice_eq in Hscore by exact Hp.
  cbv zeta in Hscore. cbn [records] in Hscore. fold m in Hscore.
  inv_bind Hscore. inv_bind Hscore. destruct x0 as [lb rb].
  injection Hscore as <-.
  exists k.
  eexists. split; [| split].
  - rewrite (table_inv_rows raw columns_list num_of_all_days
               num_of_interval_days end_date df _ rows Hinv
               (product_tuple_lengths raw columns_list)).
    rewrite nth_error_map, Hk. reflexivity.
  - exact (frame_column_nth df _ _ rows k _ H2 Hrow).
  - cbn [fst snd]. unfold current_count.
    apply (window_count_pos _ _ _ r).
    + apply filter_In. split; [exact Hr |].
      apply (row_matches_spec raw r columns_list _ Hlen). auto.
    + unfold in_window. apply andb_true_iff. lia.
Qed.

Lemma record_counted_in_its_row_witness :
  let r := mk_record 5 (april_first_2017 - 40) (april_first_2017 - 2)
             [VStr "b"; VStr "us"] in
  NoDup two_dimensions_columns /\
  (forall c, In c two_dimensions_columns -> ~ In c stat_names) /\
  (forall c, In c two_dimensions_columns ->
             In c (column_names two_dimensions)) /\
  period_in_range april_first_2017 28 7 /\
  scoring_table two_dimensions two_dimensions_columns 28 7 april_first_2017
  = Ok two_dimensions_output /\
  In r (records two_dimensions) /\
  ~ In VNaN (record_tuple two_dimensions two_dimensions_columns r) /\
  window_start april_first_2017 28 7 (28 / 7 - 1) <= updated r
  <= window_end april_first_2017 28 7 (28 / 7 - 1) /\
  exists (k : nat) (count : Z),
    nth_error (frame_rows two_dimensions_output two_dimensions_columns) k
    = Some (map CVal (record_tuple two_dimensions two_dimensions_columns r))
    /\
    nth_error (frame_column two_dimensions_output "count_last_period") k
    = Some (CNum (PyInt count)) /\
    1 <= count.
Proof.
  intros r.
  assert (Hnd : NoDup two_dimensions_columns)
    by (repeat constructor; simpl; intuition discriminate).
  assert (Hns : forall c, In c two_dimensions_columns -> ~ In c stat_names)
    by (intros c Hc Hs; simpl in Hc, Hs; intuition (subst; discriminate)).
  assert (Hex : forall c, In c two_dimensions_columns ->
                          In c (column_names two_dimensions))
    by (intros c Hc; simpl in Hc; simpl; tauto).
  assert (Hp : period_in_range april_first_2017 28 7).
  { unfold period_in_range. repeat split; try lia; vm_compute; reflexivity. }
  assert (Hdf : scoring_table two_dimensions two_dimensions_columns 28 7
                  april_first_2017 = Ok two_dimensions_output)
    by (vm_compute; reflexivity).
  assert (Hr : In r (records two_dimensions)) by (simpl; tauto).
  assert (Hn : ~ In VNaN (record_tuple two_dimensions
                            two_dimensions_columns r))
    by (vm_compute; intuition discriminate).
  assert (Hwin : window_start april_first_2017 28 7 (28 / 7 - 1) <= updated r
                 <= window_end april_first_2017 28 7 (28 / 7 - 1))
    by (vm_compute; split; discriminate).
  split; [exact Hnd |]. split; [exact Hns |]. split; [exact Hex |].
  split; [exact Hp |]. split; [exact Hdf |]. split; [exact Hr |].
  split; [exact Hn |]. split; [exact Hwin |].
  exact (record_counted_in_its_row two_dimensions two_dimensions_columns 28 7
           april_first_2017 two_dimensions_output r Hnd Hns Hex Hp Hdf Hr Hn
           Hwin).
Defined.

(** ** [write_table] *)

Lemma convert_columns_unknown (env : Libraries) (out : dict)
    (column2type : list (string * string)) (columns : list string) :
  forall insert_df,
  (exists c, In c columns /\ dict_get out c = None) ->
  exists e, convert_columns env out column2type columns insert_df = Failed e.
Proof.
  induction columns as [| col rest IH]; intros insert_df (c & Hc & Hn);
    [contradiction |].
  cbn [convert_columns].
  destruct (dict_get out col) as [series |] eqn:Hs; [| eauto].
  destruct (assoc column2type col) as [type |]; [| eauto].
  destruct (astype env series type) as [converted | e]; [| eauto].
  apply IH. exists c. split; [| exact Hn].
  destruct Hc as [-> | Hc]; [congruence | exact Hc].
Qed.

(** What the conversion loop leaves in [insert_df]. *)
Lemma convert_columns_spec (env : Libraries) (out : dict)
    (column2type : list (string * string)) (columns : list string) :
  forall insert_df result,
  convert_columns env out column2type columns insert_df = Done result ->
  (forall k, ~ In k columns -> dict_get result k = dict_get insert_df k) /\
  (forall col, In col columns ->
     exists series type converted,
       dict_get out col = Some series /\
       assoc column2type col = Some type /\
       astype env series type = Done converted /\
       dict_get result col = Some converted).
Proof.
  induction columns as [| col rest IH]; intros insert_df result H;
    cbn [convert_columns] in H.
  - injection H as <-. split; [reflexivity | intros col []].
  - destruct (dict_get out col) as [series |] eqn:Hs; [| discriminate].
    destruct (assoc column2type col) as [type |] eqn:Ht; [| discriminate].
    destruct (astype env series type) as [converted | e] eqn:Ha;
      [| discriminate].
    destruct (IH _ _ H) as (Hout & Hin). split.
    + intros k Hk. rewrite Hout by (intros Hr; apply Hk; right; exact Hr).
      apply dict_set_get_other. intros ->. apply Hk. left. reflexivity.
    + intros c [<- | Hc]; [| apply Hin; exact Hc].
      destruct (in_dec string_dec col rest) as [Hr | Hr];
        [apply Hin; exact Hr |].
      exists series, type, converted.
      repeat split; try assumption.
      rewrite (Hout col Hr). apply dict_set_get_same.
Qed.

(** X13.  When [columns] names a column the output table does not have,
    [write_table] raises after its schema query and uploads nothing,
    whatever BigQuery and pandas answer. *)
Theorem write_table_unknown_column (env : Libraries)
    (dataset_id table_id dev_name : string) (columns : list string)
    (self : Client) (out : dict) :
  out_df (frames self) = Some out ->
  (exists c, In c columns /\ dict_get out c = None) ->
  exists (e : raised) (sql : string),
    write_table env dataset_id table_id dev_name (Some columns) self
    = (IoRaises e, [ReadGbq sql (project_id self)]).
Proof.
  intros Hout Hc. unfold write_table. rewrite Hout. cbv zeta.
  destruct (read_gbq_dtypes env _ (project_id self)) as [types | e];
    [| eauto].
  destruct (convert_columns_unknown env out types columns [] Hc) as (e & ->).
  eauto.
Qed.

(** X14.  When [write_table] returns normally it has sent exactly two
    requests: the schema query for the chosen columns of the destination
    table, then one upload to that table.  The uploaded frame holds, for
    each chosen column, the column of the output table converted to the
    dtype the schema query gave for it, and a column [developer] made of
    [dev_name] repeated; it has no other column. *)
Theorem write_table_uploads (env : Libraries)
    (dataset_id table_id dev_name : string) (columns : option (list string))
    (self : Client) (out : dict) (trace : list request) :
  out_df (frames self) = Some out ->
  write_table env dataset_id table_id dev_name columns self
  = (IoReturns None, trace) ->
  let chosen :=
    match columns with
    | None => map fst out
    | Some columns => columns
    end in
  let destination_table := (dataset_id ++ "." ++ table_id)%string in
  let sql :=
    ("select " ++ join ", " chosen ++ " from `" ++ destination_table
     ++ "` limit 0")%string in
  exists (types : list (string * string)) (frame : dict)
         (developer : list cell) (height : nat),
    trace = [ReadGbq sql (project_id self);
             ToGbq frame (project_id self) destination_table] /\
    read_gbq_dtypes env sql (project_id self) = Done types /\
    astype env (repeat (CVal (VStr dev_name)) height) "str" = Done developer /\
    dict_get frame "developer" = Some developer /\
    (forall col, In col chosen -> col <> "developer"%string ->
       exists series type converted,
         dict_get out col = Some series /\
         assoc types col = Some type /\
         astype env series type = Done converted /\
         dict_get frame col = Some converted) /\
    (forall k, ~ In k chosen -> k <> "developer"%string ->
       dict_get frame k = None).
Proof.
  intros Hout H chosen destination_table sql.
  unfold write_table in H. rewrite Hout in H. cbv zeta in H.
  fold chosen destination_table in H. fold sql in H.
  destruct (read_gbq_dtypes env sql (project_id self)) as [types | e] eqn:Hq;
    [| discriminate].
  destruct (convert_columns env out types chosen []) as [insert_df | e]
    eqn:Hconv; [| discriminate].
  destruct (astype env _ "str"%string) as [developer | e] eqn:Hdev;
    [| discriminate].
  destruct (to_gbq env _ _ _) as [u | e]; [| discriminate].
  injection H as <-.
  destruct (convert_columns_spec env out types chosen [] insert_df Hconv)
    as (Hother & Hin).
  exists types, (dict_set insert_df "developer" developer), developer,
    (frame_height insert_df).
  split; [reflexivity |]. split; [reflexivity |]. split; [exact Hdev |].
  split; [apply dict_set_get_same |]. split.
  - intros col Hc Hne.
    destruct (Hin col Hc) as (series & type & converted & A & B & C & D).
    exists series, type, converted. repeat split; try assumption.
    rewrite dict_set_get_other by exact Hne. exact D.
  - intros k Hk Hne. rewrite dict_set_get_other by exact Hne.
    rewrite (Hother k Hk). reflexivity.
Qed.

Lemma write_table_unknown_column_witness :
  out_df (frames scored_client) = Some two_dimensions_output /\
  (exists c, In c ["assignee"; "city"]%string /\
             dict_get two_dimensions_output c = None) /\
  write_table answering_libraries "scores" "weekly" "default.developer"
    (Some ["assignee"; "city"]%string) scored_client
  = (IoRaises (Builtin KeyError),
     [ReadGbq "select assignee, city from `scores.weekly` limit 0"
        "school"]).
Proof.
  assert (Hout : out_df (frames scored_client) = Some two_dimensions_output)
    by reflexivity.
  assert (Hc : exists c, In c ["assignee"; "city"]%string /\
                         dict_get two_dimensions_output c = None).
  { exists "city"%string. split; [simpl; tauto | reflexivity]. }
  split; [exact Hout |]. split; [exact Hc |].
  destruct (write_table_unknown_column answering_libraries "scores" "weekly"
              "default.developer" ["assignee"; "city"]%string scored_client
              two_dimensions_output Hout Hc) as (e & sql & H).
  rewrite H. vm_compute in H. injection H as <- <-. reflexivity.
Defined.

Lemma write_table_uploads_witness :
  let call :=
    write_table answering_libraries "scores" "weekly" "default.developer"
      (Some ["assignee"; "score_value"]%string) scored_client in
  out_df (frames scored_client) = Some two_dimensions_output /\
  call = (IoReturns None, snd call) /\
  exists frame : dict,
    snd call
    = [ReadGbq "select assignee, score_value from `scores.weekly` limit 0"
         "school";
       ToGbq frame "school" "scores.weekly"] /\
    map fst frame = ["assignee"; "score_value"; "developer"]%string /\
    dict_get frame "developer"
    = Some (repeat (CVal (VStr "default.developer")) 4).
Proof.
  intros call.
  assert (Hout : out_df (frames scored_client) = Some two_dimensions_output)
    by reflexivity.
  assert (Hcall : call = (IoReturns None, snd call))
    by (vm_compute; reflexivity).
  split; [exact Hout |]. split; [exact Hcall |].
  destruct (write_table_uploads answering_libraries "scores" "weekly"
              "default.developer" (Some ["assignee"; "score_value"]%string)
              scored_client two_dimensions_output (snd call) Hout Hcall)
    as (types & frame & developer & height & Htrace & _).
  exists frame. split; [exact Htrace |].
  vm_compute in Htrace. injection Htrace as <-.
  split; vm_compute; reflexivity.
Defined.

(** ** The life of an object *)

(** X15.  A new object holds no table.  Until [read_table] succeeds,
    [workload_scoring] returns ['load data'] and changes nothing; until a
    scoring call completes, [write_table] returns
    ['calc workload scoring'] and sends no request, also after a
    [read_table] that failed or succeeded.  [__init__] itself raises
    [KeyError] when the credentials have no ['project_id'], before the
    credentials are parsed. *)
Theorem new_object_guards (env : Libraries)
    (credentials : list (string * string)) :
  (assoc credentials "project_id" = None ->
   init env credentials = Failed (Builtin KeyError)) /\
  forall self : Client,
    init env credentials = Done self ->
    assoc credentials "project_id" = Some (project_id self) /\
    (forall columns_list num_of_all_days num_of_interval_days end_date,
       client_scoring columns_list num_of_all_days num_of_interval_days
         end_date self
       = (Returns (Some "load data"%string), self)) /\
    (forall env' dataset_id table_id dev_name columns,
       write_table env' dataset_id table_id dev_name columns self
       = (IoReturns (Some "calc workload scoring"%string), [])) /\
    (forall env' env'' dataset_id table_id items dataset_id' table_id'
            dev_name columns,
       write_table env'' dataset_id' table_id' dev_name columns
         (snd (read_table env' dataset_id table_id items self))
       = (IoReturns (Some "calc workload scoring"%string), [])).
Proof.
  unfold init. split.
  - intros ->. reflexivity.
  - intros self H.
    destruct (assoc credentials "project_id") as [project |];
      [| discriminate].
    destruct (from_service_account_info env credentials); [| discriminate].
    injection H as <-. cbn [project_id].
    split; [reflexivity |]. split; [reflexivity |].
    split; [reflexivity |].
    intros env' env'' dataset_id table_id items dataset_id' table_id'
      dev_name columns.
    unfold read_table. cbn [project_id frames out_df].
    destruct (read_gbq env' _ _); reflexivity.
Qed.

(** X16.  The output table outlives everything but a scoring call that
    completes.  After a scoring call that raises or returns
    ['load data'], and after any [read_table], successful or not,
    [write_table] does what it did before: it uploads the table of the last
    completed scoring, computed from the table loaded then.  After a
    scoring call that completes, [write_table] passes its guard and starts
    with the schema query. *)
Theorem output_table_outlives (env : Libraries)
    (dataset_id table_id dev_name : string) (columns : option (list string))
    (self : Client) :
  (forall columns_list num_of_all_days num_of_interval_days end_date,
     let after :=
       client_scoring columns_list num_of_all_days num_of_interval_days
         end_date self in
     match fst after with
     | Returns None =>
         exists sql rest,
           snd (write_table env dataset_id table_id dev_name columns
                  (snd after))
           = ReadGbq sql (project_id self) :: rest
     | _ =>
         write_table env dataset_id table_id dev_name columns (snd after)
         = write_table env dataset_id table_id dev_name columns self
     end) /\
  (forall env' dataset_id' table_id' items,
     write_table env dataset_id table_id dev_name columns
       (snd (read_table env' dataset_id' table_id' items self))
     = write_table env dataset_id table_id dev_name columns self).
Proof.
  split.
  - intros columns_list num_of_all_days num_of_interval_days end_date.
    unfold client_scoring, workload_scoring. cbv zeta.
    destruct self as [[raw out] project]. cbn [frames raw_df out_df].
    destruct raw as [raw |]; cbn [fst snd]; [| reflexivity].
    destruct (scoring_table raw columns_list num_of_all_days
                num_of_interval_days end_date) as [df | e];
      cbn [fst snd]; [| reflexivity].
    unfold write_table. cbn [frames out_df project_id]. cbv zeta.
    destruct (read_gbq_dtypes env _ project);
      [| cbn [snd]; eauto].
    destruct (convert_columns env df _ _ _); [| cbn [snd]; eauto].
    destruct (astype env _ _); [| cbn [snd]; eauto].
    destruct (to_gbq env _ _ _); cbn [snd]; eauto.
  - intros env' dataset_id' table_id' items. unfold read_table.
    destruct (read_gbq env' _ _); reflexivity.
Qed.

Lemma new_object_guards_witness :
  init answering_libraries example_credentials
  = Done (mk_client (mk_ws None None) "school") /\
  client_scoring ["assignee"%string] 28 7 april_first_2017
    (mk_client (mk_ws None None) "school")
  = (Returns (Some "load data"%string),
     mk_client (mk_ws None None) "school") /\
  write_table answering_libraries "scores" "weekly" "default.developer" None
    (mk_client (mk_ws None None) "school")
  = (IoReturns (Some "calc workload scoring"%string), []).
Proof.
  assert (Hi : init answering_libraries example_credentials
               = Done (mk_client (mk_ws None None) "school"))
    by reflexivity.
  destruct (proj2 (new_object_guards answering_libraries example_credentials)
              _ Hi) as (_ & Hs & Hw & _).
  split; [exact Hi |]. split; [apply Hs | apply Hw].
Defined.

(** ** [read_table] *)

Lemma has_values_length (item : string * list string) :
  (0 <? Z.of_nat (List.length (snd item))) = has_values item.
Proof.
  unfold has_values. destruct (snd item); [reflexivity |].
  apply Z.ltb_lt. simpl List.length. lia.
Qed.

Lemma where_loop_conditions (items : list (string * list string)) :
  forall where_statement,
  where_loop items where_statement
  = where_statement ++ map in_condition (filter has_values items).
Proof.
  induction items as [| [c v] items IH]; intros acc; cbn [where_loop filter].
  - rewrite app_nil_r. reflexivity.
  - pose proof (has_values_length (c, v)) as H. cbn [snd] in H.
    rewrite H.
    destruct (has_values (c, v)); cbn [map]; rewrite IH;
      [rewrite <- app_assoc |]; reflexivity.
Qed.

(** X17.  [read_table] sends exactly one request, the query, and assigns
    [raw_df] only, and only when the query is answered.  The query selects
    [id], [created] and [updated] and then every key of [columns] in
    order, whether or not the key has values; it filters on the keys that
    have values only, one [in] condition each with the values in single
    quotes, the conditions joined by a comma; and it orders by
    [updated]. *)
Theorem read_table_query (env : Libraries) (dataset_id table_id : string)
    (columns : option (list (string * list string))) (self : Client) :
  let items :=
    match columns with
    | Some items => items
    | None => []
    end in
  let conditions := map in_condition (filter has_values items) in
  let select_statement :=
    ("select id, date(cast(created_at as datetime)) as created, "
     ++ "date(cast(updated_at as datetime)) as updated")%string in
  let sql :=
    join " "%string
      [match columns with
       | Some _ =>
           (select_statement ++ ", " ++ join ", " (map fst items))%string
       | None => select_statement
       end;
       ("from `" ++ dataset_id ++ "." ++ table_id ++ "`")%string;
       match conditions with
       | [] => ""%string
       | _ => ("where " ++ join ", " conditions)%string
       end;
       "ORDER BY updated"%string] in
  let '(result, trace, after) :=
    read_table env dataset_id table_id columns self in
  trace = [ReadGbq sql (project_id self)] /\
  project_id after = project_id self /\
  out_df (frames after) = out_df (frames self) /\
  match result with
  | IoReturns None =>
      exists table,
        read_gbq env sql (project_id self) = Done table /\
        raw_df (frames after) = Some table
  | IoReturns (Some _) => False
  | IoRaises e =>
      read_gbq env sql (project_id self) = Failed e /\ after = self
  end.
Proof.
  intros items conditions select_statement sql.
  assert (Hsql : bigquery_sql dataset_id table_id columns = sql).
  { unfold bigquery_sql, sql, conditions, items. cbv zeta.
    destruct columns as [its |]; [| reflexivity].
    rewrite where_loop_conditions. cbn [app].
    destruct (map in_condition (filter has_values its)); reflexivity. }
  unfold read_table. cbv zeta. rewrite Hsql.
  destruct (read_gbq env sql (project_id self)) as [table | e] eqn:Hq.
  - repeat split; try reflexivity. exists table. split; reflexivity.
  - repeat split; reflexivity.
Qed.
